(** * Shallow embedding of the hospital-ward discrete-event simulation

    Two source files are modelled:
    - [Dashboard]: [src/simulation.py], the engine [run_hospital_simulation]
      behind the dashboard (one staff pool, three service-time scenarios,
      KPI post-processing with pandas);
    - [Objective3]: [src/assets/simulation.py], the stand-alone script with
      a bed pool, two typed staff pools raced against each other, and the
      workload-dependent service rate.

    Real-valued quantities (virtual time in minutes, rates, KPI values) are
    modelled as exact rationals [Q].  The numpy global random generator is
    an abstract interface ([NumpyRandom]); every theorem holds for every
    generator.  simpy's event queue is modelled as in [simpy.core]: events
    are ordered by (time, priority, event id), with [URGENT = 0] before
    [NORMAL = 1] and insertion order breaking the remaining ties. *)

From Stdlib Require Import QArith Qminmax ZArith List String Bool Lia Lqa Permutation.
Import ListNotations.

(** ** Python-level plumbing shared by both files *)

(** Exceptions raised by the modelled code (Python, numpy, simpy, pandas). *)
Inductive exn :=
| ZeroDivisionError
| ValueError (msg : string)
| KeyError (key : string).

(** A small error monad: [inl] is a raised exception. *)
Definition res (A : Type) := (exn + A)%type.
Definition ret {A} (a : A) : res A := inr a.
Definition raise {A} (e : exn) : res A := inl e.
Definition bind {A B} (m : res A) (f : A -> res B) : res B :=
  match m with inl e => inl e | inr a => f a end.
Notation "'let*' x ':=' m 'in' k" := (bind m (fun x => k))
  (at level 200, x binder, m at level 100, right associativity).

Definition Qltb (a b : Q) : bool := negb (Qle_bool b a).

(** Python's true division on numbers: [ZeroDivisionError] on a zero divisor. *)
Definition py_div (a b : Q) : res Q :=
  if Qeq_bool b 0 then raise ZeroDivisionError else ret (a / b).

(** The numpy global generator ([np.random]).  [exponential_raw scale g] is
    a draw of [np.random.exponential(scale)] for a non-negative scale and
    [rand_raw] a draw of [np.random.rand()]; numpy's own argument check is
    written out in [exponential] below. *)
Class NumpyRandom := {
  rng : Type;
  np_seed : Z -> rng;
  exponential_raw : Q -> rng -> Q * rng;
  rand_raw : rng -> Q * rng;
  exponential_raw_nonneg : forall s g, 0 <= s -> 0 <= fst (exponential_raw s g)
}.

Section Numpy.
Context {R : NumpyRandom}.

(** [np.random.exponential(scale)]: numpy raises on a negative scale. *)
Definition exponential (scale : Q) (g : rng) : res (Q * rng) :=
  if Qltb scale 0 then raise (ValueError "scale < 0")
  else ret (exponential_raw scale g).

End Numpy.

(** simpy event priorities ([simpy.events.URGENT], [NORMAL]). *)
Definition URGENT : nat := 0.
Definition NORMAL : nat := 1.

(** A scheduled entry of simpy's heap: (time, priority, event id, event). *)
Record sched (A : Type) := mkSched {
  ev_time : Q; ev_prio : nat; ev_eid : nat; ev_act : A }.
Arguments mkSched {A}.
Arguments ev_time {A}.
Arguments ev_prio {A}.
Arguments ev_eid {A}.
Arguments ev_act {A}.

(** The heap order: time, then priority, then insertion order. *)
Definition ev_before {A} (e1 e2 : sched A) : bool :=
  Qltb (ev_time e1) (ev_time e2) ||
  (Qeq_bool (ev_time e1) (ev_time e2) &&
   (Nat.ltb (ev_prio e1) (ev_prio e2) ||
    (Nat.eqb (ev_prio e1) (ev_prio e2) && Nat.ltb (ev_eid e1) (ev_eid e2)))).

Fixpoint earliest {A} (best : sched A) (l : list (sched A)) : sched A :=
  match l with
  | [] => best
  | e :: l' => earliest (if ev_before e best then e else best) l'
  end.

(** [heappop]: the least entry, and the heap without it. *)
Definition heappop {A} (q : list (sched A)) : option (sched A * list (sched A)) :=
  match q with
  | [] => None
  | e :: q' =>
      let m := earliest e q' in
      Some (m, filter (fun e' => negb (Nat.eqb (ev_eid e') (ev_eid m))) q)
  end.

(** Python's [list.remove]: drop the first occurrence ([ValueError] if
    absent is swallowed by simpy's [Resource._do_get], so absent = no-op). *)
Fixpoint remove_first (x : nat) (l : list nat) : list nat :=
  match l with
  | [] => []
  | y :: l' => if Nat.eqb x y then l' else y :: remove_first x l'
  end.

(** Replace the [i]-th element of a list (no-op out of range). *)
Fixpoint set_nth {A} (i : nat) (x : A) (l : list A) : list A :=
  match l, i with
  | [], _ => []
  | _ :: l', O => x :: l'
  | y :: l', S i' => y :: set_nth i' x l'
  end.

(** Mean of a non-empty column ([Series.mean]). *)
Definition mean (xs : list Q) : Q :=
  fold_left Qplus xs 0 / inject_Z (Z.of_nat (List.length xs)).

(** ** [src/simulation.py]: the dashboard engine *)
Module Dashboard.

Definition RANDOM_SEED : Z := 42.
Definition MINS_IN_DAY : Q := 1440.

(** The [params] dict passed by the dashboard. *)
Record params := mkParams {
  arrival_rate : Q;            (* patients per day *)
  num_beds : Z;
  num_staff : Z;
  senior_service_days : Q;
  junior_service_days : Q;
  senior_staff_mix : Q;        (* percent *)
  workload_factor_alpha : Q;
  simulation_duration : Q;     (* days *)
  scenario : string }.

Definition BASELINE : string := "Baseline Model (Homogeneous Staff)".
Definition HETEROGENEOUS : string := "Experience-Based Model (Heterogeneous Staff)".
Definition WORKLOAD : string := "Workload-Dependent Model (Dynamic Service Rates)".

(** [simpy.Resource]: capacity, granted requests ([users]) and waiting
    requests ([put_queue]); a request is named by its patient. *)
Record resource := mkResource {
  capacity : Z; users : list nat; put_queue : list nat }.

(** One dict appended to [patient_log]; [None] is [np.nan]. *)
Record entry := mkEntry {
  PatientID : nat;             (* f'P{patient_id}' *)
  ArrivalTime : Q;
  WaitTime : option Q;
  TreatmentTime : option Q;
  TotalTime : option Q;
  Status : string;
  TreatedBy : string }.

Definition BALKED : string := "Balked (No Beds)".
Definition DISCHARGED : string := "Discharged".

(** Where the generator [Hospital.patient] is suspended, with the locals
    live at that point. *)
Inductive phase :=
| PStart                                         (* created, not yet run *)
| PWaitStaff (arrival_time : Q)                  (* at [yield req] *)
| PTreat (arrival_time wait_time treatment_time : Q)  (* at [yield env.timeout] *)
| PBalked                                        (* returned after balking *)
| PDischarged.                                   (* returned after discharge *)

(** What a processed simpy event resumes. *)
Inductive action :=
| EvStop                       (* the [until] event of [env.run] *)
| EvSourceInit                 (* [Initialize] of [patient_source] *)
| EvSourceTimeout              (* interarrival timeout of [patient_source] *)
| EvPatient (p : nat)          (* [Initialize], request grant or timeout of patient [p] *)
| EvRelease.                   (* staff [Release] event: [_trigger_put] *)

Definition event := sched action.

Section Engine.
Context {R : NumpyRandom}.
Variable prm : params.

(** Environment, numpy generator, [Hospital] fields, the generators'
    suspended states and the two data logs. *)
Record state := mkState {
  now : Q; queue : list event; next_eid : nat;
  np_state : rng;
  staff : resource; beds_in_use : Z;
  procs : list phase;                (* patient [p] is at index [p - 1] *)
  patient_id : nat; interarrival_time_mins : Q;
  patient_log : list entry; occupancy_log : list (Q * Z) }.

Definition set_queue (s : state) (q : list event) (eid : nat) : state :=
  mkState (now s) q eid (np_state s) (staff s) (beds_in_use s) (procs s)
    (patient_id s) (interarrival_time_mins s) (patient_log s) (occupancy_log s).
Definition set_clock (s : state) (t : Q) (q : list event) : state :=
  mkState t q (next_eid s) (np_state s) (staff s) (beds_in_use s) (procs s)
    (patient_id s) (interarrival_time_mins s) (patient_log s) (occupancy_log s).
Definition set_np (s : state) (g : rng) : state :=
  mkState (now s) (queue s) (next_eid s) g (staff s) (beds_in_use s) (procs s)
    (patient_id s) (interarrival_time_mins s) (patient_log s) (occupancy_log s).
Definition set_staff (s : state) (r : resource) : state :=
  mkState (now s) (queue s) (next_eid s) (np_state s) r (beds_in_use s) (procs s)
    (patient_id s) (interarrival_time_mins s) (patient_log s) (occupancy_log s).
Definition set_beds (s : state) (b : Z) (occ : list (Q * Z)) : state :=
  mkState (now s) (queue s) (next_eid s) (np_state s) (staff s) b (procs s)
    (patient_id s) (interarrival_time_mins s) (patient_log s) occ.
Definition set_procs (s : state) (ps : list phase) : state :=
  mkState (now s) (queue s) (next_eid s) (np_state s) (staff s) (beds_in_use s) ps
    (patient_id s) (interarrival_time_mins s) (patient_log s) (occupancy_log s).
Definition set_source (s : state) (pid : nat) (ia : Q) : state :=
  mkState (now s) (queue s) (next_eid s) (np_state s) (staff s) (beds_in_use s) (procs s)
    pid ia (patient_log s) (occupancy_log s).
Definition set_log (s : state) (log : list entry) : state :=
  mkState (now s) (queue s) (next_eid s) (np_state s) (staff s) (beds_in_use s) (procs s)
    (patient_id s) (interarrival_time_mins s) log (occupancy_log s).

Definition lookup_phase (s : state) (p : nat) : option phase :=
  match p with O => None | S i => nth_error (procs s) i end.
Definition set_phase (s : state) (p : nat) (ph : phase) : state :=
  match p with O => s | S i => set_procs s (set_nth i ph (procs s)) end.

(** [Environment.schedule]: push onto the heap with the next event id. *)
Definition schedule (s : state) (prio : nat) (delay : Q) (a : action) : state :=
  set_queue s (queue s ++ [mkSched (now s + delay) prio (next_eid s) a])
    (S (next_eid s)).

(** [env.timeout(delay)]: simpy refuses a negative delay. *)
Definition timeout (s : state) (delay : Q) (a : action) : res state :=
  if Qltb delay 0 then raise (ValueError "Negative delay")
  else ret (schedule s NORMAL delay a).

(** [BaseResource._trigger_put] with [Resource._do_put]: the head of the
    put queue is granted if a unit is free; [_do_put] returns [None], so
    the loop stops after that one attempt. *)
Definition trigger_put (s : state) : state :=
  let r := staff s in
  match put_queue r with
  | [] => s
  | q :: rest =>
      if Z.ltb (Z.of_nat (List.length (users r))) (capacity r)
      then schedule (set_staff s (mkResource (capacity r) (users r ++ [q]) rest))
             NORMAL 0 (EvPatient q)
      else s
  end.

(** [self.staff.request()]: [Put.__init__] appends to the put queue and
    calls [_trigger_put]. *)
Definition request (s : state) (p : nat) : state :=
  let r := staff s in
  trigger_put (set_staff s (mkResource (capacity r) (users r) (put_queue r ++ [p]))).

(** [Request.__exit__] -> [resource.release(req)]: [Release.__init__]
    removes the request from [users] at once ([_do_get]) and succeeds; the
    next grant happens when that event is processed ([EvRelease]). *)
Definition release (s : state) (p : nat) : state :=
  let r := staff s in
  schedule (set_staff s (mkResource (capacity r) (remove_first p (users r)) (put_queue r)))
    NORMAL 0 EvRelease.

(** The workload multiplier of the third scenario. *)
Definition workload_factor (patients_per_staff alpha : Q) : Q :=
  if Qltb alpha patients_per_staff then 1 + (patients_per_staff - alpha) else 1.

(** [Hospital.get_treatment_time] (minutes). *)
Definition get_treatment_time (s : state) : res (Q * rng) :=
  let sc := scenario prm in
  if String.eqb sc BASELINE then
    let base_service_mins := senior_service_days prm * MINS_IN_DAY in
    exponential base_service_mins (np_state s)
  else if String.eqb sc HETEROGENEOUS then
    let (u, g1) := rand_raw (np_state s) in
    let is_senior := Qltb u (senior_staff_mix prm / 100) in
    let service_mins :=
      if is_senior then senior_service_days prm * MINS_IN_DAY
      else junior_service_days prm * MINS_IN_DAY in
    exponential service_mins g1
  else if String.eqb sc WORKLOAD then
    let base_service_mins := senior_service_days prm * MINS_IN_DAY in
    let* patients_per_staff :=
      py_div (inject_Z (Z.of_nat (List.length (users (staff s))))) (inject_Z (num_staff prm)) in
    let wf := workload_factor patients_per_staff (workload_factor_alpha prm) in
    exponential (base_service_mins * wf) (np_state s)
  else ret (0, np_state s).

Definition balk_entry (p : nat) (arrival_time : Q) : entry :=
  mkEntry p arrival_time None None None BALKED "N/A".

(** [Hospital.patient], first segment: up to [yield req] (or the return). *)
Definition patient_start (s : state) (p : nat) : state :=
  let arrival_time := now s in
  if Z.leb (num_beds prm) (beds_in_use s) then
    set_log (set_phase s p PBalked) (patient_log s ++ [balk_entry p arrival_time])
  else
    let b := (beds_in_use s + 1)%Z in
    let s1 := set_beds s b (occupancy_log s ++ [(now s, b)]) in
    request (set_phase s1 p (PWaitStaff arrival_time)) p.

(** Second segment: from the grant of [req] to [yield env.timeout(...)]. *)
Definition patient_granted (s : state) (p : nat) (arrival_time : Q) : res state :=
  let wait_time := now s - arrival_time in
  let* tg := get_treatment_time s in
  let (treatment_time, g) := tg in
  timeout (set_phase (set_np s g) p (PTreat arrival_time wait_time treatment_time))
    treatment_time (EvPatient p).

(** Third segment: discharge, logging, and the [with] exit releasing staff. *)
Definition patient_discharge (s : state) (p : nat)
    (arrival_time wait_time treatment_time : Q) : state :=
  let b := (beds_in_use s - 1)%Z in
  let s1 := set_beds s b (occupancy_log s ++ [(now s, b)]) in
  let e := mkEntry p arrival_time (Some wait_time) (Some treatment_time)
             (Some (now s - arrival_time)) DISCHARGED "Staff" in
  let s2 := set_log s1 (patient_log s1 ++ [e]) in
  release (set_phase s2 p PDischarged) p.

Definition resume_patient (s : state) (p : nat) : res state :=
  match lookup_phase s p with
  | Some PStart => ret (patient_start s p)
  | Some (PWaitStaff a) => patient_granted s p a
  | Some (PTreat a w t) => ret (patient_discharge s p a w t)
  | _ => ret s
  end.

(** [patient_source], first segment: the interarrival mean and first draw. *)
Definition source_init (s : state) : res state :=
  let* ia := py_div MINS_IN_DAY (arrival_rate prm) in
  let* dg := exponential ia (np_state s) in
  let (d, g) := dg in
  timeout (set_np (set_source s (patient_id s) ia) g) d EvSourceTimeout.

(** [patient_source], loop body after each timeout: [env.process] creates
    the patient process (an [URGENT] [Initialize] event), then next draw. *)
Definition source_tick (s : state) : res state :=
  let pid := S (patient_id s) in
  let s1 := schedule (set_procs (set_source s pid (interarrival_time_mins s))
                        (procs s ++ [PStart])) URGENT 0 (EvPatient pid) in
  let* dg := exponential (interarrival_time_mins s1) (np_state s1) in
  let (d, g) := dg in
  timeout (set_np s1 g) d EvSourceTimeout.

Inductive step_result := Continue (s : state) | Halt (s : state).

(** [Environment.step]: pop the least event, advance the clock, run the
    callbacks of that event. *)
Definition step (s : state) : res step_result :=
  match heappop (queue s) with
  | None => ret (Halt s)
  | Some (e, q) =>
      let s0 := set_clock s (ev_time e) q in
      match ev_act e with
      | EvStop => ret (Halt s0)
      | EvSourceInit => let* s1 := source_init s0 in ret (Continue s1)
      | EvSourceTimeout => let* s1 := source_tick s0 in ret (Continue s1)
      | EvPatient p => let* s1 := resume_patient s0 p in ret (Continue s1)
      | EvRelease => ret (Continue (trigger_put s0))
      end
  end.

(** [env.run(until=...)] with a step budget; [None] = budget exhausted. *)
Fixpoint run_loop (fuel : nat) (s : state) : res (option state) :=
  match fuel with
  | O => ret None
  | S f =>
      let* r := step s in
      match r with
      | Halt s' => ret (Some s')
      | Continue s' => run_loop f s'
      end
  end.

(** Lines 99-104: seed numpy, build the environment and the ward, start
    the source, and schedule the [until] event.  The generator state
    before the call, [g_before], is overwritten by the seeding. *)
Definition setup (g_before : rng) : res state :=
  let g := np_seed RANDOM_SEED in
  if Z.leb (num_staff prm) 0 then raise (ValueError "capacity must be > 0") else
  let s0 := mkState 0 [] 0 g (mkResource (num_staff prm) [] []) 0 [] 0 0 [] [] in
  let s1 := schedule s0 URGENT 0 EvSourceInit in
  let at_ := simulation_duration prm * MINS_IN_DAY in
  if Qle_bool at_ (now s1) then
    raise (ValueError "until must be greater than the current simulation time")
  else ret (schedule s1 URGENT (at_ - now s1) EvStop).

(** *** Result processing (lines 106-149) *)

(** A pandas frame built from the list of dicts: [pd.DataFrame([])] has
    no columns at all. *)
Record frame := mkFrame { columns : list string; rows : list entry }.

Definition entry_columns : list string :=
  ["PatientID"; "ArrivalTime"; "WaitTime"; "TreatmentTime"; "TotalTime";
   "Status"; "TreatedBy"]%string.

Definition DataFrame (log : list entry) : frame :=
  mkFrame (match log with [] => [] | _ => entry_columns end) log.

Definition has_column (df : frame) (c : string) : bool :=
  existsb (String.eqb c) (columns df).

Definition div_opt (x : option Q) : option Q := option_map (fun v => v / MINS_IN_DAY) x.

(** [patient_log_df[col] /= MINS_IN_DAY] for one column (NaN stays NaN). *)
Definition div_column (c : string) (e : entry) : entry :=
  mkEntry (PatientID e) (ArrivalTime e)
    (if String.eqb c "WaitTime" then div_opt (WaitTime e) else WaitTime e)
    (if String.eqb c "TreatmentTime" then div_opt (TreatmentTime e) else TreatmentTime e)
    (if String.eqb c "TotalTime" then div_opt (TotalTime e) else TotalTime e)
    (Status e) (TreatedBy e).

(** Lines 111-113. *)
Definition to_days (df : frame) : frame :=
  fold_left (fun d c => if has_column d c then mkFrame (columns d) (map (div_column c) (rows d)) else d)
    ["WaitTime"; "TreatmentTime"; "TotalTime"]%string df.

(** [df.dropna(subset=['WaitTime'])]: pandas raises [KeyError] when the
    subset names a column the frame does not have. *)
Definition dropna_WaitTime (df : frame) : res frame :=
  if has_column df "WaitTime" then
    ret (mkFrame (columns df) (filter (fun e => match WaitTime e with Some _ => true | None => false end) (rows df)))
  else raise (KeyError "WaitTime").

(** [Series.str.contains('Balked')]. *)
Definition contains_balked (st : string) : bool :=
  match String.index 0 "Balked" st with Some _ => true | None => false end.

(** [Series.mean] skips NaN. *)
Definition column_mean (xs : list (option Q)) : Q :=
  mean (flat_map (fun o => match o with Some v => [v] | None => [] end) xs).

Record kpis := mkKpis {
  blocking_probability : Q;        (* 'Blocking Probability (%)' *)
  average_wait_for_staff : Q;      (* 'Average Wait for Staff (days)' *)
  average_length_of_stay : Q;      (* 'Average Patient Length of Stay (days)' *)
  total_patients_served : Q;       (* 'Total Patients Served' *)
  average_bed_occupancy : Q }.     (* 'Average Bed Occupancy (%)' *)

(** The occupancy loop of lines 135-139: each row contributes its own
    [PatientsInSystem] times the time since the previous row. *)
Fixpoint occupancy_sum (rows : list (Q * Z)) (total_patient_minutes last_time : Q) : Q :=
  match rows with
  | [] => total_patient_minutes
  | (t, c) :: rest =>
      occupancy_sum rest (total_patient_minutes + inject_Z c * (t - last_time)) t
  end.

(** Lines 133-144. *)
Definition bed_occupancy_kpi (occupancy_df : list (Q * Z)) : Q :=
  match occupancy_df with
  | [] => 0
  | _ =>
      let total_patient_minutes := occupancy_sum occupancy_df 0 0 in
      let total_minutes := simulation_duration prm * MINS_IN_DAY in
      let avg_patients :=
        if Qltb 0 total_minutes then total_patient_minutes / total_minutes else 0 in
      if Z.ltb 0 (num_beds prm) then (avg_patients / inject_Z (num_beds prm)) * 100 else 0
  end.

(** Lines 116-144. *)
Definition compute_kpis (df : frame) (occupancy_df : list (Q * Z)) : res kpis :=
  let total_arrivals := List.length (rows df) in
  let blocking :=
    if Nat.ltb 0 total_arrivals then
      (inject_Z (Z.of_nat (List.length (filter (fun e => contains_balked (Status e)) (rows df))))
       / inject_Z (Z.of_nat total_arrivals)) * 100
    else 0 in
  let* treated_df := dropna_WaitTime df in
  let served := rows treated_df in
  let '(w, los, n) :=
    match served with
    | [] => (0, 0, 0)
    | _ => (column_mean (map WaitTime served), column_mean (map TotalTime served),
            inject_Z (Z.of_nat (List.length served)))
    end in
  ret (mkKpis blocking w los n (bed_occupancy_kpi occupancy_df)).

Record output := mkOutput {
  kpis_of : kpis; patient_log_df : frame; occupancy_df : list (Q * Z) }.

(** [run_hospital_simulation(params)]; [None] when the step budget runs out
    before [env.run] returns. *)
Definition run_hospital_simulation (g_before : rng) (fuel : nat)
  : res (option output) :=
  let* s0 := setup g_before in
  let* final := run_loop fuel s0 in
  match final with
  | None => ret None
  | Some s =>
      let df := to_days (DataFrame (patient_log s)) in
      let* k := compute_kpis df (occupancy_log s) in
      ret (Some (mkOutput k df (occupancy_log s)))
  end.

End Engine.
End Dashboard.

(** ** [src/assets/simulation.py]: the stand-alone workload script *)
Module Objective3.

Definition NUM_SENIOR_STAFF : Z := 7.
Definition NUM_JUNIOR_STAFF : Z := 8.
Definition NUM_BEDS : Z := 20.
Definition ALPHA : Q := 1.
Definition AVG_TREATMENT_TIME_SENIOR_MINUTES : Q := (5 # 2) * 24 * 60.
Definition AVG_TREATMENT_TIME_JUNIOR_MINUTES : Q := (7 # 2) * 24 * 60.

(** The three request objects a patient creates. *)
Inductive req := BedReq (p : nat) | SeniorReq (p : nat) | JuniorReq (p : nat).

Definition req_eqb (a b : req) : bool :=
  match a, b with
  | BedReq x, BedReq y | SeniorReq x, SeniorReq y | JuniorReq x, JuniorReq y => Nat.eqb x y
  | _, _ => false
  end.

(** [simpy.Resource]; [count] is [len(users)]. *)
Record resource := mkResource { capacity : Z; users : list req; put_queue : list req }.

Definition count (r : resource) : Z := Z.of_nat (List.length (users r)).

(** [_trigger_put] with [Resource._do_put]: one attempt at the head. *)
Definition trigger_put (r : resource) : resource :=
  match put_queue r with
  | [] => r
  | q :: rest =>
      if Z.ltb (count r) (capacity r) then mkResource (capacity r) (users r ++ [q]) rest else r
  end.

(** [resource.request()]: append to the put queue, then [_trigger_put]. *)
Definition request (r : resource) (q : req) : resource :=
  trigger_put (mkResource (capacity r) (users r) (put_queue r ++ [q])).

(** [resource.release(req)]: [users.remove(req)] at once; the next grant
    ([_trigger_put]) runs when the [Release] event is processed. *)
Fixpoint remove_req (q : req) (l : list req) : list req :=
  match l with
  | [] => []
  | y :: l' => if req_eqb q y then l' else y :: remove_req q l'
  end.
Definition release (r : resource) (q : req) : resource :=
  mkResource (capacity r) (remove_req q (users r)) (put_queue r).
Definition process_release (r : resource) : resource := trigger_put r.

(** A request has been triggered (granted) iff it is among the users. *)
Definition granted (r : resource) (q : req) : bool := existsb (req_eqb q) (users r).

Inductive staff_type := Senior | Junior.

Definition staff_type_name (t : staff_type) : string :=
  match t with Senior => "Senior" | Junior => "Junior" end.

(** A dict of [patient_log]: a balked patient has only name, arrival time
    and status. *)
Record entry := mkEntry {
  name : nat; arrival_time : Q;
  waited_for_bed : option Q; waited_for_staff : option Q;
  treatment_duration : option Q; staff_type_of : option string; status : string }.

Record ward := mkWard {
  now : Q; beds : resource; staff_senior : resource; staff_junior : resource;
  patient_log : list entry }.

Definition initial_ward : ward :=
  mkWard 0 (mkResource NUM_BEDS [] []) (mkResource NUM_SENIOR_STAFF [] [])
    (mkResource NUM_JUNIOR_STAFF [] []) [].

(** Lines 31-40: balk, or request a bed (then [yield bed_req]). *)
Definition patient_arrive (w : ward) (p : nat) : ward * bool :=
  if Z.leb (capacity (beds w)) (count (beds w)) then
    (mkWard (now w) (beds w) (staff_senior w) (staff_junior w)
       (patient_log w ++ [mkEntry p (now w) None None None None "Balked"]), false)
  else
    (mkWard (now w) (request (beds w) (BedReq p)) (staff_senior w) (staff_junior w)
       (patient_log w), true).

(** Lines 44-47: both staff requests are issued, then [yield senior_req | junior_req]. *)
Definition issue_staff_requests (w : ward) (p : nat) : ward :=
  mkWard (now w) (beds w) (request (staff_senior w) (SeniorReq p))
    (request (staff_junior w) (JuniorReq p)) (patient_log w).

(** Lines 52-62: the branch taken once the condition has fired: Senior as
    soon as [senior_req] is in the result, Junior otherwise; [None] while
    neither request has been granted (the process stays suspended). *)
Definition race_result (w : ward) (p : nat) : option staff_type :=
  if granted (staff_senior w) (SeniorReq p) then Some Senior
  else if granted (staff_junior w) (JuniorReq p) then Some Junior
  else None.

Definition mu_ideal (t : staff_type) : Q :=
  match t with
  | Senior => 1 / AVG_TREATMENT_TIME_SENIOR_MINUTES
  | Junior => 1 / AVG_TREATMENT_TIME_JUNIOR_MINUTES
  end.

(** Lines 67-71. *)
Definition mu_actual (mu_ideal : Q) (beds_count : Z) : Q :=
  let s := (NUM_SENIOR_STAFF + NUM_JUNIOR_STAFF)%Z in
  let n := if Z.eqb beds_count 0 then 1%Z else beds_count in
  mu_ideal * Qmin 1 (ALPHA * inject_Z s / inject_Z n).

Section Script.
Context {R : NumpyRandom}.

(** Lines 67-72: the treatment duration drawn for staff type [t]. *)
Definition draw_treatment (w : ward) (t : staff_type) (g : rng) : res (Q * rng) :=
  exponential (1 / mu_actual (mu_ideal t) (count (beds w))) g.

(** Lines 47-72, at the point where the process resumes from
    [yield senior_req | junior_req] in whatever ward state [w] the
    condition is processed, possibly after the patient waited: the staff
    type taken ([None] while neither request is granted) and the treatment
    duration drawn with the bed count of that moment. *)
Definition race_resume (w : ward) (p : nat) (g : rng)
  : res (option (staff_type * Q * rng)) :=
  match race_result w p with
  | None => ret None
  | Some t => let* dg := draw_treatment w t g in ret (Some (t, fst dg, snd dg))
  end.

(** Lines 77-89 and the exit of the bed's [with]: release the request of
    the staff type taken, log, release the bed. *)
Definition patient_discharge (w : ward) (p : nat) (t : staff_type)
    (arrival bed_assign_time staff_assign_time : Q) : ward :=
  let e := mkEntry p arrival (Some (bed_assign_time - arrival))
             (Some (staff_assign_time - bed_assign_time))
             (Some (now w - staff_assign_time)) (Some (staff_type_name t)) "Discharged" in
  let '(sen, jun) :=
    match t with
    | Senior => (release (staff_senior w) (SeniorReq p), staff_junior w)
    | Junior => (staff_senior w, release (staff_junior w) (JuniorReq p))
    end in
  mkWard (now w) (release (beds w) (BedReq p)) sen jun (patient_log w ++ [e]).

(** One patient's whole life cycle in a ward where nothing else happens
    meanwhile: arrival at [t0], treatment for the drawn duration, and the
    processing of the [Release] events at discharge.  A request that is
    not granted at once leaves the patient suspended (the ward is returned
    as it is at that suspension point). *)
Definition lone_patient (w : ward) (p : nat) (t0 : Q) (g : rng) : res ward :=
  let w0 := mkWard t0 (beds w) (staff_senior w) (staff_junior w) (patient_log w) in
  let '(w1, admitted) := patient_arrive w0 p in
  if negb (admitted && granted (beds w1) (BedReq p)) then ret w1 else
  let w2 := issue_staff_requests w1 p in
  match race_result w2 p with
  | None => ret w2
  | Some t =>
      let* dg := draw_treatment w2 t g in
      let (d, _) := dg in
      let w3 := mkWard (t0 + d) (beds w2) (staff_senior w2) (staff_junior w2) (patient_log w2) in
      let w4 := patient_discharge w3 p t t0 t0 t0 in
      ret (mkWard (now w4) (process_release (beds w4)) (process_release (staff_senior w4))
             (process_release (staff_junior w4)) (patient_log w4))
  end.

End Script.
End Objective3.

(** ** A deterministic generator for running the model on concrete inputs

    The theorems below hold for every [NumpyRandom]; this one only serves
    to evaluate the model ([exponential(scale)] returns [scale] times a
    cycling factor, [rand()] a cycling fraction). *)
Module Lcg.

Definition factors : list Q := [1 # 2; 3 # 2; 1; 1 # 4; 2; 3 # 4].
Definition fractions : list Q := [1 # 10; 9 # 10; 1 # 2; 3 # 10; 7 # 10; 2 # 5].

Definition exp_draw (scale : Q) (g : nat) : Q * nat :=
  (scale * nth (g mod 6) factors 1, S g).

Lemma factors_nonneg : forall i, 0 <= nth i factors 1.
Proof.
  intro i. do 6 (destruct i as [|i]; [unfold Qle; simpl; lia|]).
  destruct i; unfold Qle; simpl; lia.
Qed.

Lemma exp_draw_nonneg : forall s g, 0 <= s -> 0 <= fst (exp_draw s g).
Proof.
  intros s g Hs. unfold exp_draw; simpl.
  apply Qmult_le_0_compat; [exact Hs | apply factors_nonneg].
Qed.

#[export] Instance gen : NumpyRandom := {
  rng := nat;
  np_seed z := Z.to_nat z;
  exponential_raw := exp_draw;
  rand_raw g := (nth (g mod 6) fractions 0, S g);
  exponential_raw_nonneg := exp_draw_nonneg }.

End Lcg.

(** ** Spec-side reading of the occupancy KPI

    Only for comparison with [Dashboard.bed_occupancy_kpi]: the occupancy
    series read as a right-continuous step function on [0, horizon],
    integrated piecewise, each interval weighted by the count of the
    sample that opens it (0 before the first sample). *)
Module SpecReading.

Fixpoint step_function_area (rows : list (Q * Z)) (horizon : Q) : Q :=
  match rows with
  | [] => 0
  | [(t, c)] => inject_Z c * (horizon - t)
  | (t, c) :: (((t', _) :: _) as rest) => inject_Z c * (t' - t) + step_function_area rest horizon
  end.

Definition spec_bed_utilization_pct (prm : Dashboard.params) (rows : list (Q * Z)) : Q :=
  let horizon := Dashboard.simulation_duration prm * Dashboard.MINS_IN_DAY in
  (step_function_area rows horizon / horizon) / inject_Z (Dashboard.num_beds prm) * 100.

(** The spec's workload model, as a mean treatment duration: the ideal
    mean [base] divided by [min(1, alpha * staff / n)], with the bed
    occupancy [n] clamped to at least 1. *)
Definition spec_workload_mean (base alpha : Q) (staff n : Z) : Q :=
  base / Qmin 1 (alpha * inject_Z staff / inject_Z (Z.max 1 n)).

End SpecReading.

(** ** The pandas post-processing on a non-empty log *)
Module DashboardKpi.
Import Dashboard.

(** The pandas conversion on a non-empty log: all seven columns exist and
    the three duration columns are divided by [MINS_IN_DAY]. *)
Definition entry_to_days (e : entry) : entry :=
  mkEntry (PatientID e) (ArrivalTime e) (div_opt (WaitTime e)) (div_opt (TreatmentTime e))
    (div_opt (TotalTime e)) (Status e) (TreatedBy e).

Lemma to_days_nonempty (l : list entry) :
  l <> [] -> to_days (DataFrame l) = mkFrame entry_columns (map entry_to_days l).
Proof.
  destruct l as [|e l]; [contradiction|]. intros _.
  unfold to_days, DataFrame. cbn -[div_column map].
  f_equal. rewrite !map_map. apply map_ext. intros [];  reflexivity.
Qed.

Definition is_served (e : entry) : bool :=
  match WaitTime e with Some _ => true | None => false end.

Lemma compute_kpis_nonempty (prm : params) (l : list entry) occ :
  l <> [] ->
  compute_kpis prm (to_days (DataFrame l)) occ =
  let rs := map entry_to_days l in
  let served := filter is_served rs in
  let '(w, los, n) :=
    match served with
    | [] => (0, 0, 0)
    | _ => (column_mean (map WaitTime served), column_mean (map TotalTime served),
            inject_Z (Z.of_nat (List.length served)))
    end in
  inr (mkKpis ((inject_Z (Z.of_nat (List.length (filter (fun e => contains_balked (Status e)) rs)))
                / inject_Z (Z.of_nat (List.length rs))) * 100) w los n (bed_occupancy_kpi prm occ)).
Proof.
  intro Hne. rewrite (to_days_nonempty l Hne).
  unfold compute_kpis. cbn [rows].
  destruct l as [|e l]; [contradiction|]. reflexivity.
Qed.

Definition count_balked (l : list entry) : nat :=
  List.length (filter (fun e => contains_balked (Status e)) l).

Lemma count_balked_to_days (l : list entry) :
  List.length (filter (fun e => contains_balked (Status e)) (map entry_to_days l)) = count_balked l.
Proof.
  unfold count_balked. induction l as [|e l IH]; [reflexivity|].
  cbn. destruct (contains_balked (Status e)); cbn; [f_equal|]; exact IH.
Qed.

End DashboardKpi.

(** ** States reached by the dashboard engine, and their invariants *)
Module DashboardRun.
Import Dashboard.

(** Unfold the field setters and reduce the record projections. *)
Ltac state_simpl :=
  cbn [set_queue set_clock set_np set_staff set_beds set_procs set_source set_log
       now queue next_eid np_state staff beds_in_use procs patient_id
       interarrival_time_mins patient_log occupancy_log
       capacity users put_queue] in *.

Section Reach.
Context {R : NumpyRandom}.
Variable prm : params.

Definition step_state (r : step_result) : state :=
  match r with Continue s => s | Halt s => s end.

(** The states the engine passes through, from [setup] on. *)
Inductive reachable : state -> Prop :=
| reach_init g s : setup prm g = inr s -> reachable s
| reach_step s r : reachable s -> step prm s = inr r -> reachable (step_state r).

Lemma run_loop_reachable (fuel : nat) :
  forall s s', reachable s -> run_loop prm fuel s = inr (Some s') -> reachable s'.
Proof.
  induction fuel as [|fuel IH]; intros s s' Hs Hrun; cbn in Hrun; [discriminate|].
  destruct (step prm s) as [e|r] eqn:Hstep; cbn in Hrun; [discriminate|].
  destruct r as [s1|s1].
  - apply (IH s1 s'); [|exact Hrun]. exact (reach_step s (Continue s1) Hs Hstep).
  - injection Hrun as <-. exact (reach_step s (Halt s1) Hs Hstep).
Qed.

Lemma run_output (g : rng) (fuel : nat) (out : output) :
  run_hospital_simulation prm g fuel = inr (Some out) ->
  exists s, reachable s /\
    patient_log_df out = to_days (DataFrame (patient_log s)) /\
    occupancy_df out = occupancy_log s.
Proof.
  unfold run_hospital_simulation.
  destruct (setup prm g) as [e|s0] eqn:Hsetup; cbn; [discriminate|].
  destruct (run_loop prm fuel s0) as [e|[s|]] eqn:Hrun; cbn; try discriminate.
  destruct (compute_kpis prm _ _) as [e|k]; cbn; [discriminate|].
  intro H. injection H as <-. exists s. split; [|split; reflexivity].
  apply (run_loop_reachable fuel s0 s); [exact (reach_init g s0 Hsetup) | exact Hrun].
Qed.

(** [heappop] returns an element of the heap and a sub-list of it. *)
Lemma earliest_in (best : event) (l : list event) : best = earliest best l \/ In (earliest best l) l.
Proof.
  revert best. induction l as [|e l IH]; intro best; cbn; [left; reflexivity|].
  destruct (ev_before e best).
  - destruct (IH e) as [H|H]; right; [left; exact H | right; exact H].
  - destruct (IH best) as [H|H]; [left; exact H | right; right; exact H].
Qed.

Lemma heappop_spec (q q' : list event) (e : event) :
  heappop q = Some (e, q') ->
  In e q /\ (forall x, In x q' -> In x q /\ ev_eid x <> ev_eid e).
Proof.
  destruct q as [|e0 q0]; unfold heappop; [discriminate|].
  remember (filter (fun e' => negb (Nat.eqb (ev_eid e') (ev_eid (earliest e0 q0)))) (e0 :: q0))
    as fl eqn:Hfl.
  intro H. injection H as <- <-.
  subst fl.
  split.
  - destruct (earliest_in e0 q0) as [H|H]; [left; exact H | right; exact H].
  - intros x Hx. apply filter_In in Hx as [Hx Hne]. split; [exact Hx|].
    apply negb_true_iff, Nat.eqb_neq in Hne. exact Hne.
Qed.

(** One engine step, by the kind of event popped. *)
Lemma step_cases (s : state) (r : step_result) :
  step prm s = inr r ->
  (heappop (queue s) = None /\ step_state r = s) \/
  exists e q, heappop (queue s) = Some (e, q) /\
    let s0 := set_clock s (ev_time e) q in
    match ev_act e with
    | EvStop => step_state r = s0
    | EvSourceInit => source_init prm s0 = inr (step_state r)
    | EvSourceTimeout => source_tick s0 = inr (step_state r)
    | EvPatient p => resume_patient prm s0 p = inr (step_state r)
    | EvRelease => step_state r = trigger_put s0
    end.
Proof.
  unfold step. destruct (heappop (queue s)) as [[e q]|] eqn:Hpop.
  - intro H. right. exists e, q. split; [reflexivity|]. cbv zeta.
    destruct (ev_act e) as [| | |p|]; cbn in H.
    + injection H as <-. reflexivity.
    + destruct (source_init prm _); cbn in H; [discriminate|]. injection H as <-. reflexivity.
    + destruct (source_tick _); cbn in H; [discriminate|]. injection H as <-. reflexivity.
    + destruct (resume_patient prm _ p); cbn in H; [discriminate|]. injection H as <-. reflexivity.
    + injection H as <-. reflexivity.
  - intro H. injection H as <-. left. split; reflexivity.
Qed.

End Reach.

(** *** Frame facts: what each segment leaves untouched *)
Section Frame.
Context {R : NumpyRandom}.
Variable prm : params.

(** The ward part of a state: beds, processes, staff pool, logs. *)
Definition same_ward (s s' : state) : Prop :=
  beds_in_use s' = beds_in_use s /\ procs s' = procs s /\ staff s' = staff s /\
  patient_log s' = patient_log s /\ occupancy_log s' = occupancy_log s.

Lemma timeout_inv (s s' : state) (d : Q) (a : action) :
  timeout s d a = inr s' -> s' = schedule s NORMAL d a /\ 0 <= d.
Proof.
  unfold timeout, Qltb. destruct (Qle_bool 0 d) eqn:Hd; cbn; [|discriminate].
  intro H. injection H as <-. split; [reflexivity|]. apply Qle_bool_iff. exact Hd.
Qed.

Lemma source_init_ward (s s' : state) :
  source_init prm s = inr s' -> same_ward s s' /\ patient_id s' = patient_id s.
Proof.
  unfold source_init. destruct (py_div _ _) as [e|ia]; cbn; [discriminate|].
  destruct (exponential ia _) as [e|[d g]]; cbn; [discriminate|].
  intro H. apply timeout_inv in H as [-> _].
  repeat split; reflexivity.
Qed.

Lemma source_tick_ward (s s' : state) :
  source_tick s = inr s' ->
  beds_in_use s' = beds_in_use s /\ procs s' = procs s ++ [PStart] /\ staff s' = staff s /\
  patient_log s' = patient_log s /\ occupancy_log s' = occupancy_log s /\
  patient_id s' = S (patient_id s).
Proof.
  unfold source_tick. destruct (exponential _ _) as [e|[d g]]; cbn; [discriminate|].
  intro H. apply timeout_inv in H as [-> _].
  repeat split; reflexivity.
Qed.

Lemma trigger_put_ward (s : state) :
  beds_in_use (trigger_put s) = beds_in_use s /\ procs (trigger_put s) = procs s /\
  patient_log (trigger_put s) = patient_log s /\ occupancy_log (trigger_put s) = occupancy_log s /\
  patient_id (trigger_put s) = patient_id s /\
  users (staff (trigger_put s)) ++ put_queue (staff (trigger_put s)) =
    users (staff s) ++ put_queue (staff s) /\
  capacity (staff (trigger_put s)) = capacity (staff s).
Proof.
  unfold trigger_put. destruct (put_queue (staff s)) as [|q rest] eqn:Hq.
  - rewrite ?Hq. repeat split; reflexivity.
  - destruct (_ <? _)%Z; cbn; rewrite ?Hq, <- ?app_assoc; repeat split; reflexivity.
Qed.

Lemma Forall_set_nth {A} (P : A -> Prop) (i : nat) (x : A) (l : list A) :
  Forall P l -> P x -> Forall P (set_nth i x l).
Proof.
  revert i. induction l as [|y l IH]; intros i Hl Hx; [destruct i; constructor|].
  inversion Hl as [|? ? Hy Hl']; subst.
  destruct i as [|i]; cbn; constructor; auto.
Qed.

Lemma lookup_Forall (P : phase -> Prop) (s : state) (p : nat) (ph : phase) :
  Forall P (procs s) -> lookup_phase s p = Some ph -> P ph.
Proof.
  intros Hall Hl. destruct p as [|i]; cbn in Hl; [discriminate|].
  apply nth_error_In in Hl. rewrite Forall_forall in Hall. exact (Hall ph Hl).
Qed.

End Frame.

(** *** A ward without beds never admits anyone *)
Section NoBeds.
Context {R : NumpyRandom}.
Variable prm : params.
Hypothesis no_beds : (num_beds prm <= 0)%Z.

Definition pre_admission (ph : phase) : Prop := ph = PStart \/ ph = PBalked.

Definition no_admission (s : state) : Prop :=
  beds_in_use s = 0%Z /\ occupancy_log s = [] /\ Forall pre_admission (procs s) /\
  Forall (fun e => Status e = BALKED) (patient_log s).

Lemma no_admission_setup (g : rng) (s : state) : setup prm g = inr s -> no_admission s.
Proof.
  unfold setup. destruct (num_staff prm <=? 0)%Z; [discriminate|].
  destruct (Qle_bool _ _); [discriminate|].
  intro H. injection H as <-. repeat split; constructor.
Qed.

Lemma no_admission_step (s : state) (r : step_result) :
  no_admission s -> step prm s = inr r -> no_admission (step_state r).
Proof.
  intros Hs Hstep.
  destruct (step_cases prm s r Hstep) as [[_ ->]|(e & q & _ & Hcase)]; [exact Hs|].
  destruct Hs as (Hb & Ho & Hp & Hl).
  destruct (ev_act e) as [| | |p|]; cbv zeta in Hcase.
  - rewrite Hcase. repeat split; assumption.
  - apply source_init_ward in Hcase as [(E1 & E2 & _ & E4 & E5) _].
    unfold no_admission. rewrite E1, E2, E4, E5. repeat split; assumption.
  - apply source_tick_ward in Hcase as (E1 & E2 & _ & E4 & E5 & _).
    unfold no_admission. rewrite E1, E2, E4, E5. state_simpl.
    repeat split; try assumption. apply Forall_app. split; [exact Hp|].
    constructor; [left; reflexivity | constructor].
  - unfold resume_patient in Hcase.
    set (s0 := set_clock s (ev_time e) q) in Hcase.
    assert (Hp0 : Forall pre_admission (procs s0)) by exact Hp.
    destruct (lookup_phase s0 p) as [ph|] eqn:Hlk;
      [|injection Hcase as <-; repeat split; assumption].
    destruct (lookup_Forall _ _ _ _ Hp0 Hlk) as [->| ->].
    + injection Hcase as <-. unfold patient_start.
      replace (num_beds prm <=? beds_in_use s0)%Z with true
        by (symmetry; apply Z.leb_le; cbn; lia).
      destruct p as [|i]; unfold set_phase; state_simpl;
        (repeat split; try assumption);
        (try (apply Forall_set_nth; [exact Hp | right; reflexivity]));
        apply Forall_app; (split; [exact Hl | constructor; [reflexivity | constructor]]).
    + injection Hcase as <-. repeat split; assumption.
  - rewrite Hcase. destruct (trigger_put_ward (set_clock s (ev_time e) q))
      as (E1 & E2 & E3 & E4 & _).
    unfold no_admission. rewrite E1, E2, E3, E4. repeat split; assumption.
Qed.

Lemma no_admission_reachable (s : state) : reachable prm s -> no_admission s.
Proof.
  induction 1 as [g s Hsetup | s r _ IH Hstep].
  - exact (no_admission_setup g s Hsetup).
  - exact (no_admission_step s r IH Hstep).
Qed.

(** Every record of a finished run is a balk, and no bed is ever occupied. *)
Lemma no_beds_all_balk (g : rng) (fuel : nat) (out : output) :
  run_hospital_simulation prm g fuel = inr (Some out) ->
  Forall (fun e => Status e = BALKED) (rows (patient_log_df out)) /\ occupancy_df out = [].
Proof.
  intro Hrun. destruct (run_output prm g fuel out Hrun) as (s & Hs & Hdf & Hocc).
  destruct (no_admission_reachable s Hs) as (_ & Ho & _ & Hl).
  rewrite Hdf, Hocc. split; [|exact Ho].
  destruct (patient_log s) as [|e l] eqn:Hlog; [constructor|].
  rewrite DashboardKpi.to_days_nonempty by discriminate.
  cbn [rows]. rewrite Forall_map.
  revert Hl. apply Forall_impl. intros x Hx. exact Hx.
Qed.

End NoBeds.
End DashboardRun.

(** ** The invariant of the dashboard engine

    Along every run: [beds_in_use] counts the admitted patients (those at
    [yield req] or in treatment); the occupancy series stays in
    [0, num_beds], moves by one per sample and ends at [beds_in_use]; each
    admitted patient holds or waits for exactly one staff request; a
    patient in treatment holds a staff unit; a pending resumption of a
    patient waiting for staff is a grant. *)
Module DashboardInvariant.
Import Dashboard DashboardRun.

Definition lookup_in (ps : list phase) (p : nat) : option phase :=
  match p with O => None | S i => nth_error ps i end.

Definition admitted (ph : phase) : bool :=
  match ph with PWaitStaff _ | PTreat _ _ _ => true | _ => false end.

Definition count_admitted (ps : list phase) : nat := List.length (filter admitted ps).
Arguments count_admitted : simpl never.

(** Consecutive counts differ by exactly one. *)
Fixpoint pm1_chain (cs : list Z) : Prop :=
  match cs with
  | x :: ((y :: _) as rest) => (y = x + 1 \/ y = x - 1)%Z /\ pm1_chain rest
  | _ => True
  end.

(** *** List facts *)

Lemma nth_error_set_nth {A} (l : list A) (i j : nat) (x : A) :
  nth_error (set_nth i x l) j =
  if Nat.eqb i j then match nth_error l j with Some _ => Some x | None => None end
  else nth_error l j.
Proof.
  revert i j. induction l as [|y l IH]; intros i j.
  - destruct i, j; cbn; try reflexivity. destruct (Nat.eqb i j); reflexivity.
  - destruct i as [|i], j as [|j]; cbn; try reflexivity. apply IH.
Qed.

Lemma length_set_nth {A} (l : list A) (i : nat) (x : A) :
  List.length (set_nth i x l) = List.length l.
Proof.
  revert i. induction l as [|y l IH]; intro i; destruct i; cbn; auto.
Qed.

Lemma lookup_set_same (ps : list phase) (i : nat) (ph ph' : phase) :
  lookup_in ps (S i) = Some ph' -> lookup_in (set_nth i ph ps) (S i) = Some ph.
Proof.
  cbn. rewrite nth_error_set_nth, Nat.eqb_refl. intros ->. reflexivity.
Qed.

Lemma lookup_set_other (ps : list phase) (i x : nat) (ph : phase) :
  x <> S i -> lookup_in (set_nth i ph ps) x = lookup_in ps x.
Proof.
  intro Hne. destruct x as [|j]; [reflexivity|].
  cbn. rewrite nth_error_set_nth.
  destruct (Nat.eqb_spec i j); [subst; contradiction|reflexivity].
Qed.

Lemma lookup_snoc_old (ps : list phase) (x : nat) (ph ph' : phase) :
  lookup_in ps x = Some ph -> lookup_in (ps ++ [ph']) x = Some ph.
Proof.
  destruct x as [|i]; [discriminate|]. cbn. intro H.
  rewrite nth_error_app1; [exact H|]. apply nth_error_Some. rewrite H. discriminate.
Qed.

Lemma lookup_snoc_new (ps : list phase) (ph : phase) :
  lookup_in (ps ++ [ph]) (S (List.length ps)) = Some ph.
Proof. cbn. rewrite nth_error_app2, Nat.sub_diag by lia. reflexivity. Qed.

Lemma lookup_snoc_cases (ps : list phase) (x : nat) (ph ph' : phase) :
  lookup_in (ps ++ [ph']) x = Some ph ->
  lookup_in ps x = Some ph \/ (x = S (List.length ps) /\ ph = ph').
Proof.
  destruct x as [|i]; [discriminate|]. cbn. intro H.
  destruct (Nat.lt_ge_cases i (List.length ps)) as [Hi|Hi].
  - left. rewrite nth_error_app1 in H by exact Hi. exact H.
  - right. rewrite nth_error_app2 in H by exact Hi.
    destruct (i - List.length ps)%nat as [|k] eqn:Ek; cbn in H.
    + injection H as <-. split; [assert (i = List.length ps)%nat by lia; subst; reflexivity | reflexivity].
    + destruct k; discriminate.
Qed.

Lemma lookup_none_length (ps : list phase) : lookup_in ps (S (List.length ps)) = None.
Proof. cbn. apply nth_error_None. lia. Qed.

Lemma count_admitted_set (ps : list phase) (i : nat) (old new : phase) :
  nth_error ps i = Some old ->
  (count_admitted (set_nth i new ps) + (if admitted old then 1 else 0) =
   count_admitted ps + (if admitted new then 1 else 0))%nat.
Proof.
  unfold count_admitted. revert i. induction ps as [|y ps IH]; intros i Hi.
  - destruct i; discriminate.
  - destruct i as [|i]; cbn in *.
    + injection Hi as ->. destruct (admitted old), (admitted new); cbn; lia.
    + specialize (IH i Hi). destruct (admitted y); cbn; lia.
Qed.

Lemma count_admitted_pos (ps : list phase) (i : nat) (ph : phase) :
  nth_error ps i = Some ph -> admitted ph = true -> (1 <= count_admitted ps)%nat.
Proof.
  unfold count_admitted. revert i. induction ps as [|y ps IH]; intros i Hi Ha.
  - destruct i; discriminate.
  - destruct i as [|i]; cbn in *.
    + injection Hi as ->. rewrite Ha. cbn. lia.
    + specialize (IH i Hi Ha). destruct (admitted y); cbn; lia.
Qed.

Lemma pm1_chain_snoc (l : list Z) (x : Z) :
  pm1_chain l -> (l = [] \/ x = last l 0%Z + 1 \/ x = last l 0%Z - 1)%Z ->
  pm1_chain (l ++ [x]).
Proof.
  induction l as [|a l IH]; intros Hc Hx; [exact I|].
  destruct l as [|b l].
  - cbn in *. split; [|exact I]. destruct Hx as [Hx|Hx]; [discriminate|exact Hx].
  - destruct Hc as [Hab Hc]. cbn. split; [exact Hab|].
    apply IH; [exact Hc|]. right. exact (match Hx with or_introl H => ltac:(discriminate) | or_intror H => H end).
Qed.

Lemma last_snoc (l : list Z) (x d : Z) : last (l ++ [x]) d = x.
Proof. induction l as [|a l IH]; [reflexivity|]. cbn. rewrite IH. destruct (l ++ [x]) eqn:E; [destruct l; discriminate|reflexivity]. Qed.

Lemma last_in (l : list Z) (d : Z) : l <> [] -> In (last l d) l.
Proof.
  induction l as [|a l IH]; intro Hne; [contradiction|].
  destruct l as [|b l]; [left; reflexivity|]. right. apply IH. discriminate.
Qed.

Lemma remove_first_in (x p : nat) (l : list nat) : In x (remove_first p l) -> In x l.
Proof.
  induction l as [|y l IH]; cbn; [tauto|].
  destruct (Nat.eqb_spec p y); [intro; right; assumption|].
  intros [H|H]; [left; exact H | right; exact (IH H)].
Qed.

Lemma remove_first_keep (x p : nat) (l : list nat) : x <> p -> In x l -> In x (remove_first p l).
Proof.
  induction l as [|y l IH]; cbn; [tauto|]. intros Hne Hx.
  destruct (Nat.eqb_spec p y).
  - subst. destruct Hx as [Hx|Hx]; [subst; contradiction|exact Hx].
  - destruct Hx as [Hx|Hx]; [left; exact Hx | right; exact (IH Hne Hx)].
Qed.

Lemma remove_first_nodup (p : nat) (l m : list nat) :
  NoDup (l ++ m) -> NoDup (remove_first p l ++ m) /\ (In p l -> ~ In p (remove_first p l ++ m)).
Proof.
  induction l as [|y l IH]; cbn; intro Hnd; [split; [exact Hnd | tauto]|].
  inversion Hnd as [|? ? Hy Hnd']; subst.
  destruct (Nat.eqb_spec p y).
  - subst. split; [exact Hnd'|]. intros _. exact Hy.
  - destruct (IH Hnd') as [IH1 IH2]. split.
    + constructor; [|exact IH1]. intro Hin. apply Hy.
      apply in_app_or in Hin as [Hin|Hin]; apply in_or_app; [left; exact (remove_first_in _ _ _ Hin) | right; exact Hin].
    + intros [Hp|Hp]; [subst; contradiction|]. intros [Hp'|Hp']; [subst; contradiction|].
      exact (IH2 Hp Hp').
Qed.

Lemma nodup_incl_filter (ps : list phase) (l : list nat) :
  NoDup l ->
  (forall x, In x l -> exists ph, lookup_in ps x = Some ph /\ admitted ph = true) ->
  (List.length l <= count_admitted ps)%nat.
Proof.
  intros Hnd Hl.
  set (ids := map S (filter (fun i => match nth_error ps i with Some ph => admitted ph | None => false end)
                        (seq 0 (List.length ps)))).
  assert (Hlen : List.length ids = count_admitted ps).
  { unfold ids, count_admitted. rewrite length_map.
    clear. induction ps as [|y ps IH] using rev_ind; [reflexivity|].
    rewrite length_app, seq_app, filter_app, length_app, filter_app, length_app.
    cbn [seq filter List.length Nat.add]. rewrite nth_error_app2 by lia.
    rewrite Nat.sub_diag. cbn.
    replace (filter (fun i => match nth_error (ps ++ [y]) i with Some ph => admitted ph | None => false end) (seq 0 (List.length ps)))
      with (filter (fun i => match nth_error ps i with Some ph => admitted ph | None => false end) (seq 0 (List.length ps))).
    - rewrite IH. destruct (admitted y); reflexivity.
    - apply filter_ext_in. intros i Hi. apply in_seq in Hi. rewrite nth_error_app1 by lia. reflexivity. }
  rewrite <- Hlen. apply NoDup_incl_length; [exact Hnd|].
  intros x Hx. destruct (Hl x Hx) as (ph & Hlk & Ha).
  destruct x as [|i]; [discriminate|]. cbn in Hlk. unfold ids. apply in_map.
  apply filter_In. split.
  - apply in_seq. assert (i < List.length ps)%nat by (apply nth_error_Some; rewrite Hlk; discriminate). lia.
  - rewrite Hlk. exact Ha.
Qed.

(** *** The invariant *)
Section Inv.
Context {R : NumpyRandom}.
Variable prm : params.

Record wf (s : state) : Prop := {
  wf_beds : beds_in_use s = Z.of_nat (count_admitted (procs s));
  wf_range : Forall (fun tc => (0 <= snd tc <= num_beds prm)%Z) (occupancy_log s);
  wf_chain : pm1_chain (map snd (occupancy_log s));
  wf_last : last (map snd (occupancy_log s)) 0%Z = beds_in_use s;
  wf_nodup : NoDup (users (staff s) ++ put_queue (staff s));
  wf_requests : forall x, In x (users (staff s) ++ put_queue (staff s)) ->
    exists ph, lookup_in (procs s) x = Some ph /\ admitted ph = true;
  wf_treating : forall x a w t, lookup_in (procs s) x = Some (PTreat a w t) ->
    In x (users (staff s));
  wf_granted : forall x a e, lookup_in (procs s) x = Some (PWaitStaff a) ->
    In e (queue s) -> ev_act e = EvPatient x -> In x (users (staff s));
  wf_start : forall x e1 e2, lookup_in (procs s) x = Some PStart ->
    In e1 (queue s) -> In e2 (queue s) -> ev_act e1 = EvPatient x -> ev_act e2 = EvPatient x ->
    ev_eid e1 = ev_eid e2;
  wf_events : forall x e, In e (queue s) -> ev_act e = EvPatient x ->
    exists ph, lookup_in (procs s) x = Some ph;
  wf_pid : patient_id s = List.length (procs s) }.

Lemma wf_schedule (s : state) (prio : nat) (d : Q) (a : action) :
  wf s ->
  (forall x, a = EvPatient x -> exists ph, lookup_in (procs s) x = Some ph /\ ph <> PStart /\
     (forall ar, ph = PWaitStaff ar -> In x (users (staff s)))) ->
  wf (schedule s prio d a).
Proof.
  intros Hwf Ha. destruct Hwf as [Hb Hr Hc Hl Hnd Hreq Htr Hgr Hst Hev Hpid].
  unfold schedule, set_queue; constructor; cbn; try assumption.
  - intros x ar e Hx He Hact. apply in_app_or in He as [He|[<-|[]]]; [eauto|].
    cbn in Hact. destruct (Ha x Hact) as (ph & Hph & _ & Hw).
    rewrite Hx in Hph. injection Hph as <-. apply (Hw ar). reflexivity.
  - intros x e1 e2 Hx H1 H2 A1 A2.
    assert (Hnew : forall e, e = mkSched (now s + d) prio (next_eid s) a -> ev_act e = EvPatient x -> False).
    { intros e -> Hact. cbn in Hact. destruct (Ha x Hact) as (ph & Hph & Hns & _).
      rewrite Hx in Hph. injection Hph as <-. apply Hns. reflexivity. }
    apply in_app_or in H1 as [H1|[H1|[]]]; [|exfalso; exact (Hnew e1 (eq_sym H1) A1)].
    apply in_app_or in H2 as [H2|[H2|[]]]; [|exfalso; exact (Hnew e2 (eq_sym H2) A2)].
    eauto.
  - intros x e He Hact. apply in_app_or in He as [He|[<-|[]]]; [eauto|].
    cbn in Hact. destruct (Ha x Hact) as (ph & Hph & _). eauto.
Qed.

Lemma wf_pop (s : state) (t : Q) (q : list event) :
  wf s -> (forall e, In e q -> In e (queue s)) -> wf (set_clock s t q).
Proof.
  intros Hwf Hq. destruct Hwf as [Hb Hr Hc Hl Hnd Hreq Htr Hgr Hst Hev Hpid].
  unfold set_clock; constructor; cbn; try assumption; eauto.
Qed.

Lemma wf_set_np (s : state) (g : rng) : wf s -> wf (set_np s g).
Proof. intros []. constructor; assumption. Qed.

Lemma wf_set_source (s : state) (ia : Q) : wf s -> wf (set_source s (patient_id s) ia).
Proof. intros []. constructor; assumption. Qed.

(** [_trigger_put] keeps the invariant. *)
Lemma wf_trigger_put (s : state) : wf s -> wf (trigger_put s).
Proof.
  intro Hwf. unfold trigger_put.
  destruct (put_queue (staff s)) as [|h rest] eqn:Hq; [exact Hwf|].
  destruct (Z.ltb _ _); [|exact Hwf].
  destruct Hwf as [Hb Hr Hc Hl Hnd Hreq Htr Hgr Hst Hev Hpid].
  assert (Hperm : forall l : list nat, users (staff s) ++ h :: rest = (users (staff s) ++ [h]) ++ rest).
  { intros _. rewrite <- app_assoc. reflexivity. }
  rewrite Hq in Hnd, Hreq.
  apply wf_schedule.
  - unfold set_staff; constructor; cbn; try assumption.
    + rewrite <- (Hperm []). exact Hnd.
    + intros x Hx. apply Hreq. rewrite (Hperm []). exact Hx.
    + intros x a w t Hx. apply in_or_app. left. eauto.
    + intros x a e Hx He Hact. apply in_or_app. left. eauto.
  - intros x Hx. injection Hx as <-. cbn.
    destruct (Hreq h) as (ph & Hph & Ha); [apply in_or_app; right; left; reflexivity|].
    exists ph. split; [exact Hph|]. split.
    + intros ->. discriminate.
    + intros ar _. apply in_or_app. right. left. reflexivity.
Qed.

(** [staff.request()] of an admitted patient without a request. *)
Lemma wf_request (s : state) (p : nat) :
  wf s -> ~ In p (users (staff s) ++ put_queue (staff s)) ->
  (exists ph, lookup_in (procs s) p = Some ph /\ admitted ph = true) ->
  wf (request s p).
Proof.
  intros Hwf Hnot Hp. unfold request. apply wf_trigger_put.
  destruct Hwf as [Hb Hr Hc Hl Hnd Hreq Htr Hgr Hst Hev Hpid].
  unfold set_staff; constructor; cbn; try assumption.
  - rewrite app_assoc. apply NoDup_app; [exact Hnd | constructor; [intros []|constructor] |].
    intros x Hx [<-|[]]. exact (Hnot Hx).
  - intros x Hx. rewrite app_assoc in Hx. apply in_app_or in Hx as [Hx|[<-|[]]]; eauto.
Qed.

End Inv.

Lemma lookup_set_cases (ps : list phase) (i x : nat) (ph ph' : phase) :
  lookup_in (set_nth i ph ps) x = Some ph' ->
  (x = S i /\ ph' = ph) \/ (x <> S i /\ lookup_in ps x = Some ph').
Proof.
  destruct (Nat.eq_dec x (S i)) as [->|Hne].
  - cbn. rewrite nth_error_set_nth, Nat.eqb_refl.
    destruct (nth_error ps i); [|discriminate]. intro H. injection H as <-. left. split; reflexivity.
  - rewrite lookup_set_other by exact Hne. intro H. right. split; assumption.
Qed.

Lemma count_admitted_snoc (ps : list phase) (ph : phase) :
  admitted ph = false -> count_admitted (ps ++ [ph]) = count_admitted ps.
Proof.
  intro Ha. unfold count_admitted. rewrite filter_app, length_app. cbn. rewrite Ha. cbn. lia.
Qed.

Lemma Forall_last_range (occ : list (Q * Z)) (lo hi : Z) :
  Forall (fun tc => (lo <= snd tc <= hi)%Z) occ -> occ <> [] ->
  (lo <= last (map snd occ) 0%Z <= hi)%Z.
Proof.
  intros Hf Hne. assert (Hin : In (last (map snd occ) 0%Z) (map snd occ)).
  { apply last_in. destruct occ; [contradiction|discriminate]. }
  apply in_map_iff in Hin as (tc & Htc & Hin). rewrite <- Htc.
  rewrite Forall_forall in Hf. exact (Hf tc Hin).
Qed.

Section Segments.
Context {R : NumpyRandom}.
Variable prm : params.

Lemma wf_setup (g : rng) (s : state) : setup prm g = inr s -> wf prm s.
Proof.
  unfold setup. destruct (Z.leb _ _); [discriminate|]. destruct (Qle_bool _ _); [discriminate|].
  intro H. injection H as <-.
  apply wf_schedule; [apply wf_schedule; [|discriminate]|discriminate].
  constructor; cbn; try solve [constructor | reflexivity | tauto].
  all: intros x; intros; destruct x as [|[]]; cbn in *; first [discriminate | tauto].
Qed.

Lemma wf_source_init (s s' : state) : wf prm s -> source_init prm s = inr s' -> wf prm s'.
Proof.
  intro Hwf. unfold source_init. destruct (py_div _ _) as [e|ia]; cbn; [discriminate|].
  destruct (exponential ia _) as [e|[d g]]; cbn; [discriminate|].
  intro H. apply timeout_inv in H as [-> _].
  apply wf_schedule; [|discriminate]. apply wf_set_np, wf_set_source, Hwf.
Qed.

Lemma wf_source_tick (s s' : state) : wf prm s -> source_tick s = inr s' -> wf prm s'.
Proof.
  intro Hwf. unfold source_tick. destruct (exponential _ _) as [e|[d g]]; cbn; [discriminate|].
  intro H. apply timeout_inv in H as [-> _].
  apply wf_schedule; [|discriminate]. apply wf_set_np.
  destruct Hwf as [Hb Hr Hc Hl Hnd Hreq Htr Hgr Hst Hev Hpid].
  assert (Hfresh : forall x ph, lookup_in (procs s) x = Some ph -> x <> S (patient_id s)).
  { intros x ph Hx ->. rewrite Hpid, lookup_none_length in Hx. discriminate. }
  unfold schedule, set_queue, set_procs, set_source; constructor; cbn; try assumption.
  - rewrite count_admitted_snoc by reflexivity. exact Hb.
  - intros x Hx. destruct (Hreq x Hx) as (ph & Hph & Ha).
    exists ph. split; [exact (lookup_snoc_old _ _ _ _ Hph)|exact Ha].
  - intros x a w t Hx. apply lookup_snoc_cases in Hx as [Hx|[_ Hx]]; [eauto|discriminate].
  - intros x a e Hx He Hact. apply lookup_snoc_cases in Hx as [Hx|[_ Hx]]; [|discriminate].
    apply in_app_or in He as [He|[<-|[]]]; [eauto|].
    cbn in Hact. injection Hact as Hact. exfalso. exact (Hfresh x _ Hx (eq_sym Hact)).
  - intros x e1 e2 Hx H1 H2 A1 A2. apply lookup_snoc_cases in Hx as [Hx|[Hx _]].
    + apply in_app_or in H1 as [H1|[<-|[]]];
        [|cbn in A1; injection A1 as A1; exfalso; exact (Hfresh x _ Hx (eq_sym A1))].
      apply in_app_or in H2 as [H2|[<-|[]]];
        [|cbn in A2; injection A2 as A2; exfalso; exact (Hfresh x _ Hx (eq_sym A2))].
      eauto.
    + rewrite <- Hpid in Hx. subst x.
      assert (Hold : forall e, In e (queue s) -> ev_act e = EvPatient (S (patient_id s)) -> False).
      { intros e He Hact. destruct (Hev _ e He Hact) as (ph & Hph). exact (Hfresh _ _ Hph eq_refl). }
      apply in_app_or in H1 as [H1|[<-|[]]]; [exfalso; exact (Hold e1 H1 A1)|].
      apply in_app_or in H2 as [H2|[<-|[]]]; [exfalso; exact (Hold e2 H2 A2)|].
      reflexivity.
  - intros x e He Hact. apply in_app_or in He as [He|[<-|[]]].
    + destruct (Hev x e He Hact) as (ph & Hph). exists ph. exact (lookup_snoc_old _ _ _ _ Hph).
    + cbn in Hact. injection Hact as <-. exists PStart. rewrite Hpid. apply lookup_snoc_new.
  - rewrite length_app, Hpid. cbn. lia.
Qed.

Lemma wf_patient_start (s : state) (p : nat) :
  wf prm s -> lookup_in (procs s) p = Some PStart ->
  (forall e, In e (queue s) -> ev_act e <> EvPatient p) ->
  wf prm (patient_start prm s p).
Proof.
  intros Hwf Hp Hnoev. destruct p as [|i]; [discriminate|].
  assert (Hnotreq : ~ In (S i) (users (staff s) ++ put_queue (staff s))).
  { intro Hin. destruct (wf_requests _ _ Hwf _ Hin) as (ph & Hph & Ha).
    rewrite Hp in Hph. injection Hph as <-. discriminate. }
  assert (Hcnt := count_admitted_set (procs s) i PStart).
  unfold patient_start. destruct (Z.leb (num_beds prm) (beds_in_use s)) eqn:Hfull.
  - cbn [set_phase]. destruct Hwf as [Hb Hr Hc Hl Hnd Hreq Htr Hgr Hst Hev Hpid].
    unfold set_log, set_procs; constructor; cbn; try assumption.
    + specialize (Hcnt PBalked Hp). cbn in Hcnt. rewrite Hb. f_equal. lia.
    + intros x Hx. destruct (Hreq x Hx) as (ph & Hph & Ha). exists ph. split; [|exact Ha].
      rewrite lookup_set_other; [exact Hph|]. intros ->. exact (Hnotreq Hx).
    + intros x a w t Hx. apply lookup_set_cases in Hx as [[_ Hx]|[_ Hx]]; [discriminate|eauto].
    + intros x a e Hx. apply lookup_set_cases in Hx as [[_ Hx]|[_ Hx]]; [discriminate|eauto].
    + intros x e1 e2 Hx. apply lookup_set_cases in Hx as [[_ Hx]|[_ Hx]]; [discriminate|eauto].
    + intros x e He Hact. destruct (Hev x e He Hact) as (ph & Hph).
      destruct (Nat.eq_dec x (S i)) as [->|Hne].
      * exists PBalked. exact (lookup_set_same _ _ _ _ Hph).
      * exists ph. rewrite lookup_set_other by exact Hne. exact Hph.
    + rewrite length_set_nth. exact Hpid.
  - cbn [set_phase]. apply Z.leb_gt in Hfull. apply wf_request.
    + destruct Hwf as [Hb Hr Hc Hl Hnd Hreq Htr Hgr Hst Hev Hpid].
      unfold set_beds, set_procs; constructor; cbn; try assumption.
      * specialize (Hcnt (PWaitStaff (now s)) Hp). cbn in Hcnt. rewrite Hb. lia.
      * apply Forall_app. split; [exact Hr|]. constructor; [|constructor]. cbn.
        rewrite Hb. lia.
      * rewrite map_app. apply pm1_chain_snoc; [exact Hc|]. right. left. cbn. rewrite Hl. reflexivity.
      * rewrite map_app. apply last_snoc.
      * intros x Hx. destruct (Hreq x Hx) as (ph & Hph & Ha). exists ph. split; [|exact Ha].
        rewrite lookup_set_other; [exact Hph|]. intros ->. exact (Hnotreq Hx).
      * intros x a w t Hx. apply lookup_set_cases in Hx as [[_ Hx]|[_ Hx]]; [discriminate|eauto].
      * intros x a e Hx He Hact. apply lookup_set_cases in Hx as [[-> _]|[_ Hx]]; [|eauto].
        exfalso. exact (Hnoev e He Hact).
      * intros x e1 e2 Hx. apply lookup_set_cases in Hx as [[_ Hx]|[_ Hx]]; [discriminate|eauto].
      * intros x e He Hact. destruct (Hev x e He Hact) as (ph & Hph).
        destruct (Nat.eq_dec x (S i)) as [->|Hne].
        -- exists (PWaitStaff (now s)). exact (lookup_set_same _ _ _ _ Hph).
        -- exists ph. rewrite lookup_set_other by exact Hne. exact Hph.
      * rewrite length_set_nth. exact Hpid.
    + exact Hnotreq.
    + exists (PWaitStaff (now s)). split; [exact (lookup_set_same _ _ _ _ Hp)|reflexivity].
Qed.

Lemma wf_patient_granted (s s' : state) (p : nat) (a : Q) :
  wf prm s -> lookup_in (procs s) p = Some (PWaitStaff a) -> In p (users (staff s)) ->
  patient_granted prm s p a = inr s' -> wf prm s'.
Proof.
  intros Hwf Hp Hu. destruct p as [|i]; [discriminate|].
  unfold patient_granted. destruct (get_treatment_time prm s) as [e|[tt g]]; cbn; [discriminate|].
  intro H. apply timeout_inv in H as [-> _].
  assert (Hcnt := count_admitted_set (procs s) i (PWaitStaff a) (PTreat a (now s - a) tt) Hp).
  cbn in Hcnt.
  apply wf_schedule.
  - destruct Hwf as [Hb Hr Hc Hl Hnd Hreq Htr Hgr Hst Hev Hpid].
    unfold set_np, set_procs; constructor; cbn; try assumption.
    + rewrite Hb. f_equal. lia.
    + intros x Hx. destruct (Hreq x Hx) as (ph & Hph & Ha).
      destruct (Nat.eq_dec x (S i)) as [->|Hne].
      * exists (PTreat a (now s - a) tt). split; [exact (lookup_set_same _ _ _ _ Hph)|reflexivity].
      * exists ph. rewrite lookup_set_other by exact Hne. split; assumption.
    + intros x a' w t Hx. apply lookup_set_cases in Hx as [[-> _]|[_ Hx]]; [exact Hu|eauto].
    + intros x a' e Hx. apply lookup_set_cases in Hx as [[_ Hx]|[_ Hx]]; [discriminate|eauto].
    + intros x e1 e2 Hx. apply lookup_set_cases in Hx as [[_ Hx]|[_ Hx]]; [discriminate|eauto].
    + intros x e He Hact. destruct (Hev x e He Hact) as (ph & Hph).
      destruct (Nat.eq_dec x (S i)) as [->|Hne].
      * exists (PTreat a (now s - a) tt). exact (lookup_set_same _ _ _ _ Hph).
      * exists ph. rewrite lookup_set_other by exact Hne. exact Hph.
    + rewrite length_set_nth. exact Hpid.
  - intros x Hx. injection Hx as <-. exists (PTreat a (now s - a) tt). cbn.
    split; [exact (lookup_set_same _ _ _ _ Hp)|]. split; [discriminate|]. intros ar Har. discriminate.
Qed.

Lemma wf_patient_discharge (s : state) (p : nat) (a w t : Q) :
  wf prm s -> lookup_in (procs s) p = Some (PTreat a w t) ->
  wf prm (patient_discharge s p a w t).
Proof.
  intros Hwf Hp. destruct p as [|i]; [discriminate|].
  destruct Hwf as [Hb Hr Hc Hl Hnd Hreq Htr Hgr Hst Hev Hpid].
  assert (Hu := Htr _ _ _ _ Hp).
  assert (Hcnt := count_admitted_set (procs s) i (PTreat a w t) PDischarged Hp). cbn in Hcnt.
  assert (Hpos := count_admitted_pos (procs s) i _ Hp eq_refl).
  assert (Hne : occupancy_log s <> []).
  { intros Hocc. rewrite Hocc in Hl. cbn in Hl. rewrite Hb in Hl. lia. }
  assert (Hlast := Forall_last_range _ _ _ Hr Hne). rewrite Hl in Hlast.
  destruct (remove_first_nodup (S i) _ _ Hnd) as [Hnd' Hgone].
  specialize (Hgone Hu).
  unfold patient_discharge, release. cbn [set_phase].
  apply wf_schedule; [|discriminate].
  unfold set_staff, set_procs, set_log, set_beds; constructor; cbn; try assumption.
  - rewrite Hb. lia.
  - apply Forall_app. split; [exact Hr|]. constructor; [|constructor]. cbn. rewrite Hb in *. lia.
  - rewrite map_app. apply pm1_chain_snoc; [exact Hc|]. right. right. rewrite Hl. reflexivity.
  - rewrite map_app. apply last_snoc.
  - intros x Hx. assert (Hxp : x <> S i) by (intros ->; exact (Hgone Hx)).
    assert (Hx' : In x (users (staff s) ++ put_queue (staff s))).
    { apply in_app_or in Hx as [Hx|Hx]; apply in_or_app; [left; exact (remove_first_in _ _ _ Hx)|right; exact Hx]. }
    destruct (Hreq x Hx') as (ph & Hph & Ha). exists ph.
    rewrite lookup_set_other by exact Hxp. split; assumption.
  - intros x a' w' t' Hx. apply lookup_set_cases in Hx as [[_ Hx]|[Hxp Hx]]; [discriminate|].
    apply remove_first_keep; [exact Hxp|eauto].
  - intros x a' e Hx He Hact. apply lookup_set_cases in Hx as [[_ Hx]|[Hxp Hx]]; [discriminate|].
    apply remove_first_keep; [exact Hxp|eauto].
  - intros x e1 e2 Hx. apply lookup_set_cases in Hx as [[_ Hx]|[_ Hx]]; [discriminate|eauto].
  - intros x e He Hact. destruct (Hev x e He Hact) as (ph & Hph).
    destruct (Nat.eq_dec x (S i)) as [->|Hxp].
    + exists PDischarged. exact (lookup_set_same _ _ _ _ Hph).
    + exists ph. rewrite lookup_set_other by exact Hxp. exact Hph.
  - rewrite length_set_nth. exact Hpid.
Qed.

Lemma wf_step (s : state) (r : step_result) :
  wf prm s -> step prm s = inr r -> wf prm (step_state r).
Proof.
  intros Hwf Hstep. apply step_cases in Hstep as [[_ ->]|(e & q & Hpop & H)]; [exact Hwf|].
  destruct (heappop_spec _ _ _ Hpop) as [He Hq].
  assert (Hw0 : wf prm (set_clock s (ev_time e) q)).
  { apply wf_pop; [exact Hwf|]. intros x Hx. exact (proj1 (Hq x Hx)). }
  cbv zeta in H. destruct (ev_act e) as [| | |p|] eqn:Ha.
  - rewrite H. exact Hw0.
  - exact (wf_source_init _ _ Hw0 H).
  - exact (wf_source_tick _ _ Hw0 H).
  - unfold resume_patient in H.
    change (lookup_phase (set_clock s (ev_time e) q) p) with (lookup_in (procs s) p) in H.
    destruct (lookup_in (procs s) p) as [[|a|a w t| |]|] eqn:Hlk; cbn in H;
      try (injection H as <-; exact Hw0).
    + injection H as <-. apply wf_patient_start; [exact Hw0|exact Hlk|].
      intros e' He' Hact. cbn in He'. destruct (Hq e' He') as [He'' Hid].
      apply Hid. exact (wf_start _ _ Hwf p e' e Hlk He'' He Hact Ha).
    + apply (wf_patient_granted _ _ p a Hw0 Hlk); [|exact H].
      exact (wf_granted _ _ Hwf p a e Hlk He Ha).
    + injection H as <-. apply wf_patient_discharge; [exact Hw0|exact Hlk].
  - rewrite H. apply wf_trigger_put. exact Hw0.
Qed.

Lemma wf_reachable (s : state) : reachable prm s -> wf prm s.
Proof.
  induction 1 as [g s Hs|s r _ IH Hstep].
  - exact (wf_setup g s Hs).
  - exact (wf_step s r IH Hstep).
Qed.

(** At most one staff unit per occupied bed. *)
Lemma users_le_beds (s : state) :
  wf prm s -> (Z.of_nat (List.length (users (staff s))) <= beds_in_use s)%Z.
Proof.
  intros Hwf. rewrite (wf_beds _ _ Hwf). apply Nat2Z.inj_le.
  apply nodup_incl_filter.
  - exact (NoDup_app_remove_r _ _ (wf_nodup _ _ Hwf)).
  - intros x Hx. apply (wf_requests _ _ Hwf). apply in_or_app. left. exact Hx.
Qed.

End Segments.

(** *** Runs of a given number of steps, on concrete inputs *)
Section Runs.
Context {R : NumpyRandom}.
Variable prm : params.

(** [n] calls of [env.step()]. *)
Fixpoint steps (n : nat) (s : state) : res state :=
  match n with
  | O => ret s
  | S n' => let* r := step prm s in steps n' (step_state r)
  end.

Lemma steps_reachable (n : nat) :
  forall s s', reachable prm s -> steps n s = inr s' -> reachable prm s'.
Proof.
  induction n as [|n IH]; intros s s' Hs H; cbn in H.
  - injection H as <-. exact Hs.
  - destruct (step prm s) as [e|r] eqn:Hstep; cbn in H; [discriminate|].
    exact (IH _ _ (reach_step prm s r Hs Hstep) H).
Qed.

(** A reachable state comes from a [setup] that accepted [num_staff]. *)
Lemma reachable_num_staff (s : state) : reachable prm s -> (0 < num_staff prm)%Z.
Proof.
  induction 1 as [g s Hs|]; [|assumption].
  unfold setup in Hs. destruct (Z.leb_spec (num_staff prm) 0); [discriminate|assumption].
Qed.

(** The first step of a run processes the source's [Initialize] event. *)
Lemma setup_first_step (g : rng) (s : state) :
  setup prm g = inr s ->
  exists t q, step prm s = (let* s1 := source_init prm (set_clock s t q) in ret (Continue s1)).
Proof.
  unfold setup. destruct (Z.leb _ _); [discriminate|].
  destruct (Qle_bool _ _) eqn:Hd; [discriminate|].
  intro H. injection H as <-.
  assert (Hpos : 0 < simulation_duration prm * MINS_IN_DAY).
  { apply Qnot_le_lt. intro Hle. apply Qle_bool_iff in Hle.
    cbn [now schedule set_queue] in Hd. rewrite Hle in Hd. discriminate. }
  unfold step, heappop. cbn -[Qltb Qeq_bool Qplus Qminus Qmult source_init].
  replace (ev_before _ _) with false.
  2:{ symmetry. unfold ev_before. cbn [ev_time ev_prio ev_eid]. apply orb_false_iff. split.
      - unfold Qltb. apply negb_false_iff, Qle_bool_iff. lra.
      - apply andb_false_iff. left.
        destruct (Qeq_bool _ _) eqn:E; [apply Qeq_bool_eq in E; lra | reflexivity]. }
  cbn. eexists; eexists; reflexivity.
Qed.

Lemma setup_ok (g : rng) :
  (0 < num_staff prm)%Z -> 0 < simulation_duration prm -> exists s, setup prm g = inr s.
Proof.
  intros Hns Hd. unfold setup.
  replace (Z.leb (num_staff prm) 0) with false by (symmetry; apply Z.leb_gt; exact Hns).
  cbn [now schedule set_queue].
  destruct (Qle_bool _ _) eqn:E; [|eexists; reflexivity].
  apply Qle_bool_iff in E. unfold MINS_IN_DAY in E. lra.
Qed.

(** A run whose first step raises raises that exception. *)
Lemma run_first_step_raises (g : rng) (fuel : nat) (e : exn) :
  (0 < num_staff prm)%Z -> 0 < simulation_duration prm ->
  (forall s, source_init prm s = inl e) ->
  run_hospital_simulation prm g (S fuel) = inl e.
Proof.
  intros Hns Hd Hinit. destruct (setup_ok g Hns Hd) as (s & Hs).
  destruct (setup_first_step g s Hs) as (t & q & Hstep).
  unfold run_hospital_simulation. rewrite Hs. cbn [bind run_loop].
  rewrite Hstep, Hinit. reflexivity.
Qed.

Lemma neg_rate_neg_mean (ar : Q) : ar < 0 -> MINS_IN_DAY / ar < 0.
Proof.
  destruct ar as [[|n|n] d]; unfold Qlt; cbn; intro H; lia.
Qed.

End Runs.

(** *** The shape of the patient log *)
Section LogShape.
Context {R : NumpyRandom}.
Variable prm : params.

(** A row of the log is a balk ('N/A') or a discharge ('Staff'). *)
Definition log_row_ok (e : entry) : Prop :=
  (Status e = BALKED /\ TreatedBy e = "N/A"%string) \/
  (Status e = DISCHARGED /\ TreatedBy e = "Staff"%string).

Lemma log_ok_step (s : state) (r : step_result) :
  Forall log_row_ok (patient_log s) -> step prm s = inr r ->
  Forall log_row_ok (patient_log (step_state r)).
Proof.
  intros Hl Hstep. apply step_cases in Hstep as [[_ ->]|(e & q & _ & H)]; [exact Hl|].
  cbv zeta in H. destruct (ev_act e) as [| | |p|].
  - rewrite H. exact Hl.
  - destruct (source_init_ward prm _ _ H) as ((_ & _ & _ & E & _) & _). rewrite E. exact Hl.
  - destruct (source_tick_ward _ _ H) as (_ & _ & _ & E & _). rewrite E. exact Hl.
  - unfold resume_patient in H.
    destruct (lookup_phase _ p) as [[|a|a w t| |]|]; cbn in H;
      try (injection H as <-; exact Hl).
    + injection H as <-. unfold patient_start.
      destruct (Z.leb _ _).
      * destruct p; cbn; apply Forall_app; (split; [exact Hl|]);
          repeat constructor; left; split; reflexivity.
      * unfold request.
        match goal with |- context [trigger_put ?s1] =>
          destruct (trigger_put_ward s1) as (_ & _ & E & _) end.
        rewrite E. destruct p; exact Hl.
    + unfold patient_granted in H. destruct (get_treatment_time prm _) as [x|[tt g]]; cbn in H;
        [discriminate|].
      apply timeout_inv in H as [-> _]. destruct p; exact Hl.
    + injection H as <-. unfold patient_discharge, release.
      destruct p; cbn; apply Forall_app; (split; [exact Hl|]);
        repeat constructor; right; split; reflexivity.
  - rewrite H. destruct (trigger_put_ward (set_clock s (ev_time e) q)) as (_ & _ & E & _).
    rewrite E. exact Hl.
Qed.

Lemma log_ok_reachable (s : state) : reachable prm s -> Forall log_row_ok (patient_log s).
Proof.
  induction 1 as [g s Hs|s r _ IH Hstep].
  - unfold setup in Hs. destruct (Z.leb _ _); [discriminate|].
    destruct (Qle_bool _ _); [discriminate|]. injection Hs as <-. constructor.
  - exact (log_ok_step s r IH Hstep).
Qed.

End LogShape.

End DashboardInvariant.

(** ** Concrete configurations and runs, evaluated with [Lcg.gen] *)
Module Scenarios.
Import Dashboard DashboardRun DashboardInvariant.
#[local] Existing Instance Lcg.gen.

(** A one-bed ward observed for one day. *)
Definition one_bed_day : params := mkParams 6 1 1 (5 # 2) (7 # 2) 50 1 1 BASELINE.

(** The dashboard's default alpha (1.5) in the workload scenario: six
    patients per day, three beds, one staff unit, five days. *)
Definition workload_crowd : params :=
  mkParams 6 3 1 (5 # 2) (7 # 2) 50 (3 # 2) 5 WORKLOAD.

Definition empty_state {R : NumpyRandom} (g : rng) : state :=
  mkState 0 [] 0 g (mkResource 0 [] []) 0 [] 0 0 [] [].

Definition state_or_empty {R : NumpyRandom} (g : rng) (r : res state) : state :=
  match r with inr s => s | inl _ => empty_state g end.

(** The engine after 34 steps, at minute 3720: patient 1 has been
    discharged, patients 2 and 3 hold beds, and patient 2 has just been
    granted the staff unit; and the state after the next step, where the
    treatment of patient 2 starts. *)
Definition c3_before : state (R := Lcg.gen) :=
  state_or_empty 0%nat (let* s0 := setup workload_crowd 0%nat in steps workload_crowd 34 s0).
Definition c3_after : state (R := Lcg.gen) :=
  state_or_empty 0%nat (steps workload_crowd 1 c3_before).

Definition treatment_time_of (ph : option phase) : option Q :=
  match ph with Some (PTreat _ _ t) => Some t | _ => None end.

(** A configuration with a scenario name the engine does not know. *)
Definition unknown_scenario : params :=
  mkParams 6 2 1 (5 # 2) (7 # 2) 50 1 1 "Unknown".

Definition empty_output : output :=
  mkOutput (mkKpis 0 0 0 0 0) (mkFrame [] []) [].

Definition output_or_empty (r : res (option output)) : output :=
  match r with inr (Some o) => o | _ => empty_output end.


(** Six patients per day, two beds, one staff unit, baseline scenario. *)
Definition baseline_pair : params := mkParams 6 2 1 (5 # 2) (7 # 2) 50 1 1 BASELINE.

(** One arrival per thousand days, observed for one day. *)
Definition rare_arrivals : params := mkParams (1 # 1000) 2 1 (5 # 2) (7 # 2) 50 1 1 BASELINE.

Definition final_or_empty (r : res (option state)) : state :=
  match r with inr (Some s) => s | _ => empty_state 0%nat end.

Definition rare_setup : state := state_or_empty 0%nat (setup rare_arrivals 0%nat).
Definition rare_final : state := final_or_empty (run_loop rare_arrivals 200 rare_setup).

(** A one-bed ward whose bed is taken, and a log with one discharge. *)
Definition full_ward : state :=
  mkState 30 [] 0 0%nat (mkResource 1 [1%nat] []) 1 [PTreat 10 0 100] 1 0 [] [(10, 1%Z)].

Definition one_discharge : list entry :=
  [mkEntry 1 10 (Some 0) (Some 100) (Some 100) DISCHARGED "Staff"].

End Scenarios.

(** ** The stand-alone script: what an arrival adds to the log *)
Module Objective3Run.

(** In the script, [patient_arrive] adds at most a 'Balked' record. *)
Lemma patient_arrive_log (w : Objective3.ward) (p : nat) (e : Objective3.entry) :
  In e (Objective3.patient_log (fst (Objective3.patient_arrive w p))) ->
  ~ In e (Objective3.patient_log w) -> Objective3.status e = "Balked"%string.
Proof.
  unfold Objective3.patient_arrive. destruct (Z.leb _ _); cbn; intros Hin Hnot.
  - apply in_app_or in Hin as [Hin|[<-|[]]]; [contradiction|reflexivity].
  - contradiction.
Qed.

End Objective3Run.

(** ** Run-wide timing invariants and the end of a run *)
Module DashboardTiming.
Import Dashboard DashboardRun DashboardInvariant.

(** The end of the simulated period, in minutes ([until] of [env.run]). *)
Definition horizon (prm : params) : Q := simulation_duration prm * MINS_IN_DAY.

(** Consecutive values are in non-decreasing order. *)
Fixpoint nondecreasing (ts : list Q) : Prop :=
  match ts with
  | x :: ((y :: _) as rest) => x <= y /\ nondecreasing rest
  | _ => True
  end.

Definition count_discharged (log : list entry) : nat :=
  List.length (filter (fun e => String.eqb (Status e) DISCHARGED) log).

(** The timing of one log row, seen at time [t_now]: a discharged row
    carries its wait, treatment and total times, the total being the sum
    of the two others, and ends by [t_now]; any other row has no wait
    time (NaN). *)
Definition entry_timing (t_now : Q) (e : entry) : Prop :=
  0 <= ArrivalTime e <= t_now /\
  (Status e = DISCHARGED ->
     exists w t tot, WaitTime e = Some w /\ TreatmentTime e = Some t /\ TotalTime e = Some tot /\
       0 <= w /\ 0 <= t /\ tot == w + t /\ ArrivalTime e + tot <= t_now) /\
  (Status e <> DISCHARGED -> WaitTime e = None).

Lemma nondecreasing_snoc (l : list Q) (x : Q) :
  nondecreasing l -> Forall (fun y => y <= x) l -> nondecreasing (l ++ [x]).
Proof.
  induction l as [|a l IH]; intros Hc Hx; [exact I|].
  inversion Hx as [|? ? Ha Hl]; subst.
  destruct l as [|b l].
  - cbn. split; [exact Ha|exact I].
  - destruct Hc as [Hab Hc]. cbn. split; [exact Hab|]. exact (IH Hc Hl).
Qed.

Lemma earliest_min (best : event) (l : list event) :
  forall x, In x (best :: l) -> ev_time (earliest best l) <= ev_time x.
Proof.
  revert best. induction l as [|e l IH]; intros best x Hx; cbn [earliest].
  - destruct Hx as [<-|[]]. apply Qle_refl.
  - destruct (ev_before e best) eqn:Hb.
    + assert (Heb : ev_time e <= ev_time best).
      { unfold ev_before in Hb. apply orb_true_iff in Hb as [H|H].
        - unfold Qltb in H. apply negb_true_iff in H.
          apply Qlt_le_weak, Qnot_le_lt. intro H'. apply Qle_bool_iff in H'. congruence.
        - apply andb_true_iff in H as [H _]. apply Qeq_bool_eq in H. rewrite H. apply Qle_refl. }
      destruct Hx as [<-|[<-|Hx]].
      * eapply Qle_trans; [apply IH; left; reflexivity|exact Heb].
      * apply IH. left. reflexivity.
      * apply IH. right. exact Hx.
    + assert (Hbe : ev_time best <= ev_time e).
      { unfold ev_before in Hb. apply orb_false_iff in Hb as [H _].
        unfold Qltb in H. apply negb_false_iff, Qle_bool_iff in H. exact H. }
      destruct Hx as [<-|[<-|Hx]].
      * apply IH. left. reflexivity.
      * eapply Qle_trans; [apply IH; left; reflexivity|exact Hbe].
      * apply IH. right. exact Hx.
Qed.

(** [heappop] takes an entry of least time and drops every entry with its id. *)
Lemma heappop_shape (q q' : list event) (m : event) :
  heappop q = Some (m, q') ->
  In m q /\ q' = filter (fun e' => negb (Nat.eqb (ev_eid e') (ev_eid m))) q /\
  (forall x, In x q -> ev_time m <= ev_time x).
Proof.
  destruct q as [|e0 q0]; [discriminate|]. unfold heappop. intro H. injection H as <- <-.
  split; [|split; [reflexivity|]].
  - destruct (earliest_in e0 q0) as [H|H]; [left; exact H|right; exact H].
  - intros x Hx. apply earliest_min. exact Hx.
Qed.

Lemma NoDup_map_filter {A B} (f : A -> B) (g : A -> bool) (l : list A) :
  NoDup (map f l) -> NoDup (map f (filter g l)).
Proof.
  induction l as [|a l IH]; cbn; intro H; [constructor|].
  inversion H as [|? ? Ha Hl]; subst.
  destruct (g a); cbn; [|exact (IH Hl)].
  constructor; [|exact (IH Hl)].
  intro Hin. apply Ha. apply in_map_iff in Hin as (y & Hy & Hin). apply filter_In in Hin as [Hin _].
  rewrite <- Hy. apply in_map. exact Hin.
Qed.

Lemma NoDup_map_inj {A B} (f : A -> B) (l : list A) (a b : A) :
  NoDup (map f l) -> In a l -> In b l -> f a = f b -> a = b.
Proof.
  induction l as [|c l IH]; cbn; [tauto|]. intro H. inversion H as [|? ? Hc Hl]; subst.
  intros [<-|Ha] [<-|Hb] Hf; auto.
  - exfalso. apply Hc. rewrite Hf. apply in_map. exact Hb.
  - exfalso. apply Hc. rewrite <- Hf. apply in_map. exact Ha.
Qed.

Lemma length_remove_first (p : nat) (l : list nat) :
  (List.length (remove_first p l) <= List.length l)%nat.
Proof.
  induction l as [|y l IH]; cbn; [lia|]. destruct (Nat.eqb p y); cbn; lia.
Qed.

Lemma entry_timing_mono (t t' : Q) (e : entry) :
  t <= t' -> entry_timing t e -> entry_timing t' e.
Proof.
  intros Ht [[H0 H1] [H2 H3]]. split; [split; [exact H0|exact (Qle_trans _ _ _ H1 Ht)]|].
  split; [|exact H3]. intro Hd. destruct (H2 Hd) as (w & tt & tot & E1 & E2 & E3 & Hw & Htt & Htot & Hend).
  exists w, tt, tot. repeat split; try assumption. exact (Qle_trans _ _ _ Hend Ht).
Qed.

Lemma exponential_ok {R : NumpyRandom} (sc : Q) (g : rng) (r : Q * rng) :
  exponential sc g = inr r -> 0 <= sc /\ r = exponential_raw sc g.
Proof.
  unfold exponential, Qltb. destruct (Qle_bool 0 sc) eqn:E; cbn; [|discriminate].
  intro H. injection H as <-. split; [apply Qle_bool_iff; exact E|reflexivity].
Qed.

Section Timing.
Context {R : NumpyRandom}.
Variable prm : params.

Record tinv (s : state) : Prop := {
  ti_now : 0 <= now s;
  ti_future : forall e, In e (queue s) -> now s <= ev_time e;
  ti_eids : NoDup (map ev_eid (queue s));
  ti_fresh : forall e, In e (queue s) -> (ev_eid e < next_eid s)%nat;
  ti_one : forall x e1 e2, In e1 (queue s) -> In e2 (queue s) ->
    ev_act e1 = EvPatient x -> ev_act e2 = EvPatient x -> ev_eid e1 = ev_eid e2;
  ti_stop : forall e, In e (queue s) -> ev_act e = EvStop -> ev_time e == horizon prm;
  ti_wait : forall x a, lookup_in (procs s) x = Some (PWaitStaff a) -> 0 <= a <= now s;
  ti_treat : forall x a w t, lookup_in (procs s) x = Some (PTreat a w t) ->
    0 <= a /\ 0 <= w /\ 0 <= t /\
    (forall e, In e (queue s) -> ev_act e = EvPatient x -> ev_time e == a + w + t);
  ti_log : Forall (entry_timing (now s)) (patient_log s);
  ti_occ_time : Forall (fun tc => 0 <= fst tc <= now s) (occupancy_log s);
  ti_occ_sorted : nondecreasing (map fst (occupancy_log s));
  ti_occ_len : Z.of_nat (List.length (occupancy_log s)) =
    (2 * Z.of_nat (count_discharged (patient_log s)) + beds_in_use s)%Z;
  ti_ids : NoDup (map PatientID (patient_log s));
  ti_logged : forall e, In e (patient_log s) ->
    lookup_in (procs s) (PatientID e) = Some PBalked \/
    lookup_in (procs s) (PatientID e) = Some PDischarged;
  ti_cap : capacity (staff s) = num_staff prm;
  ti_users : (Z.of_nat (List.length (users (staff s))) <= num_staff prm)%Z;
  ti_ia : 0 <= interarrival_time_mins s }.

Lemma tinv_schedule (s : state) (prio : nat) (d : Q) (a : action) :
  tinv s -> 0 <= d ->
  (forall x, a = EvPatient x -> forall e, In e (queue s) -> ev_act e <> EvPatient x) ->
  (a = EvStop -> now s + d == horizon prm) ->
  (forall x a' w t, a = EvPatient x -> lookup_in (procs s) x = Some (PTreat a' w t) ->
     now s + d == a' + w + t) ->
  tinv (schedule s prio d a).
Proof.
  intros [H1 H2 H3 H4 H5 H6 H7 H8 H9 H10 H11 H12 H13 H14 H15 H16 H17] Hd Hnone Hstop Htreat.
  unfold schedule, set_queue; constructor; cbn; try assumption.
  - intros e He. apply in_app_or in He as [He|[<-|[]]]; [exact (H2 e He)|]. cbn. lra.
  - rewrite map_app. apply NoDup_app; [exact H3|constructor; [intros []|constructor]|].
    intros x Hx [Hx'|[]]. cbn in Hx'. subst x.
    apply in_map_iff in Hx as (e & He & Hin). specialize (H4 e Hin). lia.
  - intros e He. apply in_app_or in He as [He|[<-|[]]]; [specialize (H4 e He); lia|cbn; lia].
  - intros x e1 e2 E1 E2 A1 A2.
    apply in_app_or in E1 as [E1|[<-|[]]]; apply in_app_or in E2 as [E2|[<-|[]]].
    + exact (H5 x e1 e2 E1 E2 A1 A2).
    + exfalso. exact (Hnone x A2 e1 E1 A1).
    + exfalso. exact (Hnone x A1 e2 E2 A2).
    + reflexivity.
  - intros e He Ha. apply in_app_or in He as [He|[<-|[]]]; [exact (H6 e He Ha)|exact (Hstop Ha)].
  - intros x a' w t Hx. destruct (H8 x a' w t Hx) as (Ha & Hw & Ht & Hev).
    repeat split; try assumption.
    intros e He Hact. apply in_app_or in He as [He|[<-|[]]]; [exact (Hev e He Hact)|].
    exact (Htreat x a' w t Hact Hx).
Qed.

(** Popping the least event keeps the invariant; no other event of the
    same patient is left behind. *)
Lemma tinv_pop (s : state) (m : event) (q : list event) :
  tinv s -> heappop (queue s) = Some (m, q) ->
  tinv (set_clock s (ev_time m) q) /\
  (forall x, ev_act m = EvPatient x -> forall e, In e q -> ev_act e <> EvPatient x).
Proof.
  intros Hti Hpop. destruct (heappop_shape _ _ _ Hpop) as (Hm & -> & Hmin).
  assert (Hq : forall e, In e (filter (fun e' => negb (Nat.eqb (ev_eid e') (ev_eid m))) (queue s)) ->
                 In e (queue s) /\ ev_eid e <> ev_eid m).
  { intros e He. apply filter_In in He as [He Hne]. apply negb_true_iff, Nat.eqb_neq in Hne.
    split; assumption. }
  destruct Hti as [H1 H2 H3 H4 H5 H6 H7 H8 H9 H10 H11 H12 H13 H14 H15 H16 H17].
  assert (Hnow : now s <= ev_time m) by exact (H2 m Hm).
  split.
  - unfold set_clock; constructor; cbn; try assumption.
    + exact (Qle_trans _ _ _ H1 Hnow).
    + intros e He. exact (Hmin e (proj1 (Hq e He))).
    + apply NoDup_map_filter. exact H3.
    + intros e He. exact (H4 e (proj1 (Hq e He))).
    + intros x e1 e2 E1 E2. exact (H5 x e1 e2 (proj1 (Hq e1 E1)) (proj1 (Hq e2 E2))).
    + intros e He. exact (H6 e (proj1 (Hq e He))).
    + intros x a Hx. destruct (H7 x a Hx) as [Ha Ha']. split; [exact Ha|exact (Qle_trans _ _ _ Ha' Hnow)].
    + intros x a w t Hx. destruct (H8 x a w t Hx) as (Ha & Hw & Ht & Hev).
      repeat split; try assumption. intros e He. exact (Hev e (proj1 (Hq e He))).
    + revert H9. apply Forall_impl. intros e. apply entry_timing_mono. exact Hnow.
    + revert H10. apply Forall_impl. intros tc [Ht0 Ht1]. split; [exact Ht0|exact (Qle_trans _ _ _ Ht1 Hnow)].
  - intros x Hx e He Hact. destruct (Hq e He) as [He' Hne]. apply Hne.
    exact (H5 x e m He' Hm Hact Hx).
Qed.


Lemma tinv_set_np (s : state) (g : rng) : tinv s -> tinv (set_np s g).
Proof. intros []. constructor; assumption. Qed.

(** The state [staff.request()] starts from, and the state right after
    an admission, are well formed. *)
Lemma wf_enqueue (s : state) (p : nat) :
  wf prm s -> ~ In p (users (staff s) ++ put_queue (staff s)) ->
  (exists ph, lookup_in (procs s) p = Some ph /\ admitted ph = true) ->
  wf prm (set_staff s (mkResource (capacity (staff s)) (users (staff s)) (put_queue (staff s) ++ [p]))).
Proof.
  intros Hwf Hnot Hp.
  destruct Hwf as [Hb Hr Hc Hl Hnd Hreq Htr Hgr Hst Hev Hpid].
  unfold set_staff; constructor; cbn; try assumption.
  - rewrite app_assoc. apply NoDup_app; [exact Hnd | constructor; [intros []|constructor] |].
    intros x Hx [<-|[]]. exact (Hnot Hx).
  - intros x Hx. rewrite app_assoc in Hx. apply in_app_or in Hx as [Hx|[<-|[]]]; eauto.
Qed.

Lemma wf_admit (s : state) (i : nat) :
  wf prm s -> lookup_in (procs s) (S i) = Some PStart ->
  (forall e, In e (queue s) -> ev_act e <> EvPatient (S i)) ->
  (beds_in_use s < num_beds prm)%Z ->
  wf prm (set_procs (set_beds s (beds_in_use s + 1) (occupancy_log s ++ [(now s, (beds_in_use s + 1)%Z)]))
            (set_nth i (PWaitStaff (now s)) (procs s))).
Proof.
  intros Hwf Hp Hnoev Hfull.
  assert (Hnotreq : ~ In (S i) (users (staff s) ++ put_queue (staff s))).
  { intro Hin. destruct (wf_requests _ _ Hwf _ Hin) as (ph & Hph & Ha).
    rewrite Hp in Hph. injection Hph as <-. discriminate. }
  assert (Hcnt := count_admitted_set (procs s) i PStart (PWaitStaff (now s)) Hp). cbn in Hcnt.
  destruct Hwf as [Hb Hr Hc Hl Hnd Hreq Htr Hgr Hst Hev Hpid].
  unfold set_beds, set_procs; constructor; cbn; try assumption.
  - rewrite Hb. lia.
  - apply Forall_app. split; [exact Hr|]. constructor; [|constructor]. cbn. rewrite Hb. lia.
  - rewrite map_app. apply pm1_chain_snoc; [exact Hc|]. right. left. cbn. rewrite Hl. reflexivity.
  - rewrite map_app. apply last_snoc.
  - intros x Hx. destruct (Hreq x Hx) as (ph & Hph & Ha). exists ph. split; [|exact Ha].
    rewrite lookup_set_other; [exact Hph|]. intros ->. exact (Hnotreq Hx).
  - intros x a w t Hx. apply lookup_set_cases in Hx as [[_ Hx]|[_ Hx]]; [discriminate|eauto].
  - intros x a e Hx He Hact. apply lookup_set_cases in Hx as [[-> _]|[_ Hx]]; [|eauto].
    exfalso. exact (Hnoev e He Hact).
  - intros x e1 e2 Hx. apply lookup_set_cases in Hx as [[_ Hx]|[_ Hx]]; [discriminate|eauto].
  - intros x e He Hact. destruct (Hev x e He Hact) as (ph & Hph).
    destruct (Nat.eq_dec x (S i)) as [->|Hne].
    + exists (PWaitStaff (now s)). exact (lookup_set_same _ _ _ _ Hph).
    + exists ph. rewrite lookup_set_other by exact Hne. exact Hph.
  - rewrite length_set_nth. exact Hpid.
Qed.

Lemma tinv_trigger_put (s : state) : wf prm s -> tinv s -> tinv (trigger_put s).
Proof.
  intros Hwf Hti. unfold trigger_put.
  destruct (put_queue (staff s)) as [|h rest] eqn:Hq; [exact Hti|].
  destruct (Z.ltb _ _) eqn:Hlt; [|exact Hti].
  assert (Hhu : ~ In h (users (staff s))).
  { pose proof (wf_nodup _ _ Hwf) as Hnd. rewrite Hq in Hnd. intro Hin.
    apply (NoDup_remove_2 _ _ _ Hnd). apply in_or_app. left. exact Hin. }
  assert (Hph : exists ph, lookup_in (procs s) h = Some ph /\ admitted ph = true).
  { apply (wf_requests _ _ Hwf). rewrite Hq. apply in_or_app. right. left. reflexivity. }
  apply tinv_schedule.
  - destruct Hti as [H1 H2 H3 H4 H5 H6 H7 H8 H9 H10 H11 H12 H13 H14 H15 H16 H17].
    unfold set_staff; constructor; cbn; try assumption.
    rewrite length_app. cbn. apply Z.ltb_lt in Hlt. rewrite H15 in Hlt. lia.
  - apply Qle_refl.
  - intros x Hx e He Hact. injection Hx as <-. destruct Hph as (ph & Hlk & Ha).
    destruct ph as [|a|a w t| |]; try discriminate.
    + apply Hhu. exact (wf_granted _ _ Hwf h a e Hlk He Hact).
    + apply Hhu. exact (wf_treating _ _ Hwf h a w t Hlk).
  - intros; discriminate.
  - intros x a' w t Hx Hlk. injection Hx as <-. exfalso. apply Hhu.
    exact (wf_treating _ _ Hwf h a' w t Hlk).
Qed.

Lemma tinv_request (s : state) (p : nat) :
  wf prm s -> tinv s -> ~ In p (users (staff s) ++ put_queue (staff s)) ->
  (exists ph, lookup_in (procs s) p = Some ph /\ admitted ph = true) ->
  tinv (request s p).
Proof.
  intros Hwf Hti Hnot Hp. unfold request. apply tinv_trigger_put.
  - exact (wf_enqueue s p Hwf Hnot Hp).
  - destruct Hti; unfold set_staff; constructor; cbn; assumption.
Qed.

Lemma tinv_source_init (s s' : state) : tinv s -> source_init prm s = inr s' -> tinv s'.
Proof.
  intro Hti. unfold source_init. destruct (py_div _ _) as [e|ia]; cbn; [discriminate|].
  destruct (exponential ia (np_state s)) as [e|[d g]] eqn:He; cbn; [discriminate|].
  apply exponential_ok in He as [Hia _].
  intro H. apply timeout_inv in H as [-> Hd].
  apply tinv_schedule; [| exact Hd | intros; discriminate | intros; discriminate | intros; discriminate].
  destruct Hti; unfold set_np, set_source; constructor; cbn; assumption.
Qed.

Lemma tinv_source_tick (s s' : state) : wf prm s -> tinv s -> source_tick s = inr s' -> tinv s'.
Proof.
  intros Hwf Hti. unfold source_tick.
  destruct (exponential _ _) as [e|[d g]]; cbn; [discriminate|].
  intro H. apply timeout_inv in H as [-> Hd].
  apply tinv_schedule; [|exact Hd|intros; discriminate|intros; discriminate|intros; discriminate].
  apply tinv_set_np.
  assert (Hfresh : lookup_in (procs s) (S (patient_id s)) = None).
  { rewrite (wf_pid _ _ Hwf). apply lookup_none_length. }
  apply tinv_schedule; [| apply Qle_refl | | intros; discriminate | ].
  - destruct Hti as [H1 H2 H3 H4 H5 H6 H7 H8 H9 H10 H11 H12 H13 H14 H15 H16 H17].
    unfold set_procs, set_source; constructor; cbn; try assumption.
    + intros x a Hx. apply lookup_snoc_cases in Hx as [Hx|[_ Hx]]; [exact (H7 x a Hx)|discriminate].
    + intros x a w t Hx. apply lookup_snoc_cases in Hx as [Hx|[_ Hx]]; [exact (H8 x a w t Hx)|discriminate].
    + intros e He. destruct (H14 e He) as [Hx|Hx]; [left|right]; exact (lookup_snoc_old _ _ _ _ Hx).
  - intros x Hx e He Hact. injection Hx as <-.
    destruct (wf_events _ _ Hwf _ e He Hact) as (ph & Hph). rewrite Hfresh in Hph. discriminate.
  - intros x a w t Hx Hlk. injection Hx as <-. cbn [set_procs set_source procs] in Hlk.
    apply lookup_snoc_cases in Hlk as [Hlk|[_ Hlk]]; [rewrite Hfresh in Hlk|]; discriminate.
Qed.

Lemma occ_times_le (s : state) :
  tinv s -> Forall (fun y => y <= now s) (map fst (occupancy_log s)).
Proof.
  intro Hti. apply Forall_map. eapply Forall_impl; [|exact (ti_occ_time _ Hti)].
  intros tc [_ H]. exact H.
Qed.

Lemma tinv_not_logged (s : state) (p : nat) (ph : phase) :
  tinv s -> lookup_in (procs s) p = Some ph -> ph <> PBalked -> ph <> PDischarged ->
  forall e, In e (patient_log s) -> PatientID e <> p.
Proof.
  intros Hti Hp H1 H2 e He Heq. subst p.
  destruct (ti_logged _ Hti e He) as [H|H]; rewrite Hp in H; injection H as ->; auto.
Qed.

Lemma tinv_patient_start (s : state) (p : nat) :
  wf prm s -> tinv s -> lookup_in (procs s) p = Some PStart ->
  (forall e, In e (queue s) -> ev_act e <> EvPatient p) ->
  tinv (patient_start prm s p).
Proof.
  intros Hwf Hti Hp Hnoev. destruct p as [|i]; [discriminate|].
  pose proof (tinv_not_logged s _ _ Hti Hp ltac:(discriminate) ltac:(discriminate)) as Hnotlog.
  pose proof (occ_times_le s Hti) as Hocc.
  unfold patient_start. destruct (Z.leb (num_beds prm) (beds_in_use s)) eqn:Hfull.
  - cbn [set_phase].
    destruct Hti as [H1 H2 H3 H4 H5 H6 H7 H8 H9 H10 H11 H12 H13 H14 H15 H16 H17].
    unfold set_log, set_procs; constructor; cbn; try assumption.
    + intros x a Hx. apply lookup_set_cases in Hx as [[_ Hx]|[_ Hx]]; [discriminate|exact (H7 x a Hx)].
    + intros x a w t Hx. apply lookup_set_cases in Hx as [[_ Hx]|[_ Hx]]; [discriminate|exact (H8 x a w t Hx)].
    + apply Forall_app. split; [exact H9|]. constructor; [|constructor].
      split; [split; [exact H1|apply Qle_refl]|]. cbn. unfold BALKED, DISCHARGED.
      split; [discriminate|reflexivity].
    + unfold count_discharged in *. rewrite filter_app, length_app. cbn.
      replace (String.eqb BALKED DISCHARGED) with false by reflexivity. cbn.
      rewrite Nat.add_0_r. exact H12.
    + rewrite map_app. apply NoDup_app; [exact H13|constructor; [intros []|constructor]|].
      intros x Hx [Hx'|[]]. cbn in Hx'. subst x. apply in_map_iff in Hx as (e & He & Hin).
      exact (Hnotlog e Hin He).
    + intros e He. apply in_app_or in He as [He|[<-|[]]].
      * rewrite lookup_set_other by exact (Hnotlog e He). exact (H14 e He).
      * left. exact (lookup_set_same _ _ _ _ Hp).
  - cbn [set_phase]. apply Z.leb_gt in Hfull.
    assert (Hnotreq : ~ In (S i) (users (staff s) ++ put_queue (staff s))).
    { intro Hin. destruct (wf_requests _ _ Hwf _ Hin) as (ph & Hph & Ha).
      rewrite Hp in Hph. injection Hph as <-. discriminate. }
    assert (Hlen : Z.of_nat (List.length (occupancy_log s ++ [(now s, (beds_in_use s + 1)%Z)])) =
      (2 * Z.of_nat (count_discharged (patient_log s)) + (beds_in_use s + 1))%Z).
    { rewrite length_app. pose proof (ti_occ_len _ Hti). cbn [List.length]. lia. }
    apply tinv_request.
    + exact (wf_admit s i Hwf Hp Hnoev Hfull).
    + destruct Hti as [H1 H2 H3 H4 H5 H6 H7 H8 H9 H10 H11 H12 H13 H14 H15 H16 H17].
      unfold set_beds, set_procs; constructor; cbn; try assumption.
      * intros x a Hx. apply lookup_set_cases in Hx as [[_ Hx]|[_ Hx]]; [|exact (H7 x a Hx)].
        injection Hx as Hx. subst a. split; [exact H1|apply Qle_refl].
      * intros x a w t Hx. apply lookup_set_cases in Hx as [[_ Hx]|[_ Hx]]; [discriminate|exact (H8 x a w t Hx)].
      * apply Forall_app. split; [exact H10|]. constructor; [|constructor].
        split; [exact H1|apply Qle_refl].
      * rewrite map_app. apply nondecreasing_snoc; assumption.
      * intros e He. rewrite lookup_set_other by exact (Hnotlog e He). exact (H14 e He).
    + exact Hnotreq.
    + exists (PWaitStaff (now s)). split; [exact (lookup_set_same _ _ _ _ Hp)|reflexivity].
Qed.

Lemma tinv_patient_granted (s s' : state) (p : nat) (a : Q) :
  tinv s -> lookup_in (procs s) p = Some (PWaitStaff a) ->
  (forall e, In e (queue s) -> ev_act e <> EvPatient p) ->
  patient_granted prm s p a = inr s' -> tinv s'.
Proof.
  intros Hti Hp Hnoev. destruct p as [|i]; [discriminate|].
  pose proof (tinv_not_logged s _ _ Hti Hp ltac:(discriminate) ltac:(discriminate)) as Hnotlog.
  destruct (ti_wait _ Hti _ _ Hp) as [Ha0 Ha1].
  unfold patient_granted. destruct (get_treatment_time prm s) as [e|[tt g]]; cbn; [discriminate|].
  intro H. apply timeout_inv in H as [-> Htt].
  apply tinv_schedule; [| exact Htt | | intros; discriminate | ].
  - cbn [set_phase].
    destruct Hti as [H1 H2 H3 H4 H5 H6 H7 H8 H9 H10 H11 H12 H13 H14 H15 H16 H17].
    unfold set_np, set_procs; constructor; cbn; try assumption.
    + intros x a' Hx. apply lookup_set_cases in Hx as [[_ Hx]|[_ Hx]]; [discriminate|exact (H7 x a' Hx)].
    + intros x a' w t Hx. apply lookup_set_cases in Hx as [[-> Hx]|[_ Hx]]; [|exact (H8 x a' w t Hx)].
      injection Hx as E1 E2 E3. subst. split; [exact Ha0|]. split; [lra|]. split; [exact Htt|].
      intros e He Hact. exfalso. exact (Hnoev e He Hact).
    + intros e He. rewrite lookup_set_other by exact (Hnotlog e He). exact (H14 e He).
  - intros x Hx e He Hact. injection Hx as <-. exact (Hnoev e He Hact).
  - intros x a' w t Hx Hlk. injection Hx as <-.
    cbn [set_phase set_np set_procs procs] in Hlk.
    rewrite (lookup_set_same _ _ _ _ Hp) in Hlk. injection Hlk as E1 E2 E3. subst. cbn. lra.
Qed.

Lemma tinv_patient_discharge (s : state) (p : nat) (a w t : Q) :
  tinv s -> lookup_in (procs s) p = Some (PTreat a w t) -> now s == a + w + t ->
  tinv (patient_discharge s p a w t).
Proof.
  intros Hti Hp Hnow. destruct p as [|i]; [discriminate|].
  pose proof (tinv_not_logged s _ _ Hti Hp ltac:(discriminate) ltac:(discriminate)) as Hnotlog.
  pose proof (occ_times_le s Hti) as Hocc.
  destruct (ti_treat _ Hti _ _ _ _ Hp) as (Ha & Hw & Ht & _).
  assert (Hlen : Z.of_nat (List.length (occupancy_log s ++ [(now s, (beds_in_use s - 1)%Z)])) =
    (2 * Z.of_nat (count_discharged (patient_log s ++
       [mkEntry (S i) a (Some w) (Some t) (Some (now s - a)%Q) DISCHARGED "Staff"]))
     + (beds_in_use s - 1))%Z).
  { pose proof (ti_occ_len _ Hti) as H. unfold count_discharged in *.
    rewrite filter_app, !length_app. cbn [filter Status]. rewrite String.eqb_refl.
    cbn [List.length]. lia. }
  unfold patient_discharge, release. cbn [set_phase].
  apply tinv_schedule; [| apply Qle_refl | intros; discriminate | intros; discriminate | intros; discriminate ].
  destruct Hti as [H1 H2 H3 H4 H5 H6 H7 H8 H9 H10 H11 H12 H13 H14 H15 H16 H17].
  unfold set_staff, set_procs, set_log, set_beds; constructor; cbn; try assumption.
  - intros x a' Hx. apply lookup_set_cases in Hx as [[_ Hx]|[_ Hx]]; [discriminate|exact (H7 x a' Hx)].
  - intros x a' w' t' Hx. apply lookup_set_cases in Hx as [[_ Hx]|[_ Hx]]; [discriminate|exact (H8 x a' w' t' Hx)].
  - apply Forall_app. split; [exact H9|]. constructor; [|constructor].
    split; [cbn; split; lra|]. split; [|intro Hd; contradiction Hd; reflexivity].
    intros _. cbn. exists w, t, (now s - a). repeat split; lra.
  - apply Forall_app. split; [exact H10|]. constructor; [|constructor].
    split; [exact H1|apply Qle_refl].
  - rewrite map_app. apply nondecreasing_snoc; assumption.
  - rewrite map_app. apply NoDup_app; [exact H13|constructor; [intros []|constructor]|].
    intros x Hx [Hx'|[]]. cbn in Hx'. subst x. apply in_map_iff in Hx as (e & He & Hin).
    exact (Hnotlog e Hin He).
  - intros e He. apply in_app_or in He as [He|[<-|[]]].
    + rewrite lookup_set_other by exact (Hnotlog e He). exact (H14 e He).
    + right. exact (lookup_set_same _ _ _ _ Hp).
  - pose proof (length_remove_first (S i) (users (staff s))). lia.
Qed.

Lemma tinv_setup (g : rng) (s : state) : setup prm g = inr s -> tinv s.
Proof.
  unfold setup. destruct (Z.leb_spec (num_staff prm) 0) as [|Hns]; [discriminate|].
  destruct (Qle_bool _ _) eqn:Hle; [discriminate|]. intro H. injection H as <-.
  cbn in Hle. assert (Hpos : 0 < simulation_duration prm * MINS_IN_DAY).
  { apply Qnot_le_lt. intro Hc. apply Qle_bool_iff in Hc. rewrite Hc in Hle. discriminate. }
  apply tinv_schedule; [apply tinv_schedule | | intros; discriminate | | intros; discriminate].
  - constructor; try (intros x a Hx; destruct x as [|[|x]]; discriminate Hx);
      try (intros x a w t Hx; destruct x as [|[|x]]; discriminate Hx); cbn;
      try (intros; contradiction); try (apply Qle_refl); try constructor; try lia.
  - apply Qle_refl.
  - intros; discriminate.
  - intros; discriminate.
  - intros; discriminate.
  - cbn. lra.
  - intros _. unfold horizon. cbn. ring.
Qed.

Lemma tinv_step (s : state) (r : step_result) :
  wf prm s -> tinv s -> step prm s = inr r -> tinv (step_state r).
Proof.
  intros Hwf Hti Hstep. apply step_cases in Hstep as [[_ ->]|(e & q & Hpop & H)]; [exact Hti|].
  destruct (tinv_pop s e q Hti Hpop) as [Ht0 Hgone].
  destruct (heappop_spec _ _ _ Hpop) as [He Hq].
  assert (Hw0 : wf prm (set_clock s (ev_time e) q)).
  { apply wf_pop; [exact Hwf|]. intros x Hx. exact (proj1 (Hq x Hx)). }
  cbv zeta in H. destruct (ev_act e) as [| | |p|] eqn:Ha.
  - rewrite H. exact Ht0.
  - exact (tinv_source_init _ _ Ht0 H).
  - exact (tinv_source_tick _ _ Hw0 Ht0 H).
  - unfold resume_patient in H.
    change (lookup_phase (set_clock s (ev_time e) q) p) with (lookup_in (procs s) p) in H.
    destruct (lookup_in (procs s) p) as [[|a|a w t| |]|] eqn:Hlk; cbn in H;
      try (injection H as <-; exact Ht0).
    + injection H as <-. apply tinv_patient_start; [exact Hw0|exact Ht0|exact Hlk|].
      exact (Hgone p eq_refl).
    + exact (tinv_patient_granted _ _ p a Ht0 Hlk (Hgone p eq_refl) H).
    + injection H as <-. apply tinv_patient_discharge; [exact Ht0|exact Hlk|].
      cbn. destruct (ti_treat _ Hti _ _ _ _ Hlk) as (_ & _ & _ & Hev). exact (Hev e He Ha).
  - rewrite H. apply tinv_trigger_put; [exact Hw0|exact Ht0].
Qed.

Lemma tinv_reachable (s : state) : reachable prm s -> tinv s.
Proof.
  induction 1 as [g s Hs|s r Hr IH Hstep].
  - exact (tinv_setup g s Hs).
  - exact (tinv_step s r (wf_reachable prm s Hr) IH Hstep).
Qed.

End Timing.
(** *** The run ends at the [until] event *)
Section RunEnd.
Context {R : NumpyRandom}.
Variable prm : params.

Definition grows (s s' : state) : Prop := forall x, In x (queue s) -> In x (queue s').

Lemma grows_schedule (s : state) (prio : nat) (d : Q) (a : action) : grows s (schedule s prio d a).
Proof. intros x Hx. cbn. apply in_or_app. left. exact Hx. Qed.

Lemma grows_timeout (s s' : state) (d : Q) (a : action) : timeout s d a = inr s' -> grows s s'.
Proof. intro H. apply timeout_inv in H as [-> _]. apply grows_schedule. Qed.

Lemma grows_trigger_put (s : state) : grows s (trigger_put s).
Proof.
  unfold trigger_put. destruct (put_queue (staff s)); [intros x Hx; exact Hx|].
  destruct (Z.ltb _ _); intros x Hx; [cbn; apply in_or_app; left|]; exact Hx.
Qed.

Lemma grows_source_init (s s' : state) : source_init prm s = inr s' -> grows s s'.
Proof.
  unfold source_init. destruct (py_div _ _); cbn; [discriminate|].
  destruct (exponential _ _) as [|[d g]]; cbn; [discriminate|].
  intros H x Hx. exact (grows_timeout _ _ _ _ H x Hx).
Qed.

Lemma grows_source_tick (s s' : state) : source_tick s = inr s' -> grows s s'.
Proof.
  unfold source_tick. destruct (exponential _ _) as [|[d g]]; cbn; [discriminate|].
  intros H x Hx. apply (grows_timeout _ _ _ _ H). cbn. apply in_or_app. left. exact Hx.
Qed.

Lemma grows_resume (s s' : state) (p : nat) : resume_patient prm s p = inr s' -> grows s s'.
Proof.
  unfold resume_patient. destruct (lookup_phase s p) as [[|a|a w t| |]|]; cbn;
    try (intro H; injection H as <-; intros x Hx; exact Hx).
  - intro H. injection H as <-. unfold patient_start.
    destruct (Z.leb _ _); destruct p; intros x Hx; try exact Hx;
      apply grows_trigger_put; exact Hx.
  - unfold patient_granted. destruct (get_treatment_time prm s) as [|[tt g]]; cbn; [discriminate|].
    intros H x Hx. apply (grows_timeout _ _ _ _ H). destruct p; exact Hx.
  - intro H. injection H as <-. unfold patient_discharge, release.
    intros x Hx. apply grows_schedule. destruct p; exact Hx.
Qed.

(** The [until] event is still pending. *)
Definition live (s : state) : Prop := exists e, In e (queue s) /\ ev_act e = EvStop.

Lemma live_setup (g : rng) (s : state) : setup prm g = inr s -> live s.
Proof.
  unfold setup. destruct (Z.leb _ 0); [discriminate|].
  destruct (Qle_bool _ _); [discriminate|]. intro H. injection H as <-.
  eexists. split; [cbn; right; left; reflexivity|reflexivity].
Qed.

Lemma live_step (s : state) (r : step_result) :
  tinv prm s -> live s -> step prm s = inr r ->
  match r with
  | Continue s' => live s'
  | Halt s' => now s' == horizon prm
  end.
Proof.
  intros Hti [st [Hst Hact]] Hstep.
  assert (Hne : queue s <> []) by (intro Hq; rewrite Hq in Hst; exact Hst).
  unfold step in Hstep. destruct (heappop (queue s)) as [[e q]|] eqn:Hpop;
    [|destruct (queue s); [contradiction|discriminate]].
  destruct (heappop_shape _ _ _ Hpop) as (He & Hq & _).
  assert (Hkeep : ev_act e <> EvStop -> In st q).
  { intro Hne'. rewrite Hq. apply filter_In. split; [exact Hst|].
    apply negb_true_iff, Nat.eqb_neq. intro Heid.
    apply Hne'. rewrite <- (NoDup_map_inj _ _ _ _ (ti_eids _ _ Hti) Hst He Heid). exact Hact. }
  cbv zeta in Hstep. destruct (ev_act e) eqn:Ha.
  - injection Hstep as <-. exact (ti_stop _ _ Hti e He Ha).
  - destruct (source_init prm _) as [|s1] eqn:H1; cbn in Hstep; [discriminate|].
    injection Hstep as <-. exists st. split; [|exact Hact].
    apply (grows_source_init _ _ H1). apply Hkeep. discriminate.
  - destruct (source_tick _) as [|s1] eqn:H1; cbn in Hstep; [discriminate|].
    injection Hstep as <-. exists st. split; [|exact Hact].
    apply (grows_source_tick _ _ H1). apply Hkeep. discriminate.
  - destruct (resume_patient prm _ _) as [|s1] eqn:H1; cbn in Hstep; [discriminate|].
    injection Hstep as <-. exists st. split; [|exact Hact].
    apply (grows_resume _ _ _ H1). apply Hkeep. discriminate.
  - injection Hstep as <-. exists st. split; [|exact Hact].
    apply grows_trigger_put. apply Hkeep. discriminate.
Qed.

Lemma run_loop_final (fuel : nat) :
  forall s s', reachable prm s -> live s -> run_loop prm fuel s = inr (Some s') ->
  reachable prm s' /\ now s' == horizon prm.
Proof.
  induction fuel as [|fuel IH]; intros s s' Hs Hl Hrun; cbn in Hrun; [discriminate|].
  destruct (step prm s) as [e|r] eqn:Hstep; cbn in Hrun; [discriminate|].
  pose proof (live_step s r (tinv_reachable prm s Hs) Hl Hstep) as Hr.
  pose proof (reach_step prm s r Hs Hstep) as Hs'.
  destruct r as [s1|s1]; cbn in Hs'.
  - exact (IH s1 s' Hs' Hr Hrun).
  - injection Hrun as <-. split; assumption.
Qed.

(** A finished run: the final state is reachable, its clock is at the
    horizon, and the outputs are built from it. *)
Lemma run_final (g : rng) (fuel : nat) (out : output) :
  run_hospital_simulation prm g fuel = inr (Some out) ->
  exists s, reachable prm s /\ now s == horizon prm /\
    patient_log_df out = to_days (DataFrame (patient_log s)) /\
    occupancy_df out = occupancy_log s /\
    compute_kpis prm (to_days (DataFrame (patient_log s))) (occupancy_log s) = inr (kpis_of out).
Proof.
  unfold run_hospital_simulation.
  destruct (setup prm g) as [e|s0] eqn:Hsetup; cbn; [discriminate|].
  destruct (run_loop prm fuel s0) as [e|[s|]] eqn:Hrun; cbn; try discriminate.
  destruct (compute_kpis prm _ _) as [e|k] eqn:Hk; cbn; [discriminate|].
  intro H. injection H as <-.
  destruct (run_loop_final fuel s0 s (reach_init prm g s0 Hsetup) (live_setup g s0 Hsetup) Hrun)
    as [Hs Hnow].
  exists s. repeat split; try assumption; reflexivity.
Qed.

End RunEnd.

(** *** With a positive arrival rate and non-negative service times the
    engine never raises *)
Section Total.
Context {R : NumpyRandom}.
Variable prm : params.

Lemma exponential_nonneg_ok (sc : Q) (g : rng) :
  0 <= sc -> exists d g', exponential sc g = inr (d, g') /\ 0 <= d.
Proof.
  intro H. unfold exponential, Qltb.
  replace (Qle_bool 0 sc) with true by (symmetry; apply Qle_bool_iff; exact H). cbn.
  pose proof (exponential_raw_nonneg sc g H) as Hd.
  destruct (exponential_raw sc g) as [d g']. exists d, g'. split; [reflexivity|exact Hd].
Qed.

Lemma timeout_ok (s : state) (d : Q) (a : action) :
  0 <= d -> timeout s d a = inr (schedule s NORMAL d a).
Proof.
  intro H. unfold timeout, Qltb.
  replace (Qle_bool 0 d) with true by (symmetry; apply Qle_bool_iff; exact H). reflexivity.
Qed.

Lemma workload_factor_ge1 (pps alpha : Q) : 1 <= workload_factor pps alpha.
Proof.
  unfold workload_factor, Qltb. destruct (Qle_bool pps alpha) eqn:E; cbn; [apply Qle_refl|].
  assert (~ pps <= alpha) by (intro H; apply Qle_bool_iff in H; congruence). lra.
Qed.

Lemma source_init_ok (s : state) : 0 < arrival_rate prm -> exists s', source_init prm s = inr s'.
Proof.
  intro Hrate. unfold source_init, py_div.
  destruct (Qeq_bool (arrival_rate prm) 0) eqn:E; [apply Qeq_bool_iff in E; lra|]. cbn.
  destruct (exponential_nonneg_ok (MINS_IN_DAY / arrival_rate prm) (np_state s)) as (d & g & E2 & Hd).
  { apply Qle_shift_div_l; [exact Hrate|]. unfold MINS_IN_DAY. lra. }
  rewrite E2. cbn. rewrite (timeout_ok _ _ _ Hd). eexists; reflexivity.
Qed.

Lemma source_tick_ok (s : state) : 0 <= interarrival_time_mins s -> exists s', source_tick s = inr s'.
Proof.
  intro Hia. unfold source_tick.
  destruct (exponential_nonneg_ok (interarrival_time_mins s) (np_state s)) as (d & g & E & Hd);
    [exact Hia|].
  cbn [schedule set_queue set_procs set_source interarrival_time_mins np_state].
  rewrite E. cbn. rewrite (timeout_ok _ _ _ Hd). eexists; reflexivity.
Qed.

Lemma get_treatment_time_ok (s : state) :
  0 <= senior_service_days prm -> 0 <= junior_service_days prm -> (0 < num_staff prm)%Z ->
  exists tt g, get_treatment_time prm s = inr (tt, g) /\ 0 <= tt.
Proof.
  intros Hsen Hjun Hns. unfold get_treatment_time.
  destruct (String.eqb (scenario prm) BASELINE).
  { apply exponential_nonneg_ok. unfold MINS_IN_DAY. lra. }
  destruct (String.eqb (scenario prm) HETEROGENEOUS).
  { destruct (rand_raw (np_state s)) as [u g1]. cbv zeta.
    destruct (Qltb u _); apply exponential_nonneg_ok; unfold MINS_IN_DAY; lra. }
  destruct (String.eqb (scenario prm) WORKLOAD).
  - unfold py_div. destruct (Qeq_bool (inject_Z (num_staff prm)) 0) eqn:E.
    + apply Qeq_bool_iff in E. unfold Qeq in E. simpl in E. lia.
    + cbn. apply exponential_nonneg_ok. apply Qmult_le_0_compat.
      * unfold MINS_IN_DAY. lra.
      * pose proof (workload_factor_ge1
          (inject_Z (Z.of_nat (List.length (users (staff s)))) / inject_Z (num_staff prm))
          (workload_factor_alpha prm)). lra.
  - exists 0, (np_state s). split; [reflexivity|apply Qle_refl].
Qed.

Lemma step_ok (s : state) :
  0 < arrival_rate prm -> 0 <= senior_service_days prm -> 0 <= junior_service_days prm ->
  reachable prm s -> exists r, step prm s = inr r.
Proof.
  intros Hrate Hsen Hjun Hs.
  pose proof (tinv_reachable prm s Hs) as Hti. pose proof (reachable_num_staff prm s Hs) as Hns.
  unfold step. destruct (heappop (queue s)) as [[e q]|]; [|eexists; reflexivity].
  cbv zeta. destruct (ev_act e) as [| | |p|].
  - eexists; reflexivity.
  - destruct (source_init_ok (set_clock s (ev_time e) q) Hrate) as (s' & E).
    rewrite E. eexists; reflexivity.
  - destruct (source_tick_ok (set_clock s (ev_time e) q)) as (s' & E).
    { exact (ti_ia _ _ Hti). }
    rewrite E. eexists; reflexivity.
  - unfold resume_patient.
    destruct (lookup_phase _ p) as [[|a|a w t| |]|]; try (eexists; reflexivity).
    unfold patient_granted.
    destruct (get_treatment_time_ok (set_clock s (ev_time e) q) Hsen Hjun Hns) as (tt & g & E & Ht).
    rewrite E. cbn. rewrite (timeout_ok _ _ _ Ht). eexists; reflexivity.
  - eexists; reflexivity.
Qed.

Lemma run_loop_ok (fuel : nat) :
  0 < arrival_rate prm -> 0 <= senior_service_days prm -> 0 <= junior_service_days prm ->
  forall s, reachable prm s -> exists r, run_loop prm fuel s = inr r.
Proof.
  intros Hrate Hsen Hjun. induction fuel as [|fuel IH]; intros s Hs; [eexists; reflexivity|].
  cbn. destruct (step_ok s Hrate Hsen Hjun Hs) as (r & E). rewrite E. cbn.
  destruct r as [s1|s1]; [|eexists; reflexivity].
  exact (IH s1 (reach_step prm s (Continue s1) Hs E)).
Qed.

Lemma compute_kpis_ok (l : list entry) occ :
  l <> [] -> exists k, compute_kpis prm (to_days (DataFrame l)) occ = inr k.
Proof.
  intro Hne. rewrite (DashboardKpi.compute_kpis_nonempty prm l occ Hne). cbv zeta.
  destruct (filter _ _); eexists; reflexivity.
Qed.

Lemma run_error_empty_log (g : rng) (fuel : nat) :
  0 < arrival_rate prm -> 0 <= senior_service_days prm -> 0 <= junior_service_days prm ->
  (0 < num_staff prm)%Z -> 0 < simulation_duration prm ->
  match run_hospital_simulation prm g fuel with
  | inl e => e = KeyError "WaitTime" /\
      exists s0 s, setup prm g = inr s0 /\ run_loop prm fuel s0 = inr (Some s) /\
        reachable prm s /\ now s == horizon prm /\ patient_log s = []
  | inr _ => True
  end.
Proof.
  intros Hrate Hsen Hjun Hns Hdur. unfold run_hospital_simulation.
  destruct (setup_ok prm g Hns Hdur) as (s0 & Hs0). rewrite Hs0. cbn [bind].
  destruct (run_loop_ok fuel Hrate Hsen Hjun s0 (reach_init prm g s0 Hs0)) as (r & Hr).
  rewrite Hr. cbn [bind]. destruct r as [s|]; [|exact I].
  destruct (patient_log s) as [|x l] eqn:Hl.
  - cbn. split; [reflexivity|]. exists s0, s. split; [first [exact Hs0 | reflexivity]|]. split; [first [exact Hr | reflexivity]|].
    destruct (run_loop_final prm fuel s0 s (reach_init prm g s0 Hs0) (live_setup prm g s0 Hs0) Hr)
      as [Hs Hnow].
    repeat split; assumption.
  - destruct (compute_kpis_ok (x :: l) (occupancy_log s)) as (k & Hk); [discriminate|].
    rewrite Hk. exact I.
Qed.

End Total.

(** *** Row and KPI facts *)

Lemma reachable_horizon_pos {R : NumpyRandom} (prm : params) (s : state) :
  reachable prm s -> 0 < horizon prm.
Proof.
  induction 1 as [g s Hs|]; [|assumption].
  unfold setup in Hs. destruct (Z.leb _ _); [discriminate|].
  destruct (Qle_bool _ _) eqn:E; [discriminate|]. cbn in E.
  unfold horizon. apply Qnot_le_lt. intro Hc. apply Qle_bool_iff in Hc. congruence.
Qed.

Lemma rows_to_days (l : list entry) :
  rows (to_days (DataFrame l)) = map DashboardKpi.entry_to_days l.
Proof.
  destruct l as [|e l]; [reflexivity|].
  rewrite DashboardKpi.to_days_nonempty by discriminate. reflexivity.
Qed.

Lemma count_discharged_to_days (l : list entry) :
  count_discharged (map DashboardKpi.entry_to_days l) = count_discharged l.
Proof.
  unfold count_discharged. induction l as [|e l IH]; [reflexivity|].
  cbn. destruct (String.eqb (Status e) DISCHARGED); cbn; [f_equal|]; exact IH.
Qed.

Lemma div_day (x : Q) : x / MINS_IN_DAY == x * (1 # 1440).
Proof. reflexivity. Qed.

Lemma balked_plus_discharged (l : list entry) :
  Forall (fun e => Status e = BALKED \/ Status e = DISCHARGED) l ->
  (List.length (filter (fun e => contains_balked (Status e)) l) +
   count_discharged l)%nat = List.length l.
Proof.
  unfold count_discharged. intro H. induction H as [|e l Hel _ IH]; [reflexivity|].
  assert (E1 : contains_balked BALKED = true) by reflexivity.
  assert (E2 : contains_balked DISCHARGED = false) by reflexivity.
  assert (E3 : String.eqb BALKED DISCHARGED = false) by reflexivity.
  destruct Hel as [He|He]; cbn [filter List.length]; rewrite He;
    [rewrite E1, E3|rewrite E2, String.eqb_refl]; cbn [List.length]; lia.
Qed.

Lemma fold_left_Qplus (xs : list Q) : forall a, fold_left Qplus xs a == a + fold_right Qplus 0 xs.
Proof.
  induction xs as [|x xs IH]; intro a; cbn; [ring|]. rewrite IH. ring.
Qed.

Lemma mean_le (xs ys : list Q) : Forall2 Qle xs ys -> mean xs <= mean ys.
Proof.
  intro H. unfold mean. rewrite (Forall2_length H), !fold_left_Qplus.
  apply Qmult_le_compat_r.
  - induction H as [|x y xs ys Hxy _ IH]; cbn; lra.
  - apply Qinv_le_0_compat. change 0 with (inject_Z 0). rewrite <- Zle_Qle. lia.
Qed.

Lemma mean_nonneg (xs : list Q) : Forall (Qle 0) xs -> 0 <= mean xs.
Proof.
  intro H. unfold mean. rewrite fold_left_Qplus. apply Qmult_le_0_compat.
  - induction H as [|x xs Hx _ IH]; cbn; lra.
  - apply Qinv_le_0_compat. change 0 with (inject_Z 0). rewrite <- Zle_Qle. lia.
Qed.

Definition some_values (xs : list (option Q)) : list Q :=
  flat_map (fun o => match o with Some v => [v] | None => [] end) xs.

Lemma served_columns (l : list entry) :
  Forall (fun e => exists w tot, WaitTime e = Some w /\ TotalTime e = Some tot /\ 0 <= w /\ w <= tot) l ->
  Forall2 Qle (some_values (map WaitTime l)) (some_values (map TotalTime l)) /\
  Forall (Qle 0) (some_values (map WaitTime l)).
Proof.
  induction 1 as [|e l (w & tot & E1 & E2 & H1 & H2) _ [IH1 IH2]]; [split; constructor|].
  cbn. rewrite E1, E2. cbn. split; constructor; assumption.
Qed.

Lemma occupancy_sum_bound (nb hz : Q) (occ : list (Q * Z)) : forall acc last,
  0 <= nb -> 0 <= acc -> acc <= nb * last -> last <= hz ->
  nondecreasing (last :: map fst occ) ->
  Forall (fun tc => 0 <= inject_Z (snd tc) <= nb /\ fst tc <= hz) occ ->
  0 <= occupancy_sum occ acc last <= nb * hz.
Proof.
  induction occ as [|[t c] occ IH]; intros acc last Hnb Hacc Hle Hlast Hsort Hall; cbn.
  - split; [exact Hacc|]. apply (Qle_trans _ _ _ Hle). rewrite (Qmult_comm nb last), (Qmult_comm nb hz). apply Qmult_le_compat_r; assumption.
  - inversion Hall as [|? ? [[Hc0 Hc1] Ht] Hrest]; subst. cbn in Hsort, Hc0, Hc1, Ht.
    destruct Hsort as [Hlt Hsort].
    assert (H1 : 0 <= inject_Z c * (t - last)) by (apply Qmult_le_0_compat; lra).
    assert (H2 : inject_Z c * (t - last) <= nb * (t - last)) by (apply Qmult_le_compat_r; lra).
    apply IH; try assumption; lra.
Qed.

Lemma compute_kpis_bed (prm : params) (df : frame) (occ : list (Q * Z)) (k : kpis) :
  compute_kpis prm df occ = inr k -> average_bed_occupancy k = bed_occupancy_kpi prm occ.
Proof.
  unfold compute_kpis. destruct (dropna_WaitTime df) as [e|df']; cbn; [discriminate|].
  destruct (rows df'); intro H; injection H as <-; reflexivity.
Qed.

Section Finished.
Context {R : NumpyRandom}.
Variable prm : params.

Lemma finished_timing (s : state) :
  reachable prm s -> now s == horizon prm -> Forall (entry_timing (horizon prm)) (patient_log s).
Proof.
  intros Hs Hnow. pose proof (ti_log _ _ (tinv_reachable prm s Hs)) as H.
  revert H. apply Forall_impl. intro e. apply entry_timing_mono. rewrite Hnow. apply Qle_refl.
Qed.

Lemma finished_log_nonempty (s : state) (k : kpis) :
  compute_kpis prm (to_days (DataFrame (patient_log s))) (occupancy_log s) = inr k ->
  patient_log s <> [].
Proof. intros Hk Hl. rewrite Hl in Hk. discriminate Hk. Qed.

End Finished.

End DashboardTiming.

(** ** The dashboard's control panel and sensitivity range ([src/dashboard.py]) *)
Module DashboardForm.
Import Dashboard.

(** The values the sidebar widgets return (lines 19-52); the model-specific
    widgets are read only when the scenario shows them. *)
Record widgets := mkWidgets {
  w_scenario : string;
  w_arrival_rate : Z;                (* st.slider(.., 1, 50, 10) *)
  w_num_beds : Z;                    (* st.slider(.., 1, 100, 20) *)
  w_num_staff : Z;                   (* st.slider(.., 1, 50, 10) *)
  w_simulation_duration : Z;         (* st.number_input(min 7, max 365) *)
  w_senior_staff_mix : Z;            (* st.slider(.., 0, 100, 50) *)
  w_senior_service_days : Q;         (* st.number_input(.., 0.1, 10.0, ..) *)
  w_junior_service_days : Q;         (* st.number_input(.., 0.1, 10.0, ..) *)
  w_workload_factor_alpha : Q }.     (* st.slider(.., 0.1, 5.0, ..) *)

(** The bounds the widgets enforce on the values they return. *)
Definition widget_ranges (w : widgets) : Prop :=
  (1 <= w_arrival_rate w <= 50)%Z /\ (1 <= w_num_beds w <= 100)%Z /\
  (1 <= w_num_staff w <= 50)%Z /\ (7 <= w_simulation_duration w <= 365)%Z /\
  (0 <= w_senior_staff_mix w <= 100)%Z /\
  (1 # 10) <= w_senior_service_days w <= 10 /\ (1 # 10) <= w_junior_service_days w <= 10 /\
  (1 # 10) <= w_workload_factor_alpha w <= 5.

(** [needle in hay] on strings. *)
Definition py_in (needle hay : string) : bool :=
  match String.index 0 needle hay with Some _ => true | None => false end.

(** Lines 36-52: senior_staff_mix, senior_service_days, junior_service_days
    and workload_factor_alpha, with the placeholders of the other scenarios. *)
Definition model_specific (w : widgets) : Z * Q * Q * Q :=
  let '(mix, sen, jun) :=
    if py_in "Experience-Based" (w_scenario w)
    then (w_senior_staff_mix w, w_senior_service_days w, w_junior_service_days w)
    else (100%Z, 3, 3) in
  let alpha := if py_in "Workload-Dependent" (w_scenario w) then w_workload_factor_alpha w else 3 # 2 in
  (mix, sen, jun, alpha).

(** The Python values of the dict. *)
Inductive pyval := PyStr (s : string) | PyInt (z : Z) | PyFloat (q : Q).

(** Lines 58-68: the [params] dict, in its insertion order. *)
Definition form_dict (w : widgets) : list (string * pyval) :=
  let '(mix, sen, jun, alpha) := model_specific w in
  [("scenario", PyStr (w_scenario w));
   ("arrival_rate", PyInt (w_arrival_rate w));
   ("num_beds", PyInt (w_num_beds w));
   ("num_staff", PyInt (w_num_staff w));
   ("simulation_duration", PyInt (w_simulation_duration w));
   ("senior_staff_mix", PyInt mix);
   ("senior_service_days", PyFloat sen);
   ("junior_service_days", PyFloat jun);
   ("workload_factor_alpha", PyFloat alpha)]%string.

(** The same dict as the record [run_hospital_simulation] reads (line 73). *)
Definition form_params (w : widgets) : params :=
  let '(mix, sen, jun, alpha) := model_specific w in
  mkParams (inject_Z (w_arrival_rate w)) (w_num_beds w) (w_num_staff w) sen jun
    (inject_Z mix) alpha (inject_Z (w_simulation_duration w)) (w_scenario w).

(** [d[k]] on a dict: the value of the first entry with key [k]. *)
Fixpoint py_lookup (d : list (string * pyval)) (k : string) : option pyval :=
  match d with
  | [] => None
  | (k', v) :: d' => if String.eqb k' k then Some v else py_lookup d' k
  end.

(** [isinstance(v, (int, float))], with the numeric value. *)
Definition py_num (v : pyval) : option Q :=
  match v with
  | PyInt z => Some (inject_Z z)
  | PyFloat q => Some q
  | PyStr _ => None
  end.

(** [np.linspace(start, stop, num)] (endpoint included): [start + i * step]
    for [i < num - 1], then [stop] itself; a zero step falls back to
    [i / div * delta]. *)
Definition linspace (start stop : Q) (num : nat) : list Q :=
  match num with
  | O => []
  | S O => [start]
  | _ =>
      let div := inject_Z (Z.of_nat (num - 1)) in
      let delta := stop - start in
      let step := delta / div in
      map (fun i => (if Qeq_bool step 0 then inject_Z (Z.of_nat i) / div * delta
                     else inject_Z (Z.of_nat i) * step) + start)
          (seq 0 (num - 1)) ++ [stop]
  end.

(** Errors of the sensitivity tab. *)
Inductive ui_error := NameError (name : string) | UiKeyError (key : string).

(** Lines 193-209 up to the first use of the results: the range of values
    tried for the parameter [k]; on a non-numeric parameter the [else]
    branch appends to [sensitivity_results], which no statement of that
    script run has assigned. *)
Definition sensitivity_range (d : list (string * pyval)) (k : string) : ui_error + list Q :=
  match py_lookup d k with
  | None => inl (UiKeyError k)
  | Some v =>
      match py_num v with
      | Some q => inr (linspace (q * (1 # 2)) (q * (3 # 2)) 10)
      | None => inl (NameError "sensitivity_results")
      end
  end.

End DashboardForm.

(** * Properties *)

Module DashboardFacts.
Import Dashboard DashboardKpi Scenarios.

(** C1 (code_bug).  On the occupancy series of a patient admitted at
    minute 10 and discharged at minute 25, the dashboard's 'Average Bed
    Occupancy (%)' weights the interval [10, 25) by the count 0 recorded
    at its end and the interval [0, 10) by the count 1 recorded at 10:
    it reports 25/36 %, whereas the step-function average is 25/24 %. *)
Theorem C1_occupancy_kpi_uses_later_sample :
  bed_occupancy_kpi one_bed_day [(10, 1%Z); (25, 0%Z)] == 25 # 36 /\
  SpecReading.spec_bed_utilization_pct one_bed_day [(10, 1%Z); (25, 0%Z)] == 25 # 24 /\
  ~ (bed_occupancy_kpi one_bed_day [(10, 1%Z); (25, 0%Z)] ==
     SpecReading.spec_bed_utilization_pct one_bed_day [(10, 1%Z); (25, 0%Z)]).
Proof.
  split; [|split]; vm_compute; [reflexivity | reflexivity | discriminate].
Qed.

Section WithGenerator.
Context {R : NumpyRandom}.

(** C6 (confirmed).  The run re-seeds numpy with [RANDOM_SEED] before
    anything is drawn, so whatever the global generator's state before
    the call, two runs with the same parameters give the same result:
    same KPIs, same patient log and same occupancy series, in the same
    order (or the same exception). *)
Theorem C6_runs_are_reproducible (prm : params) (g1 g2 : rng) (fuel : nat) :
  run_hospital_simulation prm g1 fuel = run_hospital_simulation prm g2 fuel.
Proof. unfold run_hospital_simulation, setup. reflexivity. Qed.

(** C8 (code_bug).  When the run ends with an empty patient log (no
    arrival before the horizon), [pd.DataFrame([])] has no columns and
    [dropna(subset=['WaitTime'])] raises [KeyError]: the KPI computation
    fails instead of reporting zeros. *)
Theorem C8_empty_log_raises_KeyError (prm : params) (g : rng) (fuel : nat) (s0 s : state) :
  setup prm g = inr s0 ->
  run_loop prm fuel s0 = inr (Some s) ->
  patient_log s = [] ->
  run_hospital_simulation prm g fuel = inl (KeyError "WaitTime").
Proof.
  intros Hsetup Hrun Hlog. unfold run_hospital_simulation.
  rewrite Hsetup. cbn [bind]. rewrite Hrun. cbn [bind]. rewrite Hlog.
  reflexivity.
Qed.

End WithGenerator.

(** C10 (confirmed).  An arriving patient who finds the beds full is
    appended to the log at once, with WaitTime, TreatmentTime and
    TotalTime NaN and TreatedBy 'N/A'.  Such a record leaves the mean
    wait, the mean length of stay and 'Total Patients Served' of a
    (non-empty) log unchanged, and counts as one more balked arrival in
    the blocking probability. *)
Theorem C10_balked_record_counted_only_in_blocking {R : NumpyRandom}
    (prm : params) (s : state) (p : nat) (l : list entry) (occ : list (Q * Z)) :
  (num_beds prm <= beds_in_use s)%Z ->
  l <> [] ->
  patient_log (patient_start prm s p) =
    patient_log s ++ [mkEntry p (now s) None None None BALKED "N/A"] /\
  exists k k',
    compute_kpis prm (to_days (DataFrame l)) occ = inr k /\
    compute_kpis prm (to_days (DataFrame (l ++ [balk_entry p (now s)]))) occ = inr k' /\
    average_wait_for_staff k' = average_wait_for_staff k /\
    average_length_of_stay k' = average_length_of_stay k /\
    total_patients_served k' = total_patients_served k /\
    blocking_probability k' =
      inject_Z (Z.of_nat (S (count_balked l))) / inject_Z (Z.of_nat (S (List.length l))) * 100.
Proof.
  intros Hfull Hne. split.
  - unfold patient_start. apply Z.leb_le in Hfull. rewrite Hfull. reflexivity.
  - rewrite (compute_kpis_nonempty prm l occ Hne).
    assert (Hne' : l ++ [balk_entry p (now s)] <> []).
    { destruct l; [contradiction | discriminate]. }
    rewrite (compute_kpis_nonempty prm _ occ Hne').
    cbv zeta. rewrite map_app, !filter_app.
    cbn [map filter entry_to_days balk_entry is_served WaitTime div_opt option_map].
    rewrite app_nil_r.
    destruct (match filter is_served (map entry_to_days l) with
              | [] => (0, 0, 0) | _ => _ end) as [[w los] n].
    eexists; eexists; split; [reflexivity|]; split; [reflexivity|].
    cbn [average_wait_for_staff average_length_of_stay total_patients_served
         blocking_probability].
    repeat split.
    rewrite length_app, count_balked_to_days, length_app, length_map.
    cbn. rewrite !Nat.add_1_r. reflexivity.
Qed.

End DashboardFacts.

Module Objective3Facts.
Import Objective3.

(** C2 (code_bug).  The first patient of the script, arriving at an empty
    ward, gets both staff requests granted at once, takes the senior one
    and is discharged; the junior request is neither withdrawn nor
    released (the comment on line 57 expects simpy to cancel it, which
    simpy does not do), so one junior staff unit stays in use with no
    patient in the ward. *)
Theorem C2_losing_staff_request_leaks {R : NumpyRandom} (g : rng) :
  exists w,
    lone_patient initial_ward 1 10 g = inr w /\
    users (beds w) = [] /\ users (staff_senior w) = [] /\
    users (staff_junior w) = [JuniorReq 1] /\
    map staff_type_of (patient_log w) = [Some "Senior"%string].
Proof.
  unfold lone_patient, draw_treatment, exponential.
  cbn -[exponential_raw mu_actual].
  destruct (exponential_raw _ g) as [d g'].
  eexists. repeat split; reflexivity.
Qed.

End Objective3Facts.

(** ** Claims on the dashboard engine that rest on its invariants *)
Module DashboardClaims.
Import Dashboard DashboardRun DashboardInvariant Scenarios Objective3Run.
#[local] Existing Instance Lcg.gen.

(** C4 (confirmed).  At arrival, a patient balks exactly when
    [beds_in_use >= bed_capacity]: the balk record is logged at once and
    nothing else changes (no bed taken, no request issued); otherwise the
    patient takes exactly one bed and issues its staff request.  With
    [num_beds = 0], every record of a finished run is a balk.  The same
    holds in the stand-alone script ([patient], lines 34-40): with
    [beds.count >= beds.capacity] the patient logs its 'Balked' record and
    leaves the ward otherwise unchanged; below capacity it issues exactly
    one bed request, granted at once when no request is queued. *)
Theorem C4_balk_iff_beds_full {R : NumpyRandom} (prm : params) (s : state) (p : nat) :
  ((num_beds prm <= beds_in_use s)%Z ->
     patient_log (patient_start prm s p) = patient_log s ++ [balk_entry p (now s)] /\
     beds_in_use (patient_start prm s p) = beds_in_use s /\
     staff (patient_start prm s p) = staff s /\
     occupancy_log (patient_start prm s p) = occupancy_log s) /\
  ((beds_in_use s < num_beds prm)%Z ->
     patient_log (patient_start prm s p) = patient_log s /\
     beds_in_use (patient_start prm s p) = (beds_in_use s + 1)%Z /\
     users (staff (patient_start prm s p)) ++ put_queue (staff (patient_start prm s p)) =
       users (staff s) ++ put_queue (staff s) ++ [p]) /\
  (num_beds prm = 0%Z -> forall (g : rng) (fuel : nat) (out : output),
     run_hospital_simulation prm g fuel = inr (Some out) ->
     Forall (fun e => Status e = BALKED) (rows (patient_log_df out))) /\
  (forall (w : Objective3.ward) (q : nat),
     (Objective3.capacity (Objective3.beds w) <= Objective3.count (Objective3.beds w))%Z ->
     Objective3.patient_arrive w q =
       (Objective3.mkWard (Objective3.now w) (Objective3.beds w) (Objective3.staff_senior w)
          (Objective3.staff_junior w)
          (Objective3.patient_log w ++
             [Objective3.mkEntry q (Objective3.now w) None None None None "Balked"]), false)) /\
  (forall (w : Objective3.ward) (q : nat),
     (Objective3.count (Objective3.beds w) < Objective3.capacity (Objective3.beds w))%Z ->
     let w' := fst (Objective3.patient_arrive w q) in
     snd (Objective3.patient_arrive w q) = true /\
     Objective3.patient_log w' = Objective3.patient_log w /\
     Objective3.staff_senior w' = Objective3.staff_senior w /\
     Objective3.staff_junior w' = Objective3.staff_junior w /\
     Objective3.users (Objective3.beds w') ++ Objective3.put_queue (Objective3.beds w') =
       Objective3.users (Objective3.beds w) ++ Objective3.put_queue (Objective3.beds w) ++
       [Objective3.BedReq q] /\
     (Objective3.put_queue (Objective3.beds w) = [] ->
      Objective3.users (Objective3.beds w') =
        Objective3.users (Objective3.beds w) ++ [Objective3.BedReq q])).
Proof.
  split; [|split; [|split; [|split]]].
  - intro Hfull. unfold patient_start. apply Z.leb_le in Hfull. rewrite Hfull.
    destruct p; repeat split; reflexivity.
  - intro Hfree. unfold patient_start.
    replace (num_beds prm <=? beds_in_use s)%Z with false by (symmetry; apply Z.leb_gt; exact Hfree).
    unfold request.
    match goal with |- context [trigger_put ?s1] =>
      destruct (trigger_put_ward s1) as (E1 & _ & E3 & _ & _ & E6 & _) end.
    rewrite E1, E3, E6.
    destruct p; state_simpl; repeat split; reflexivity.
  - intros H0 g fuel out Hrun.
    apply (no_beds_all_balk prm (Z.eq_le_incl _ _ H0) g fuel out Hrun).
  - intros w q Hfull. unfold Objective3.patient_arrive. apply Z.leb_le in Hfull.
    rewrite Hfull. reflexivity.
  - intros w q Hfree w'. unfold w', Objective3.patient_arrive.
    replace (Z.leb (Objective3.capacity (Objective3.beds w)) (Objective3.count (Objective3.beds w)))
      with false by (symmetry; apply Z.leb_gt; exact Hfree).
    cbn [fst snd Objective3.patient_log Objective3.staff_senior Objective3.staff_junior Objective3.beds].
    split; [reflexivity|]. split; [reflexivity|]. split; [reflexivity|]. split; [reflexivity|].
    unfold Objective3.request, Objective3.trigger_put.
    cbn [Objective3.put_queue Objective3.users Objective3.capacity].
    unfold Objective3.count in *. cbn [Objective3.users].
    split.
    + destruct (Objective3.put_queue (Objective3.beds w) ++ [Objective3.BedReq q]) as [|h rest] eqn:Eq;
        [destruct (Objective3.put_queue (Objective3.beds w)); discriminate|].
      destruct (Z.ltb_spec (Z.of_nat (List.length (Objective3.users (Objective3.beds w))))
                  (Objective3.capacity (Objective3.beds w))) as [_|Hc]; [|lia].
      cbn. rewrite <- app_assoc. reflexivity.
    + intro Hq. rewrite Hq. cbn [app].
      destruct (Z.ltb_spec (Z.of_nat (List.length (Objective3.users (Objective3.beds w))))
                  (Objective3.capacity (Objective3.beds w))) as [_|Hc]; [reflexivity|lia].
Qed.

(** C5 (confirmed).  In every finished run, each sample of the occupancy
    series has its count in [0, num_beds], and consecutive counts differ
    by exactly one (each sample is one admission or one discharge). *)
Theorem C5_occupancy_in_range_unit_steps {R : NumpyRandom} (prm : params) (g : rng)
    (fuel : nat) (out : output) :
  run_hospital_simulation prm g fuel = inr (Some out) ->
  Forall (fun tc => (0 <= snd tc <= num_beds prm)%Z) (occupancy_df out) /\
  pm1_chain (map snd (occupancy_df out)).
Proof.
  intro Hrun. destruct (run_output prm g fuel out Hrun) as (s & Hs & _ & ->).
  destruct (wf_reachable prm s Hs) as [_ Hr Hc _ _ _ _ _ _ _ _].
  split; assumption.
Qed.

(** C3 (code_bug).  In the stand-alone script the effective rate
    [mu_ideal * min(1, ALPHA * s / n)] never exceeds [mu_ideal] and equals
    it when [ALPHA * s >= max(1, n)], as the claim says.  The dashboard's
    workload scenario measures the load as [len(staff.users) / num_staff],
    the staff units in use per unit, which can never exceed 1: whenever
    [alpha >= 1] (the form's default is 1.5) the workload factor is 1 in
    every reachable state, so the treatment time is drawn with the ideal
    mean whatever the bed occupancy.  In a workload run with one staff
    unit and [alpha = 1.5], patient 2 starts treatment at minute 3720 with
    two beds occupied ([alpha * s = 1.5 < 2]): the claim's rate gives the
    mean 3600 / min(1, 1.5 / 2) = 4800 minutes, the code draws with the
    mean 3600, and the generator turns the two means into different
    durations. *)
Theorem C3_workload_ignores_bed_occupancy {R : NumpyRandom} :
  (forall (mu : Q) (n : Z), 0 <= mu -> (0 <= n)%Z ->
     Objective3.mu_actual mu n <= mu /\
     (inject_Z (Z.max 1 n) <=
        Objective3.ALPHA * inject_Z (Objective3.NUM_SENIOR_STAFF + Objective3.NUM_JUNIOR_STAFF) ->
      Objective3.mu_actual mu n == mu)) /\
  (forall (prm : params) (s : state), reachable prm s -> scenario prm = WORKLOAD ->
     1 <= workload_factor_alpha prm ->
     let u := inject_Z (Z.of_nat (List.length (users (staff s)))) in
     u / inject_Z (num_staff prm) <= 1 /\
     workload_factor (u / inject_Z (num_staff prm)) (workload_factor_alpha prm) = 1 /\
     get_treatment_time prm s =
       exponential (senior_service_days prm * MINS_IN_DAY * 1) (np_state s)) /\
  (reachable (R := Lcg.gen) workload_crowd c3_before /\
   step (R := Lcg.gen) workload_crowd c3_before = inr (Continue c3_after) /\
   beds_in_use c3_before = 2%Z /\
   workload_factor_alpha workload_crowd * inject_Z (num_staff workload_crowd) <
     inject_Z (beds_in_use c3_before) /\
   SpecReading.spec_workload_mean (senior_service_days workload_crowd * MINS_IN_DAY)
     (workload_factor_alpha workload_crowd) (num_staff workload_crowd) (beds_in_use c3_before) == 4800 /\
   exists t,
     treatment_time_of (lookup_phase c3_after 2) = Some t /\
     t == fst (Lcg.exp_draw 3600 (np_state c3_before)) /\
     ~ t == fst (Lcg.exp_draw 4800 (np_state c3_before))).
Proof.
  split; [|split].
  - intros mu n Hmu Hn. unfold Objective3.mu_actual.
    set (n' := if Z.eqb n 0 then 1%Z else n).
    assert (Hn' : inject_Z n' = inject_Z (Z.max 1 n)).
    { unfold n'. destruct (Z.eqb_spec n 0) as [->|Hne]; [reflexivity|].
      f_equal. lia. }
    split.
    + rewrite <- (Qmult_1_r mu) at 2. rewrite (Qmult_comm mu), (Qmult_comm mu).
      apply Qmult_le_compat_r; [apply Q.le_min_l | exact Hmu].
    + intro Hle. rewrite Hn'.
      rewrite Q.min_l; [apply Qmult_1_r|].
      apply Qle_shift_div_l.
      * unfold Qlt. cbn. lia.
      * rewrite Qmult_1_l. exact Hle.
  - intros prm s Hs Hsc Ha u.
    assert (Hns := reachable_num_staff prm s Hs).
    assert (Hns' : 0 < inject_Z (num_staff prm)) by (unfold Qlt; cbn; lia).
    assert (Hle : u / inject_Z (num_staff prm) <= 1).
    { apply Qle_shift_div_r; [exact Hns'|]. rewrite Qmult_1_l. unfold u. rewrite <- Zle_Qle.
      exact (DashboardTiming.ti_users _ _ (DashboardTiming.tinv_reachable prm s Hs)). }
    assert (Hf : workload_factor (u / inject_Z (num_staff prm)) (workload_factor_alpha prm) = 1).
    { unfold workload_factor, Qltb.
      replace (Qle_bool (u / inject_Z (num_staff prm)) (workload_factor_alpha prm)) with true;
        [reflexivity|].
      symmetry. apply Qle_bool_iff. lra. }
    split; [exact Hle|]. split; [exact Hf|].
    rewrite <- Hf. unfold get_treatment_time. rewrite Hsc. cbn -[exponential inject_Z workload_factor].
    unfold py_div. destruct (Qeq_bool (inject_Z (num_staff prm)) 0) eqn:E.
    + apply Qeq_bool_eq in E. rewrite E in Hns'. discriminate.
    + reflexivity.
  - split; [|split; [|split; [|split; [|split]]]].
    + apply (steps_reachable (R := Lcg.gen) workload_crowd 34
               (state_or_empty (R := Lcg.gen) 0%nat (setup (R := Lcg.gen) workload_crowd 0%nat))).
      * apply (reach_init (R := Lcg.gen) workload_crowd 0%nat). vm_compute. reflexivity.
      * vm_compute. reflexivity.
    + vm_compute. reflexivity.
    + vm_compute. reflexivity.
    + vm_compute. reflexivity.
    + vm_compute. reflexivity.
    + eexists. split; [vm_compute; reflexivity|]. split; vm_compute; [reflexivity|discriminate].
Qed.

(** C7, counterexample.  The unknown scenario is not rejected: the run
    completes, and its patient log holds discharged patients whose
    treatment time is 0 (the fall-through [return 0]). *)
Lemma C7_unknown_scenario_runs :
  let out := output_or_empty (run_hospital_simulation unknown_scenario 0%nat 400) in
  run_hospital_simulation unknown_scenario 0%nat 400 = inr (Some out) /\
  rows (patient_log_df out) <> [] /\
  Forall (fun e => Status e = DISCHARGED /\
                   match TreatmentTime e with Some t => t == 0 | None => False end)
    (rows (patient_log_df out)).
Proof.
  cbv zeta. split; [|split].
  - vm_compute. reflexivity.
  - vm_compute. discriminate.
  - vm_compute. repeat constructor.
Qed.

(** C7 (corrected).  Nothing is validated up front.  [simpy.Resource]
    rejects [num_staff <= 0] and [env.run(until=...)] a horizon [<= 0]
    (both [ValueError], at setup); a zero arrival rate raises
    [ZeroDivisionError] and a negative one numpy's [ValueError] when the
    source process starts, after the environment and the ward exist; a
    negative senior service time makes the baseline scenario's draw raise
    [ValueError]; an unknown scenario gives every patient treatment time
    0; with [num_beds < 0] every arrival balks, so a run that finishes has
    only balked rows and no occupancy sample.  Neither of the last two is
    rejected: with [num_staff > 0], a positive horizon, a positive arrival
    rate and non-negative service times, whatever the scenario and
    [num_beds], the only exception a run can raise is the
    KeyError('WaitTime') of a final state with an empty log. *)
Theorem C7_no_upfront_validation {R : NumpyRandom} (prm : params) (g : rng) :
  ((num_staff prm <= 0)%Z -> setup prm g = inl (ValueError "capacity must be > 0")) /\
  ((0 < num_staff prm)%Z -> simulation_duration prm <= 0 ->
     setup prm g = inl (ValueError "until must be greater than the current simulation time")) /\
  ((0 < num_staff prm)%Z -> 0 < simulation_duration prm -> arrival_rate prm == 0 ->
     forall fuel, run_hospital_simulation prm g (S fuel) = inl ZeroDivisionError) /\
  ((0 < num_staff prm)%Z -> 0 < simulation_duration prm -> arrival_rate prm < 0 ->
     forall fuel, run_hospital_simulation prm g (S fuel) = inl (ValueError "scale < 0")) /\
  (scenario prm = BASELINE -> senior_service_days prm < 0 ->
     forall s, get_treatment_time prm s = inl (ValueError "scale < 0")) /\
  (~ In (scenario prm) [BASELINE; HETEROGENEOUS; WORKLOAD] ->
     forall s, get_treatment_time prm s = inr (0, np_state s)) /\
  ((num_beds prm < 0)%Z -> forall fuel out,
     run_hospital_simulation prm g fuel = inr (Some out) ->
     Forall (fun e => Status e = BALKED) (rows (patient_log_df out)) /\ occupancy_df out = []) /\
  ((0 < num_staff prm)%Z -> 0 < simulation_duration prm -> 0 < arrival_rate prm ->
     0 <= senior_service_days prm -> 0 <= junior_service_days prm -> forall fuel,
     match run_hospital_simulation prm g fuel with
     | inl e => e = KeyError "WaitTime" /\
         exists s0 s, setup prm g = inr s0 /\ run_loop prm fuel s0 = inr (Some s) /\
           patient_log s = []
     | inr _ => True
     end).
Proof.
  split; [|split; [|split; [|split; [|split; [|split; [|split]]]]]].
  - intro Hns. unfold setup. apply Z.leb_le in Hns. rewrite Hns. reflexivity.
  - intros Hns Hd. unfold setup.
    replace (Z.leb (num_staff prm) 0) with false by (symmetry; apply Z.leb_gt; exact Hns).
    cbn [now schedule set_queue].
    replace (Qle_bool _ _) with true; [reflexivity|].
    symmetry. apply Qle_bool_iff. unfold MINS_IN_DAY. lra.
  - intros Hns Hd Har fuel. apply run_first_step_raises; [exact Hns|exact Hd|].
    intro s. unfold source_init, py_div.
    replace (Qeq_bool (arrival_rate prm) 0) with true by (symmetry; apply Qeq_bool_iff; exact Har).
    reflexivity.
  - intros Hns Hd Har fuel. apply run_first_step_raises; [exact Hns|exact Hd|].
    intro s. unfold source_init, py_div.
    replace (Qeq_bool (arrival_rate prm) 0) with false.
    2:{ symmetry. destruct (Qeq_bool _ _) eqn:E; [|reflexivity].
        apply Qeq_bool_iff in E. rewrite E in Har. discriminate. }
    cbn [bind ret]. unfold exponential, Qltb.
    replace (Qle_bool 0 (MINS_IN_DAY / arrival_rate prm)) with false; [reflexivity|].
    symmetry. destruct (Qle_bool _ _) eqn:E; [|reflexivity].
    apply Qle_bool_iff in E. pose proof (neg_rate_neg_mean _ Har). lra.
  - intros Hsc Hneg s. unfold get_treatment_time. rewrite Hsc. cbn -[exponential].
    unfold exponential, Qltb.
    replace (Qle_bool 0 (senior_service_days prm * MINS_IN_DAY)) with false; [reflexivity|].
    symmetry. destruct (Qle_bool _ _) eqn:E; [|reflexivity].
    apply Qle_bool_iff in E. unfold MINS_IN_DAY in E. lra.
  - intros Hsc s. unfold get_treatment_time.
    destruct (String.eqb_spec (scenario prm) BASELINE) as [H|_]; [exfalso; apply Hsc; left; exact (eq_sym H)|].
    destruct (String.eqb_spec (scenario prm) HETEROGENEOUS) as [H|_];
      [exfalso; apply Hsc; right; left; exact (eq_sym H)|].
    destruct (String.eqb_spec (scenario prm) WORKLOAD) as [H|_];
      [exfalso; apply Hsc; right; right; left; exact (eq_sym H)|].
    reflexivity.
  - intros Hnb fuel out Hrun.
    exact (no_beds_all_balk prm (Z.lt_le_incl _ _ Hnb) g fuel out Hrun).
  - intros Hns Hd Har Hsen Hjun fuel.
    pose proof (DashboardTiming.run_error_empty_log prm g fuel Har Hsen Hjun Hns Hd) as H.
    destruct (run_hospital_simulation prm g fuel); [|exact I].
    destruct H as [He (s0 & s & Hs0 & Hr & _ & _ & Hl)].
    split; [exact He|]. exists s0, s. repeat split; assumption.
Qed.



(** C9, the script's race with waiting: with the one senior and the one
    junior unit busy, patient 3 gets a bed and both staff requests queue;
    the race does not fire.  Once patient 2 releases its junior unit, the
    queued junior request is granted and patient 3 resumes as Junior, with
    a treatment time drawn at the junior rate. *)
Definition waiting_ward : Objective3.ward :=
  Objective3.mkWard 100
    (Objective3.mkResource 20 [Objective3.BedReq 1; Objective3.BedReq 2] [])
    (Objective3.mkResource 1 [Objective3.SeniorReq 1] [])
    (Objective3.mkResource 1 [Objective3.JuniorReq 2] []) [].

Lemma C9_script_resume_after_wait :
  let w1 := Objective3.issue_staff_requests (fst (Objective3.patient_arrive waiting_ward 3)) 3 in
  let w2 := Objective3.mkWard 500 (Objective3.beds w1) (Objective3.staff_senior w1)
              (Objective3.process_release
                 (Objective3.release (Objective3.staff_junior w1) (Objective3.JuniorReq 2)))
              (Objective3.patient_log w1) in
  Objective3.race_result w1 3 = None /\
  Objective3.granted (Objective3.beds w1) (Objective3.BedReq 3) = true /\
  Objective3.race_resume (R := Lcg.gen) w2 3 0%nat =
    inr (Some (Objective3.Junior,
               fst (Lcg.exp_draw (1 / Objective3.mu_actual (Objective3.mu_ideal Objective3.Junior) 3) 0),
               1%nat)).
Proof.
  cbv zeta. split; [|split]; vm_compute; reflexivity.
Qed.

End DashboardClaims.

(** ** Further properties of the dashboard engine and the script *)
Module DashboardExtras.
Import Dashboard DashboardRun DashboardInvariant DashboardTiming DashboardForm.

Section Extras.
Context {R : NumpyRandom}.

(** X1: in every reachable state of the dashboard engine the staff
    resource keeps the capacity [num_staff]; the staff units in use never
    exceed it, nor the number of occupied beds. *)
Theorem staff_in_use_bounded (prm : params) (s : state) :
  reachable prm s ->
  capacity (staff s) = num_staff prm /\
  (Z.of_nat (List.length (users (staff s))) <= num_staff prm)%Z /\
  (Z.of_nat (List.length (users (staff s))) <= beds_in_use s)%Z.
Proof.
  intro Hs. pose proof (tinv_reachable prm s Hs) as Hti.
  split; [exact (ti_cap _ _ Hti)|]. split; [exact (ti_users _ _ Hti)|].
  exact (users_le_beds prm s (wf_reachable prm s Hs)).
Qed.

(** X2: in a finished run the occupancy series is sorted by time and
    every time lies in [0, simulation_duration * 1440]. *)
Theorem occupancy_times_within_horizon (prm : params) (g : rng) (fuel : nat) (out : output) :
  run_hospital_simulation prm g fuel = inr (Some out) ->
  nondecreasing (map fst (occupancy_df out)) /\
  Forall (fun tc => 0 <= fst tc <= simulation_duration prm * MINS_IN_DAY) (occupancy_df out).
Proof.
  intro Hrun. destruct (run_final prm g fuel out Hrun) as (s & Hs & Hnow & _ & Hocc & _).
  pose proof (tinv_reachable prm s Hs) as Hti. rewrite Hocc.
  split; [exact (ti_occ_sorted _ _ Hti)|].
  eapply Forall_impl; [|exact (ti_occ_time _ _ Hti)].
  intros tc [H0 H1]. split; [exact H0|]. unfold horizon in Hnow. rewrite <- Hnow. exact H1.
Qed.


(** X4: in a finished run the patient IDs of the log are pairwise
    distinct and never 0 (the source numbers patients from 1). *)
Theorem patient_ids_distinct (prm : params) (g : rng) (fuel : nat) (out : output) :
  run_hospital_simulation prm g fuel = inr (Some out) ->
  NoDup (map PatientID (rows (patient_log_df out))) /\
  Forall (fun e => PatientID e <> 0%nat) (rows (patient_log_df out)).
Proof.
  intro Hrun. destruct (run_final prm g fuel out Hrun) as (s & Hs & _ & Hdf & _ & _).
  pose proof (tinv_reachable prm s Hs) as Hti.
  rewrite Hdf, rows_to_days, map_map. split; [exact (ti_ids _ _ Hti)|].
  rewrite Forall_map, Forall_forall. intros e He H0. cbn in H0.
  destruct (ti_logged _ _ Hti e He) as [H|H]; rewrite H0 in H; discriminate.
Qed.

(** X5: in a finished run the occupancy series has two rows per
    discharged patient (admission and discharge) plus one per patient still
    in a bed at the end, the last recorded count. *)
Theorem occupancy_rows_per_discharge (prm : params) (g : rng) (fuel : nat) (out : output) :
  run_hospital_simulation prm g fuel = inr (Some out) ->
  Z.of_nat (List.length (occupancy_df out)) =
  (2 * Z.of_nat (count_discharged (rows (patient_log_df out))) +
   last (map snd (occupancy_df out)) 0)%Z.
Proof.
  intro Hrun. destruct (run_final prm g fuel out Hrun) as (s & Hs & _ & Hdf & Hocc & _).
  rewrite Hdf, Hocc, rows_to_days, count_discharged_to_days.
  rewrite (wf_last _ _ (wf_reachable prm s Hs)).
  exact (ti_occ_len _ _ (tinv_reachable prm s Hs)).
Qed.

(** X6: in a finished run 'Total Patients Served' is the number of
    discharged rows, the blocking probability is the percentage of the
    other rows, and the average wait for staff is non-negative and at most
    the average length of stay. *)
Theorem served_kpis_consistent (prm : params) (g : rng) (fuel : nat) (out : output) :
  run_hospital_simulation prm g fuel = inr (Some out) ->
  let n := inject_Z (Z.of_nat (List.length (rows (patient_log_df out)))) in
  let k := kpis_of out in
  total_patients_served k == inject_Z (Z.of_nat (count_discharged (rows (patient_log_df out)))) /\
  blocking_probability k * n == (n - total_patients_served k) * 100 /\
  0 <= average_wait_for_staff k /\ average_wait_for_staff k <= average_length_of_stay k.
Proof.
  intro Hrun. destruct (run_final prm g fuel out Hrun) as (s & Hs & Hnow & Hdf & _ & Hk).
  pose proof (finished_log_nonempty prm s _ Hk) as Hne.
  rewrite (DashboardKpi.compute_kpis_nonempty prm _ _ Hne) in Hk.
  pose proof (finished_timing prm s Hs Hnow) as Htim.
  pose proof (log_ok_reachable prm s Hs) as Hok.
  rewrite Hdf, rows_to_days. cbv zeta. cbv zeta in Hk.
  set (l := patient_log s) in *. set (rs := map DashboardKpi.entry_to_days l) in *.
  assert (Hserved : filter DashboardKpi.is_served rs =
                    filter (fun e => String.eqb (Status e) DISCHARGED) rs).
  { apply filter_ext_in. intros e He. subst rs. apply in_map_iff in He as (e0 & <- & He0).
    rewrite Forall_forall in Htim. destruct (Htim e0 He0) as [_ [Hd Hn]].
    unfold DashboardKpi.is_served, DashboardKpi.entry_to_days. cbn [WaitTime Status].
    destruct (String.eqb_spec (Status e0) DISCHARGED) as [HD|HD].
    - destruct (Hd HD) as (w & _ & _ & E1 & _). rewrite E1. reflexivity.
    - rewrite (Hn HD). reflexivity. }
  assert (HF : Forall (fun e => exists w tot, WaitTime e = Some w /\ TotalTime e = Some tot /\
                                 0 <= w /\ w <= tot)
                 (filter (fun e => String.eqb (Status e) DISCHARGED) rs)).
  { apply Forall_forall. intros e He. apply filter_In in He as [He HD].
    apply String.eqb_eq in HD. subst rs. apply in_map_iff in He as (e0 & <- & He0).
    rewrite Forall_forall in Htim. destruct (Htim e0 He0) as [_ [Hd _]].
    destruct (Hd HD) as (w & t & tot & E1 & _ & E3 & Hw & Ht & Htot & _).
    unfold DashboardKpi.entry_to_days. cbn [WaitTime TotalTime]. rewrite E1, E3.
    exists (w / MINS_IN_DAY), (tot / MINS_IN_DAY). repeat split; rewrite ?div_day; lra. }
  assert (Hall : Forall (fun e => Status e = BALKED \/ Status e = DISCHARGED) rs).
  { subst rs. rewrite Forall_map. revert Hok. apply Forall_impl.
    intros e [[H _]|[H _]]; [left|right]; exact H. }
  pose proof (balked_plus_discharged rs Hall) as Hsum.
  assert (Hpos : (0 < List.length rs)%nat).
  { subst rs. rewrite length_map. destruct l; [contradiction|]. cbn. lia. }
  rewrite Hserved in Hk. unfold count_discharged in *.
  destruct (filter (fun e => String.eqb (Status e) DISCHARGED) rs) as [|x xs] eqn:Hf;
    injection Hk as <-; cbn [blocking_probability total_patients_served
                              average_wait_for_staff average_length_of_stay].
  - split; [reflexivity|]. split; [|split; apply Qle_refl].
    cbn [List.length] in Hsum. rewrite Nat.add_0_r in Hsum. rewrite Hsum.
    field. change 0 with (inject_Z 0). rewrite inject_Z_injective. lia.
  - split; [reflexivity|]. destruct (served_columns _ HF) as [H2 H0].
    split; [|split; [exact (mean_nonneg _ H0)|exact (mean_le _ _ H2)]].
    rewrite <- Hsum, Nat2Z.inj_add, inject_Z_plus.
    change (inject_Z (Z.pos (Pos.of_succ_nat (List.length xs))))
      with (inject_Z (Z.of_nat (List.length (x :: xs)))).
    set (a := inject_Z (Z.of_nat (List.length (filter (fun e => contains_balked (Status e)) rs)))).
    set (b := inject_Z (Z.of_nat (List.length (x :: xs)))).
    assert (Ha : 0 <= a) by (unfold a; change 0 with (inject_Z 0); rewrite <- Zle_Qle; lia).
    assert (Hb : 0 < b) by (unfold b; change 0 with (inject_Z 0); rewrite <- Zlt_Qlt; cbn [List.length]; lia).
    field. intro E. lra.
Qed.

(** X7: in a finished run the 'Average Bed Occupancy (%)' KPI lies
    between 0 and 100. *)
Theorem bed_occupancy_percent_bounded (prm : params) (g : rng) (fuel : nat) (out : output) :
  run_hospital_simulation prm g fuel = inr (Some out) ->
  0 <= average_bed_occupancy (kpis_of out) <= 100.
Proof.
  intro Hrun. destruct (run_final prm g fuel out Hrun) as (s & Hs & Hnow & _ & Hocc & Hk).
  rewrite (compute_kpis_bed _ _ _ _ Hk).
  pose proof (tinv_reachable prm s Hs) as Hti. pose proof (wf_reachable prm s Hs) as Hwf.
  pose proof (reachable_horizon_pos prm s Hs) as Hhz.
  pose proof (ti_occ_sorted _ _ Hti) as Hsort. pose proof (ti_occ_time _ _ Hti) as Htime.
  pose proof (wf_range _ _ Hwf) as Hrange.
  unfold bed_occupancy_kpi. destruct (occupancy_log s) as [|[t0 c0] occ] eqn:Eo; [lra|].
  unfold horizon in Hhz. destruct (Qltb 0 (simulation_duration prm * MINS_IN_DAY)) eqn:Ehz;
    [|unfold Qltb in Ehz; apply negb_false_iff, Qle_bool_iff in Ehz; lra].
  destruct (Z.ltb_spec 0 (num_beds prm)) as [Hnb|Hnb]; [|lra].
  set (nbq := inject_Z (num_beds prm)).
  assert (Hnbq : 0 < nbq) by (unfold nbq; change 0 with (inject_Z 0); rewrite <- Zlt_Qlt; exact Hnb).
  set (hz := simulation_duration prm * MINS_IN_DAY) in *.
  assert (Hb : 0 <= occupancy_sum ((t0, c0) :: occ) 0 0 <= nbq * hz).
  { inversion Htime as [|? ? [Ht0 _] _]; subst.
    apply occupancy_sum_bound; try lra.
    - cbn in Ht0 |- *. split; [exact Ht0|exact Hsort].
    - apply Forall_forall. intros tc Hin.
      rewrite Forall_forall in Htime, Hrange.
      destruct (Htime tc Hin) as [_ Ht]. destruct (Hrange tc Hin) as [Hc0 Hc1].
      unfold nbq. rewrite !Zle_Qle in Hc0, Hc1. unfold horizon in Hnow.
      split; [split; assumption|]. fold hz in Hnow. rewrite <- Hnow. exact Ht. }
  set (S := occupancy_sum ((t0, c0) :: occ) 0 0) in *.
  assert (E : S / hz / nbq * 100 == (S / (nbq * hz)) * 100) by (field; lra).
  rewrite E. split.
  - apply Qmult_le_0_compat; [|lra]. apply Qle_shift_div_l; [nra|lra].
  - assert (S / (nbq * hz) <= 1) by (apply Qle_shift_div_r; [nra|lra]). lra.
Qed.

(** X8: with a positive arrival rate, non-negative service days, a
    positive number of staff and a positive duration, the only exception a
    run can raise is KeyError('WaitTime'), and only when the final state of
    the run's own event loop, at the end of the period, has an empty
    patient log: no patient balked or was discharged before the end
    (patients still in a bed are not logged). *)
Theorem run_fails_only_on_empty_log (prm : params) (g : rng) (fuel : nat) (e : exn) :
  0 < arrival_rate prm -> 0 <= senior_service_days prm -> 0 <= junior_service_days prm ->
  (0 < num_staff prm)%Z -> 0 < simulation_duration prm ->
  run_hospital_simulation prm g fuel = inl e ->
  e = KeyError "WaitTime" /\
  exists s0 s, setup prm g = inr s0 /\ run_loop prm fuel s0 = inr (Some s) /\
    now s == simulation_duration prm * MINS_IN_DAY /\ patient_log s = [].
Proof.
  intros H1 H2 H3 H4 H5 Hrun.
  pose proof (run_error_empty_log prm g fuel H1 H2 H3 H4 H5) as H. rewrite Hrun in H.
  destruct H as [He (s0 & s & Hs0 & Hr & _ & Hnow & Hl)].
  split; [exact He|]. exists s0, s. repeat split; assumption.
Qed.

(** X9: for any values the dashboard's sidebar widgets allow, the call
    [run_hospital_simulation(params)] raises nothing but
    KeyError('WaitTime'), and that only when the final state of the
    run's event loop, at the end of the period, has an empty patient
    log. *)
Theorem form_run_only_empty_log_error (w : widgets) (g : rng) (fuel : nat) :
  widget_ranges w ->
  match run_hospital_simulation (form_params w) g fuel with
  | inl e => e = KeyError "WaitTime" /\
      exists s0 s, setup (form_params w) g = inr s0 /\ run_loop (form_params w) fuel s0 = inr (Some s) /\
        now s == inject_Z (w_simulation_duration w) * MINS_IN_DAY /\ patient_log s = []
  | inr _ => True
  end.
Proof.
  intros (Har & _ & Hns & Hdur & _ & Hsen & Hjun & _).
  assert (Hp : 0 < arrival_rate (form_params w) /\ 0 <= senior_service_days (form_params w) /\
               0 <= junior_service_days (form_params w) /\ (0 < num_staff (form_params w))%Z /\
               0 < simulation_duration (form_params w)).
  { unfold form_params, model_specific.
    destruct (py_in "Experience-Based" (w_scenario w)), (py_in "Workload-Dependent" (w_scenario w));
      cbn; (split; [|split; [|split; [|split]]]);
      try (change 0 with (inject_Z 0); rewrite <- Zlt_Qlt; lia); try lia; lra. }
  destruct Hp as (H1 & H2 & H3 & H4 & H5).
  assert (Hd : simulation_duration (form_params w) = inject_Z (w_simulation_duration w)).
  { unfold form_params. destruct (model_specific w) as [[[? ?] ?] ?]. reflexivity. }
  pose proof (run_error_empty_log (form_params w) g fuel H1 H2 H3 H4 H5) as H.
  destruct (run_hospital_simulation (form_params w) g fuel); [|exact I].
  destruct H as [He (s0 & s & Hs0 & Hr & _ & Hnow & Hl)]. split; [exact He|].
  exists s0, s. split; [exact Hs0|]. split; [exact Hr|]. split; [|exact Hl].
  unfold horizon in Hnow. rewrite Hd in Hnow. exact Hnow.
Qed.

(** X10: of the keys of the dashboard's [params] dict, the sensitivity
    analysis fails on exactly one, 'scenario', with a NameError on
    [sensitivity_results]; on every other key it computes a range. *)
Theorem sensitivity_non_numeric_only_scenario (w : widgets) (k : string) :
  In k (map fst (form_dict w)) ->
  match sensitivity_range (form_dict w) k with
  | inl err => k = "scenario"%string /\ err = NameError "sensitivity_results"
  | inr _ => k <> "scenario"%string
  end.
Proof.
  unfold form_dict. destruct (model_specific w) as [[[mix sen] jun] alpha].
  cbn [map fst In]. intros Hk.
  repeat (destruct Hk as [<-|Hk]; [cbn; try (split; reflexivity); discriminate|]).
  destruct Hk.
Qed.

(** X11: on a numeric parameter of value [q] the sensitivity range has
    ten values, evenly spaced by [q / 9] from [q / 2] to [3q / 2]. *)
Theorem sensitivity_range_evenly_spaced (d : list (string * pyval)) (k : string) (v : pyval) (q : Q) :
  py_lookup d k = Some v -> py_num v = Some q ->
  exists xs, sensitivity_range d k = inr xs /\ List.length xs = 10%nat /\
    forall i, (i < 10)%nat -> nth i xs 0 == q * (1 # 2) + inject_Z (Z.of_nat i) * (q * (1 # 9)).
Proof.
  intros Hl Hv. unfold sensitivity_range. rewrite Hl, Hv.
  eexists. split; [reflexivity|]. split; [reflexivity|].
  intros i Hi. unfold linspace. cbn [Nat.sub seq map app].
  destruct (Qeq_bool _ 0) eqn:E.
  - apply Qeq_bool_iff in E.
    do 10 (destruct i as [|i]; [cbn [nth]; field|]). lia.
  - do 10 (destruct i as [|i]; [cbn [nth]; field|]). lia.
Qed.

(** X12: in the stand-alone script, with at most NUM_BEDS patients in
    beds, the effective service rate lies between three quarters of the
    ideal rate and the ideal rate, and equals the ideal rate exactly when at
    most NUM_SENIOR_STAFF + NUM_JUNIOR_STAFF patients are in beds. *)
Theorem mu_actual_bounds (mu : Q) (n : Z) :
  0 < mu -> (0 <= n <= Objective3.NUM_BEDS)%Z ->
  (3 # 4) * mu <= Objective3.mu_actual mu n <= mu /\
  (Objective3.mu_actual mu n == mu <->
   (n <= Objective3.NUM_SENIOR_STAFF + Objective3.NUM_JUNIOR_STAFF)%Z).
Proof.
  intros Hmu Hn. unfold Objective3.NUM_BEDS in Hn.
  assert (E : n = Z.of_nat (Z.to_nat n)) by lia.
  assert (Hk : (Z.to_nat n <= 20)%nat) by lia.
  rewrite E. generalize (Z.to_nat n) Hk. clear E Hk Hn. intros k Hk.
  do 21 (destruct k as [|k];
    [unfold Objective3.mu_actual; cbn -[Qmult];
     lazymatch goal with |- context [Qmin ?a ?b] =>
       let v := eval vm_compute in (Qmin a b) in change (Qmin a b) with v end;
     unfold Objective3.NUM_SENIOR_STAFF, Objective3.NUM_JUNIOR_STAFF;
     (split; [split; lra|split; intro H; first [lia | lra | exfalso; lra]])|]).
  lia.
Qed.

(** X13: in the stand-alone script, a resource request keeps the
    capacity, never grants beyond it, and leaves the new request either
    among the users or in the queue, nothing lost or duplicated. *)
Theorem script_request_within_capacity (r : Objective3.resource) (q : Objective3.req) :
  (Objective3.count r <= Objective3.capacity r)%Z ->
  Objective3.capacity (Objective3.request r q) = Objective3.capacity r /\
  (Objective3.count (Objective3.request r q) <= Objective3.capacity r)%Z /\
  Permutation (Objective3.users (Objective3.request r q) ++ Objective3.put_queue (Objective3.request r q))
              (Objective3.users r ++ Objective3.put_queue r ++ [q]).
Proof.
  intro H. unfold Objective3.request, Objective3.trigger_put. cbn.
  destruct (Objective3.put_queue r ++ [q]) as [|h rest] eqn:Eq;
    [destruct (Objective3.put_queue r); discriminate|].
  unfold Objective3.count in *. cbn.
  destruct (Z.ltb_spec (Z.of_nat (List.length (Objective3.users r))) (Objective3.capacity r)) as [Hlt|Hge];
    cbn; rewrite <- Eq.
  - split; [reflexivity|]. split.
    + rewrite length_app. cbn [List.length]. lia.
    + rewrite Eq, <- app_assoc. reflexivity.
  - split; [reflexivity|]. split; [exact H|reflexivity].
Qed.

End Extras.
End DashboardExtras.

(** * Witnesses: the theorems' hypotheses hold on concrete runs *)
Module Witnesses.
Import Dashboard DashboardRun DashboardInvariant Scenarios DashboardClaims.
#[local] Existing Instance Lcg.gen.

Lemma C5_occupancy_in_range_unit_steps_witness :
  let out := output_or_empty (run_hospital_simulation baseline_pair 0%nat 400) in
  run_hospital_simulation baseline_pair 0%nat 400 = inr (Some out) /\
  occupancy_df out <> [] /\
  Forall (fun tc => (0 <= snd tc <= num_beds baseline_pair)%Z) (occupancy_df out) /\
  pm1_chain (map snd (occupancy_df out)).
Proof.
  cbv zeta.
  assert (H : run_hospital_simulation baseline_pair 0%nat 400 =
              inr (Some (output_or_empty (run_hospital_simulation baseline_pair 0%nat 400))))
    by (vm_compute; reflexivity).
  split; [exact H|]. split; [vm_compute; discriminate|].
  exact (C5_occupancy_in_range_unit_steps baseline_pair 0%nat 400 _ H).
Defined.

Lemma C8_empty_log_raises_KeyError_witness :
  setup rare_arrivals 0%nat = inr rare_setup /\
  run_loop rare_arrivals 200 rare_setup = inr (Some rare_final) /\
  patient_log rare_final = [] /\
  run_hospital_simulation rare_arrivals 0%nat 200 = inl (KeyError "WaitTime").
Proof.
  assert (H1 : setup rare_arrivals 0%nat = inr rare_setup) by (vm_compute; reflexivity).
  assert (H2 : run_loop rare_arrivals 200 rare_setup = inr (Some rare_final))
    by (vm_compute; reflexivity).
  assert (H3 : patient_log rare_final = []) by (vm_compute; reflexivity).
  split; [exact H1|]. split; [exact H2|]. split; [exact H3|].
  exact (DashboardFacts.C8_empty_log_raises_KeyError rare_arrivals 0%nat 200 rare_setup rare_final
           H1 H2 H3).
Defined.

Lemma C10_balked_record_counted_only_in_blocking_witness :
  (num_beds one_bed_day <= beds_in_use full_ward)%Z /\
  one_discharge <> [] /\
  patient_log (patient_start one_bed_day full_ward 2) =
    patient_log full_ward ++ [mkEntry 2 (now full_ward) None None None BALKED "N/A"] /\
  exists k k',
    compute_kpis one_bed_day (to_days (DataFrame one_discharge)) [(10, 1%Z)] = inr k /\
    compute_kpis one_bed_day
      (to_days (DataFrame (one_discharge ++ [balk_entry 2 (now full_ward)]))) [(10, 1%Z)] = inr k' /\
    average_wait_for_staff k' = average_wait_for_staff k /\
    average_length_of_stay k' = average_length_of_stay k /\
    total_patients_served k' = total_patients_served k /\
    blocking_probability k' =
      inject_Z (Z.of_nat (S (DashboardKpi.count_balked one_discharge))) /
      inject_Z (Z.of_nat (S (List.length one_discharge))) * 100.
Proof.
  assert (H1 : (num_beds one_bed_day <= beds_in_use full_ward)%Z)
    by (vm_compute; discriminate).
  assert (H2 : one_discharge <> []) by discriminate.
  split; [exact H1|]. split; [exact H2|].
  exact (DashboardFacts.C10_balked_record_counted_only_in_blocking one_bed_day
           full_ward 2 one_discharge [(10, 1%Z)] H1 H2).
Defined.

End Witnesses.

(** ** Witnesses of the further properties *)
Module ExtraWitnesses.
Import Dashboard DashboardRun DashboardInvariant Scenarios DashboardTiming DashboardForm DashboardExtras.
#[local] Existing Instance Lcg.gen.

(** The default widget values, baseline scenario. *)
Definition default_widgets : widgets := mkWidgets BASELINE 10 20 10 30 50 3 5 (3 # 2).

(** A state in the middle of a workload run, with two beds taken and the
    one staff unit in use. *)
Lemma staff_in_use_bounded_witness :
  reachable workload_crowd c3_before /\
  capacity (staff c3_before) = num_staff workload_crowd /\
  (Z.of_nat (List.length (users (staff c3_before))) <= num_staff workload_crowd)%Z /\
  (Z.of_nat (List.length (users (staff c3_before))) <= beds_in_use c3_before)%Z.
Proof.
  assert (Hs : reachable workload_crowd c3_before).
  { apply (steps_reachable (R := Lcg.gen) workload_crowd 34
             (state_or_empty (R := Lcg.gen) 0%nat (setup (R := Lcg.gen) workload_crowd 0%nat))).
    - apply (reach_init (R := Lcg.gen) workload_crowd 0%nat). vm_compute. reflexivity.
    - vm_compute. reflexivity. }
  split; [exact Hs|]. exact (staff_in_use_bounded workload_crowd c3_before Hs).
Defined.

Lemma occupancy_times_within_horizon_witness :
  let out := output_or_empty (run_hospital_simulation baseline_pair 0%nat 400) in
  run_hospital_simulation baseline_pair 0%nat 400 = inr (Some out) /\
  nondecreasing (map fst (occupancy_df out)) /\
  Forall (fun tc => 0 <= fst tc <= simulation_duration baseline_pair * MINS_IN_DAY) (occupancy_df out).
Proof.
  cbv zeta.
  assert (H : run_hospital_simulation baseline_pair 0%nat 400 =
              inr (Some (output_or_empty (run_hospital_simulation baseline_pair 0%nat 400))))
    by (vm_compute; reflexivity).
  split; [exact H|]. exact (occupancy_times_within_horizon baseline_pair 0%nat 400 _ H).
Defined.

Definition baseline_out : output := output_or_empty (run_hospital_simulation baseline_pair 0%nat 400).

(** A baseline run with two beds and short stays: eleven arrivals, six
    discharged and five balked. *)
Definition busy : params := mkParams 6 2 1 (1 # 4) (7 # 2) 50 1 2 BASELINE.

Definition busy_out : output := output_or_empty (run_hospital_simulation busy 0%nat 400).


Lemma patient_ids_distinct_witness :
  run_hospital_simulation baseline_pair 0%nat 400 = inr (Some baseline_out) /\
  NoDup (map PatientID (rows (patient_log_df baseline_out))) /\
  Forall (fun e => PatientID e <> 0%nat) (rows (patient_log_df baseline_out)).
Proof.
  assert (H : run_hospital_simulation baseline_pair 0%nat 400 = inr (Some baseline_out))
    by (vm_compute; reflexivity).
  split; [exact H|]. exact (patient_ids_distinct baseline_pair 0%nat 400 _ H).
Defined.

Lemma occupancy_rows_per_discharge_witness :
  run_hospital_simulation baseline_pair 0%nat 400 = inr (Some baseline_out) /\
  Z.of_nat (List.length (occupancy_df baseline_out)) =
  (2 * Z.of_nat (count_discharged (rows (patient_log_df baseline_out))) +
   last (map snd (occupancy_df baseline_out)) 0)%Z.
Proof.
  assert (H : run_hospital_simulation baseline_pair 0%nat 400 = inr (Some baseline_out))
    by (vm_compute; reflexivity).
  split; [exact H|]. exact (occupancy_rows_per_discharge baseline_pair 0%nat 400 _ H).
Defined.

Lemma served_kpis_consistent_witness :
  run_hospital_simulation busy 0%nat 400 = inr (Some busy_out) /\
  let n := inject_Z (Z.of_nat (List.length (rows (patient_log_df busy_out)))) in
  let k := kpis_of busy_out in
  total_patients_served k == inject_Z (Z.of_nat (count_discharged (rows (patient_log_df busy_out)))) /\
  blocking_probability k * n == (n - total_patients_served k) * 100 /\
  0 <= average_wait_for_staff k /\ average_wait_for_staff k <= average_length_of_stay k.
Proof.
  assert (H : run_hospital_simulation busy 0%nat 400 = inr (Some busy_out))
    by (vm_compute; reflexivity).
  split; [exact H|]. exact (served_kpis_consistent busy 0%nat 400 _ H).
Defined.

Lemma bed_occupancy_percent_bounded_witness :
  run_hospital_simulation baseline_pair 0%nat 400 = inr (Some baseline_out) /\
  0 <= average_bed_occupancy (kpis_of baseline_out) <= 100.
Proof.
  assert (H : run_hospital_simulation baseline_pair 0%nat 400 = inr (Some baseline_out))
    by (vm_compute; reflexivity).
  split; [exact H|]. exact (bed_occupancy_percent_bounded baseline_pair 0%nat 400 _ H).
Defined.

(** Ten-day stays over a one-day horizon: six patients arrive and take a
    bed, none is discharged or balks, and the log stays empty. *)
Definition long_stay : params := mkParams 6 10 1 10 10 50 1 1 BASELINE.

Lemma run_fails_only_on_empty_log_witness :
  run_hospital_simulation long_stay 0%nat 400 = inl (KeyError "WaitTime") /\
  KeyError "WaitTime" = KeyError "WaitTime" /\
  exists s0 s, setup long_stay 0%nat = inr s0 /\ run_loop long_stay 400 s0 = inr (Some s) /\
    now s == simulation_duration long_stay * MINS_IN_DAY /\ patient_log s = [].
Proof.
  assert (H : run_hospital_simulation long_stay 0%nat 400 = inl (KeyError "WaitTime"))
    by (vm_compute; reflexivity).
  split; [exact H|].
  refine (run_fails_only_on_empty_log long_stay 0%nat 400 _ _ _ _ _ _ H);
    unfold long_stay; cbn; try lia; lra.
Defined.

(** A generator whose exponential draws return their mean and whose
    [rand()] returns 1/2. *)
Definition mean_exp (scale : Q) (g : nat) : Q * nat := (scale, S g).

Lemma mean_exp_nonneg : forall s g, 0 <= s -> 0 <= fst (mean_exp s g).
Proof. intros s g H. exact H. Qed.

Definition mean_gen : NumpyRandom := {|
  rng := nat;
  np_seed z := Z.to_nat z;
  exponential_raw := mean_exp;
  rand_raw g := (1 # 2, S g);
  exponential_raw_nonneg := mean_exp_nonneg |}.

(** The widgets at one arrival a day, 100 beds, one staff unit, seven
    days, and ten-day heterogeneous service times: every patient is still
    in a bed at the end. *)
Definition long_stay_widgets : widgets := mkWidgets HETEROGENEOUS 1 100 1 7 0 10 10 (3 # 2).

Lemma form_run_only_empty_log_error_witness :
  widget_ranges long_stay_widgets /\
  run_hospital_simulation (R := mean_gen) (form_params long_stay_widgets) 0%nat 50 =
    inl (KeyError "WaitTime") /\
  match run_hospital_simulation (R := mean_gen) (form_params long_stay_widgets) 0%nat 50 with
  | inl e => e = KeyError "WaitTime" /\
      exists s0 s, setup (R := mean_gen) (form_params long_stay_widgets) 0%nat = inr s0 /\
        run_loop (R := mean_gen) (form_params long_stay_widgets) 50 s0 = inr (Some s) /\
        now s == inject_Z (w_simulation_duration long_stay_widgets) * MINS_IN_DAY /\
        patient_log s = []
  | inr _ => True
  end.
Proof.
  assert (Hw : widget_ranges long_stay_widgets)
    by (unfold widget_ranges, long_stay_widgets; cbn; repeat split; try lia; lra).
  assert (Hr : run_hospital_simulation (R := mean_gen) (form_params long_stay_widgets) 0%nat 50 =
               inl (KeyError "WaitTime")) by (vm_compute; reflexivity).
  split; [exact Hw|]. split; [exact Hr|].
  exact (form_run_only_empty_log_error (R := mean_gen) long_stay_widgets 0%nat 50 Hw).
Defined.

Lemma sensitivity_non_numeric_only_scenario_witness :
  In "scenario"%string (map fst (form_dict default_widgets)) /\
  sensitivity_range (form_dict default_widgets) "scenario"%string = inl (NameError "sensitivity_results"%string) /\
  ("scenario"%string = "scenario"%string /\ NameError "sensitivity_results"%string = NameError "sensitivity_results"%string).
Proof.
  assert (Hin : In "scenario"%string (map fst (form_dict default_widgets))) by (cbn; left; reflexivity).
  assert (Hs : sensitivity_range (form_dict default_widgets) "scenario"%string = inl (NameError "sensitivity_results"%string))
    by (vm_compute; reflexivity).
  split; [exact Hin|]. split; [exact Hs|].
  pose proof (sensitivity_non_numeric_only_scenario default_widgets "scenario"%string Hin) as H.
  rewrite Hs in H. exact H.
Defined.

Lemma sensitivity_range_evenly_spaced_witness :
  py_lookup (form_dict default_widgets) "num_beds"%string = Some (PyInt 20) /\
  py_num (PyInt 20) = Some 20 /\
  exists xs, sensitivity_range (form_dict default_widgets) "num_beds"%string = inr xs /\
    List.length xs = 10%nat /\
    forall i, (i < 10)%nat -> nth i xs 0 == 20 * (1 # 2) + inject_Z (Z.of_nat i) * (20 * (1 # 9)).
Proof.
  assert (H1 : py_lookup (form_dict default_widgets) "num_beds"%string = Some (PyInt 20))
    by (vm_compute; reflexivity).
  assert (H2 : py_num (PyInt 20) = Some 20) by reflexivity.
  split; [exact H1|]. split; [exact H2|].
  exact (sensitivity_range_evenly_spaced _ _ _ _ H1 H2).
Defined.

Lemma mu_actual_bounds_witness :
  0 < 1 /\ (0 <= 16 <= Objective3.NUM_BEDS)%Z /\
  ((3 # 4) * 1 <= Objective3.mu_actual 1 16 <= 1 /\
   (Objective3.mu_actual 1 16 == 1 <->
    (16 <= Objective3.NUM_SENIOR_STAFF + Objective3.NUM_JUNIOR_STAFF)%Z)).
Proof.
  assert (H1 : 0 < 1) by lra.
  assert (H2 : (0 <= 16 <= Objective3.NUM_BEDS)%Z) by (unfold Objective3.NUM_BEDS; lia).
  split; [exact H1|]. split; [exact H2|]. exact (mu_actual_bounds 1 16 H1 H2).
Defined.

Definition one_bed_queued : Objective3.resource :=
  Objective3.mkResource 1 [Objective3.BedReq 1] [].

Lemma script_request_within_capacity_witness :
  (Objective3.count one_bed_queued <= Objective3.capacity one_bed_queued)%Z /\
  Objective3.capacity (Objective3.request one_bed_queued (Objective3.BedReq 2)) =
    Objective3.capacity one_bed_queued /\
  (Objective3.count (Objective3.request one_bed_queued (Objective3.BedReq 2)) <=
     Objective3.capacity one_bed_queued)%Z /\
  Permutation (Objective3.users (Objective3.request one_bed_queued (Objective3.BedReq 2)) ++
               Objective3.put_queue (Objective3.request one_bed_queued (Objective3.BedReq 2)))
              (Objective3.users one_bed_queued ++ Objective3.put_queue one_bed_queued ++
               [Objective3.BedReq 2]).
Proof.
  assert (H : (Objective3.count one_bed_queued <= Objective3.capacity one_bed_queued)%Z)
    by (vm_compute; discriminate).
  split; [exact H|]. exact (script_request_within_capacity one_bed_queued (Objective3.BedReq 2) H).
Defined.

End ExtraWitnesses.
